(** * Resume extraction pipeline: a shallow embedding of [main.py] and of
      the reconciliation code and the button handler of [app.py]

    The orchestration code is embedded as programs of a small state, error
    and trace monad.  The state holds the two module-level globals of
    [main.py] ([_model], [_json_model]), the allocator of Python object
    identities and the state of the outside world (file system, document
    loader, hosted model).  The outside world is a parameter: every theorem
    holds for all of its behaviours. *)

From Stdlib Require Import List ZArith NArith String Ascii Bool Lia Arith.
From Stdlib Require DecimalN DecimalPos DecimalFacts.
Import ListNotations.

Set Implicit Arguments.

(** ** Python strings *)

(** A Python [str] is a sequence of Unicode code points. *)
Definition pystr := list N.

(** Embedding of the ASCII literals of the source. *)
Definition py (s : string) : pystr :=
  map N_of_ascii (list_ascii_of_string s).

Definition pystr_eq_dec : forall a b : pystr, {a = b} + {a <> b} :=
  list_eq_dec N.eq_dec.

Definition pystr_eqb (a b : pystr) : bool :=
  if pystr_eq_dec a b then true else false.

(** [a in b] for strings, as a proposition: [a] occurs verbatim in [b]. *)
Definition contains (b a : pystr) : Prop :=
  exists pre post, b = pre ++ a ++ post.

(** [sep.join(parts)]. *)
Fixpoint join (sep : pystr) (parts : list pystr) : pystr :=
  match parts with
  | [] => []
  | [p] => p
  | p :: rest => p ++ sep ++ join sep rest
  end.

(** ** JSON-like Python values *)

(** The values a structured model output is made of.  A [dict] keeps its
    insertion order; floating-point numbers are outside the embedding. *)
Unset Elimination Schemes.
Inductive jvalue : Type :=
| JNull
| JBool (b : bool)
| JInt (z : Z)
| JStr (s : pystr)
| JList (items : list jvalue)
| JDict (items : list (pystr * jvalue)).
Set Elimination Schemes.

(** What [model.ainvoke] returns: the parsed object of a structured-output
    runnable, or a chat message with a [content] attribute. *)
Inductive pyvalue : Type :=
| PJson (v : jvalue)
| PMessage (content : pystr).

(** ** Exceptions *)

Inductive exn : Type :=
| KeyError (key : pystr)
| IndexError (msg : string)
| ValueError (msg : string)
| AttributeError (msg : string)
| TypeError (msg : string)
| Raised (cls : string) (detail : pystr).

(** ** The outside world *)

(** Identity of a Python object. *)
Definition ref := nat.

(** A chunk produced by the document loader ([Document.page_content];
    the metadata of a chunk is never read by the code). *)
Record Document := { page_content : pystr }.

Definition kwargs := list (pystr * pystr).

(** The behaviour of everything the code calls but does not define.  Each
    oracle sees and updates the world state [W], and may raise. *)
Record World (W : Type) := {
  (* UnstructuredLoader(file_path, strategy).lazy_load(), fully consumed *)
  lazy_load : pystr -> pystr -> W -> (exn + list Document) * W;
  (* open(path, 'r', encoding='utf-8').read() *)
  open_read : pystr -> W -> (exn + pystr) * W;
  (* init_chat_model(model, model_provider=...): success or failure *)
  chat_model_init : pystr -> pystr -> W -> option exn * W;
  (* base.with_structured_output(method=...): success or failure *)
  structured_init : ref -> pystr -> W -> option exn * W;
  (* await model.ainvoke(input) *)
  model_ainvoke : ref -> pystr -> W -> (exn + pyvalue) * W;
  (* str.format on a replacement field with an attribute or index access,
     a conversion other than !s, or a non-empty format spec *)
  rich_field : pystr -> pystr -> option N -> pystr -> kwargs -> exn + pystr;
  (* the decimal value of a non-ASCII code point, if it is a decimal digit *)
  unicode_todecimal : N -> option N
}.

(** ** Interpreter state and events *)

Record state (W : Type) := {
  _model : option ref;       (* None is Python's None *)
  _json_model : option ref;
  next_ref : ref;            (* identity of the next allocated object *)
  world : W
}.

Inductive event : Type :=
| EvLoad (file_path strategy : pystr)
| EvRead (file_path : pystr)
| EvFormat (template : pystr) (kw : kwargs)
| EvInitChatModel (model provider : pystr) (obj : option ref)
| EvStructured (base : ref) (method : pystr) (obj : option ref)
| EvSetModel (obj : ref)
| EvSetJsonModel (obj : ref)
| EvInvoke (model : ref) (input : pystr).

Definition init_state {W} (w : W) : state W :=
  {| _model := None; _json_model := None; next_ref := 0; world := w |}.

(** ** The monad: state, exceptions, and the trace of what was done *)

Definition M (W A : Type) : Type :=
  state W -> (exn + A) * state W * list event.

Definition ret {W A} (a : A) : M W A := fun s => (inr a, s, []).

Definition raise {W A} (e : exn) : M W A := fun s => (inl e, s, []).

Definition bind {W A B} (m : M W A) (f : A -> M W B) : M W B :=
  fun s =>
    match m s with
    | (inl e, s1, t1) => (inl e, s1, t1)
    | (inr a, s1, t1) =>
        match f a s1 with
        | (r, s2, t2) => (r, s2, t1 ++ t2)
        end
    end.

Declare Scope py_scope.
Delimit Scope py_scope with py.
Notation "x <- m ;; k" := (bind m (fun x => k))
  (at level 61, m at next level, right associativity) : py_scope.
Notation "m ;;; k" := (bind m (fun _ => k))
  (at level 61, right associativity) : py_scope.
Local Open Scope py_scope.

Definition lift {W A} (r : exn + A) : M W A := fun s => (r, s, []).

Definition emit {W} (e : event) : M W unit := fun s => (inr tt, s, [e]).

Definition set_world {W} (s : state W) (w : W) : state W :=
  {| _model := _model s; _json_model := _json_model s;
     next_ref := next_ref s; world := w |}.

Definition alloc {W} (s : state W) : state W :=
  {| _model := _model s; _json_model := _json_model s;
     next_ref := S (next_ref s); world := world s |}.

(** ** [str.format]: the markup of a format string *)

(** The scanner of [str.format] splits a format string into literal text
    and replacement fields, left to right; a syntax error ends the scan. *)
Inductive segment : Type :=
| SLiteral (text : pystr)
| SField (field_name : pystr) (conversion : option N) (format_spec : pystr)
| SError (e : exn).

Definition c_lbrace : N := 123.   (* { *)
Definition c_rbrace : N := 125.   (* } *)
Definition c_lbracket : N := 91.  (* [ *)
Definition c_rbracket : N := 93.  (* ] *)
Definition c_colon : N := 58.     (* : *)
Definition c_bang : N := 33.      (* ! *)
Definition c_dot : N := 46.       (* . *)

(** [markup_literal] reads literal text up to a brace; a doubled brace is
    an escape.  [markup_field_name] reads a field name up to [}], [:] or
    [!]; inside [[...]] ([markup_field_index]) nothing is special.
    [markup_format_spec] reads a format spec up to the brace that closes
    the field, counting nested braces. *)
Fixpoint markup_literal (s : pystr) (lit : pystr) {struct s} : list segment :=
  match s with
  | [] => [SLiteral lit]
  | c :: s1 =>
      if N.eqb c c_lbrace then
        match s1 with
        | [] =>
            [SError (ValueError "Single '{' encountered in format string")]
        | c1 :: s2 =>
            if N.eqb c1 c_lbrace
            then SLiteral (lit ++ [c_lbrace]) :: markup_literal s2 []
            else SLiteral lit :: markup_field_name s1 []
        end
      else if N.eqb c c_rbrace then
        match s1 with
        | [] =>
            [SError (ValueError "Single '}' encountered in format string")]
        | c1 :: s2 =>
            if N.eqb c1 c_rbrace
            then SLiteral (lit ++ [c_rbrace]) :: markup_literal s2 []
            else
              [SError (ValueError "Single '}' encountered in format string")]
        end
      else markup_literal s1 (lit ++ [c])
  end

with markup_field_name (s : pystr) (name : pystr) {struct s} : list segment :=
  match s with
  | [] => [SError (ValueError "expected '}' before end of string")]
  | c :: s1 =>
      if N.eqb c c_lbrace then
        [SError (ValueError "unexpected '{' in field name")]
      else if N.eqb c c_lbracket then
        markup_field_index s1 (name ++ [c])
      else if N.eqb c c_rbrace then
        SField name None [] :: markup_literal s1 []
      else if N.eqb c c_colon then
        markup_format_spec s1 name None [] 0
      else if N.eqb c c_bang then
        match s1 with
        | [] =>
            [SError (ValueError
               "end of string while looking for conversion specifier")]
        | conv :: s2 =>
            match s2 with
            | [] => markup_format_spec s2 name (Some conv) [] 0
            | c2 :: s3 =>
                if N.eqb c2 c_rbrace then
                  SField name (Some conv) [] :: markup_literal s3 []
                else if N.eqb c2 c_colon then
                  markup_format_spec s3 name (Some conv) [] 0
                else
                  [SError (ValueError
                     "expected ':' after conversion specifier")]
            end
        end
      else markup_field_name s1 (name ++ [c])
  end

with markup_field_index (s : pystr) (name : pystr) {struct s} : list segment :=
  match s with
  | [] => [SError (ValueError "expected '}' before end of string")]
  | c :: s1 =>
      if N.eqb c c_rbracket
      then markup_field_name s1 (name ++ [c])
      else markup_field_index s1 (name ++ [c])
  end

with markup_format_spec (s : pystr) (name : pystr) (conv : option N)
       (spec : pystr) (open_braces : nat) {struct s} : list segment :=
  match s with
  | [] => [SError (ValueError "unmatched '{' in format spec")]
  | c :: s1 =>
      if N.eqb c c_lbrace then
        markup_format_spec s1 name conv (spec ++ [c]) (S open_braces)
      else if N.eqb c c_rbrace then
        match open_braces with
        | O => SField name conv spec :: markup_literal s1 []
        | S n => markup_format_spec s1 name conv (spec ++ [c]) n
        end
      else markup_format_spec s1 name conv (spec ++ [c]) open_braces
  end.

Definition markup (template : pystr) : list segment :=
  markup_literal template [].

(** The part of a field name up to the first [.] or [[], and the rest. *)
Fixpoint field_name_split (field_name : pystr) : pystr * pystr :=
  match field_name with
  | [] => ([], [])
  | c :: s =>
      if N.eqb c c_dot || N.eqb c c_lbracket then ([], field_name)
      else let '(first, rest) := field_name_split s in (c :: first, rest)
  end.

Definition lookup (kw : kwargs) (key : pystr) : option pystr :=
  match find (fun kv => pystr_eqb (fst kv) key) kw with
  | Some kv => Some (snd kv)
  | None => None
  end.

(** ** [json.dumps(obj, indent=2)] *)

(** Interpreter limits (recursion depth, the digit limit of integer
    conversion) are not part of the embedding. *)

Definition hexdigit (d : N) : N :=
  if N.ltb d 10 then (48 + d)%N else (87 + d)%N.

(** ['{0:04x}'.format(n)] for [n < 0x10000]. *)
Definition hex4 (n : N) : pystr :=
  [hexdigit (n / 4096 mod 16); hexdigit (n / 256 mod 16);
   hexdigit (n / 16 mod 16); hexdigit (n mod 16)]%N.

(** The replacement of one character by [py_encode_basestring_ascii]:
    the entries of [ESCAPE_DCT], printable ASCII unchanged, and a
    [\uXXXX] escape or a surrogate pair of escapes for the rest. *)
Definition escape_char (c : N) : pystr :=
  if N.eqb c 92 then [92; 92]%N
  else if N.eqb c 34 then [92; 34]%N
  else if N.eqb c 8 then [92; 98]%N
  else if N.eqb c 12 then [92; 102]%N
  else if N.eqb c 10 then [92; 110]%N
  else if N.eqb c 13 then [92; 114]%N
  else if N.eqb c 9 then [92; 116]%N
  else if N.ltb c 32 then 92%N :: 117%N :: hex4 c
  else if N.leb c 126 then [c]
  else if N.ltb c 65536 then 92%N :: 117%N :: hex4 c
  else
    let n := (c - 65536)%N in
    let s1 := N.lor 55296 (N.land (N.shiftr n 10) 1023) in
    let s2 := N.lor 56320 (N.land n 1023) in
    (92%N :: 117%N :: hex4 s1) ++ (92%N :: 117%N :: hex4 s2).

Definition encode_basestring_ascii (s : pystr) : pystr :=
  34%N :: flat_map escape_char s ++ [34%N].

Fixpoint uint_chars (d : Decimal.uint) : pystr :=
  match d with
  | Decimal.Nil => []
  | Decimal.D0 d => 48%N :: uint_chars d
  | Decimal.D1 d => 49%N :: uint_chars d
  | Decimal.D2 d => 50%N :: uint_chars d
  | Decimal.D3 d => 51%N :: uint_chars d
  | Decimal.D4 d => 52%N :: uint_chars d
  | Decimal.D5 d => 53%N :: uint_chars d
  | Decimal.D6 d => 54%N :: uint_chars d
  | Decimal.D7 d => 55%N :: uint_chars d
  | Decimal.D8 d => 56%N :: uint_chars d
  | Decimal.D9 d => 57%N :: uint_chars d
  end.

(** [int.__repr__]. *)
Definition intstr (z : Z) : pystr :=
  match z with
  | Zneg p => 45%N :: uint_chars (N.to_uint (Npos p))
  | _ => uint_chars (N.to_uint (Z.to_N z))
  end.

(** ['\n' + _indent * _current_indent_level] with [_indent = ' ' * 2]. *)
Definition newline_indent (level : nat) : pystr :=
  10%N :: List.concat (repeat (py "  ") level).

(** [_iterencode], [_iterencode_list] and [_iterencode_dict] of
    [_make_iterencode], with the chunks joined.  [item_separator] is [","]
    and [key_separator] is [": "], the defaults when an indent is given. *)
Fixpoint iterencode (v : jvalue) (level : nat) {struct v} : pystr :=
  match v with
  | JNull => py "null"
  | JBool true => py "true"
  | JBool false => py "false"
  | JInt z => intstr z
  | JStr s => encode_basestring_ascii s
  | JList [] => py "[]"
  | JList lst =>
      let separator := py "," ++ newline_indent (S level) in
      py "[" ++ newline_indent (S level)
      ++ (fix loop (first : bool) (l : list jvalue) : pystr :=
            match l with
            | [] => []
            | value :: l' =>
                (if first then [] else separator)
                ++ iterencode value (S level) ++ loop false l'
            end) true lst
      ++ newline_indent level ++ py "]"
  | JDict [] => py "{}"
  | JDict dct =>
      let item_separator := py "," ++ newline_indent (S level) in
      py "{" ++ newline_indent (S level)
      ++ (fix loop (first : bool) (l : list (pystr * jvalue)) : pystr :=
            match l with
            | [] => []
            | (key, value) :: l' =>
                (if first then [] else item_separator)
                ++ encode_basestring_ascii key ++ py ": "
                ++ iterencode value (S level) ++ loop false l'
            end) true dct
      ++ newline_indent level ++ py "}"
  end.

Definition json_dumps (obj : jvalue) : pystr := iterencode obj 0.

(** ** [json.loads] *)

(** The decoder follows [json/decoder.py] and [json/scanner.py], and for
    strings and numbers the scanner the interpreter uses in their place
    (ASCII digits and hexadecimal digits only).  A position in the document is the text that remains
    to be read.  Recursion on the document is bounded by [fuel], which
    [json_loads] sets from the length of the document, high enough for
    every document ([json_loads_total]). *)
Inductive scan_error : Type :=
| StopIteration
| JSONDecodeError (msg : string)
| FloatingPoint       (* a literal that denotes a float: not modelled *)
| Exhausted.          (* out of fuel *)

Definition is_ws (c : N) : bool :=
  N.eqb c 32 || N.eqb c 9 || N.eqb c 10 || N.eqb c 13.

(** [WHITESPACE.match(s, end).end()]. *)
Fixpoint skip_ws (s : pystr) : pystr :=
  match s with
  | [] => []
  | c :: s' => if is_ws c then skip_ws s' else s
  end.

Definition is_digit (c : N) : bool := N.leb 48 c && N.leb c 57.

Definition hexval (c : N) : option N :=
  if N.leb 48 c && N.leb c 57 then Some (c - 48)%N
  else if N.leb 97 c && N.leb c 102 then Some (c - 87)%N
  else if N.leb 65 c && N.leb c 70 then Some (c - 55)%N
  else None.

Definition decode_uXXXX (h1 h2 h3 h4 : N) : option N :=
  match hexval h1, hexval h2, hexval h3, hexval h4 with
  | Some v1, Some v2, Some v3, Some v4 =>
      Some (((v1 * 16 + v2) * 16 + v3) * 16 + v4)%N
  | _, _, _, _ => None
  end.

(** The table [BACKSLASH]. *)
Definition BACKSLASH (esc : N) : option N :=
  if N.eqb esc 34 then Some 34%N
  else if N.eqb esc 92 then Some 92%N
  else if N.eqb esc 47 then Some 47%N
  else if N.eqb esc 98 then Some 8%N
  else if N.eqb esc 102 then Some 12%N
  else if N.eqb esc 110 then Some 10%N
  else if N.eqb esc 114 then Some 13%N
  else if N.eqb esc 116 then Some 9%N
  else None.

Definition is_high_surrogate (c : N) : bool := N.leb 55296 c && N.leb c 56319.
Definition is_low_surrogate (c : N) : bool := N.leb 56320 c && N.leb c 57343.

Definition join_surrogates (uni uni2 : N) : N :=
  (65536 + N.lor (N.shiftl (uni - 55296) 10) (uni2 - 56320))%N.

(** [scanstring] in strict mode, from the character after the opening
    quote; [chunks] is the text decoded so far.  A [\uXXXX] escape must be
    followed by at least one more character of the document, and a second
    escape is only tried as the low half of a surrogate pair when it is
    followed by one too. *)
Fixpoint scanstring (s : pystr) (chunks : pystr) {struct s}
  : scan_error + (pystr * pystr) :=
  match s with
  | [] => inl (JSONDecodeError "Unterminated string starting at")
  | c :: s1 =>
      if N.eqb c 34 then inr (chunks, s1)
      else if N.eqb c 92 then
        match s1 with
        | [] => inl (JSONDecodeError "Unterminated string starting at")
        | esc :: s2 =>
            if N.eqb esc 117 then
              match s2 with
              | h1 :: h2 :: h3 :: h4 :: ((_ :: _) as s3) =>
                  match decode_uXXXX h1 h2 h3 h4 with
                  | None => inl (JSONDecodeError "Invalid \uXXXX escape")
                  | Some uni =>
                      match s3 with
                      | b1 :: b2 :: k1 :: k2 :: k3 :: k4 :: ((_ :: _) as s5) =>
                          if is_high_surrogate uni
                             && N.eqb b1 92 && N.eqb b2 117 then
                            match decode_uXXXX k1 k2 k3 k4 with
                            | None =>
                                inl (JSONDecodeError "Invalid \uXXXX escape")
                            | Some uni2 =>
                                if is_low_surrogate uni2 then
                                  scanstring s5
                                    (chunks ++ [join_surrogates uni uni2])
                                else scanstring s3 (chunks ++ [uni])
                            end
                          else scanstring s3 (chunks ++ [uni])
                      | _ => scanstring s3 (chunks ++ [uni])
                      end
                  end
              | _ => inl (JSONDecodeError "Invalid \uXXXX escape")
              end
            else
              match BACKSLASH esc with
              | None => inl (JSONDecodeError "Invalid \escape")
              | Some char => scanstring s2 (chunks ++ [char])
              end
        end
      else if N.ltb c 32 then
        inl (JSONDecodeError "Invalid control character at")
      else scanstring s1 (chunks ++ [c])
  end.

Fixpoint strip_prefix (p s : pystr) : option pystr :=
  match p, s with
  | [], _ => Some s
  | a :: p', b :: s' => if N.eqb a b then strip_prefix p' s' else None
  | _ :: _, [] => None
  end.

Fixpoint span_digits (s : pystr) : pystr * pystr :=
  match s with
  | [] => ([], [])
  | c :: s' =>
      if is_digit c
      then let '(ds, rest) := span_digits s' in (c :: ds, rest)
      else ([], s)
  end.

(** The integer part of [NUMBER_RE]: a single [0], or a digit from 1 to 9
    followed by any number of digits. *)
Definition match_integer (s : pystr) : option (pystr * pystr) :=
  match s with
  | [] => None
  | c :: s' =>
      if N.eqb c 48 then Some ([c], s')
      else if is_digit c then Some (span_digits s)
      else None
  end.

(** The optional fraction (a dot and at least one digit) and the optional
    exponent ([e] or [E], an optional sign, at least one digit). *)
Definition has_frac (rest : pystr) : bool :=
  match rest with
  | dot :: d :: _ => N.eqb dot 46 && is_digit d
  | _ => false
  end.

Definition has_exp (rest : pystr) : bool :=
  match rest with
  | e :: d :: rest' =>
      (N.eqb e 101 || N.eqb e 69)
      && (is_digit d
          || ((N.eqb d 43 || N.eqb d 45)
              && match rest' with d' :: _ => is_digit d' | [] => false end))
  | _ => false
  end.

Fixpoint chars_uint (ds : pystr) : Decimal.uint :=
  match ds with
  | [] => Decimal.Nil
  | c :: ds' =>
      let d := chars_uint ds' in
      if N.eqb c 48 then Decimal.D0 d
      else if N.eqb c 49 then Decimal.D1 d
      else if N.eqb c 50 then Decimal.D2 d
      else if N.eqb c 51 then Decimal.D3 d
      else if N.eqb c 52 then Decimal.D4 d
      else if N.eqb c 53 then Decimal.D5 d
      else if N.eqb c 54 then Decimal.D6 d
      else if N.eqb c 55 then Decimal.D7 d
      else if N.eqb c 56 then Decimal.D8 d
      else Decimal.D9 d
  end.

(** [int(text)] on a string of ASCII digits. *)
Definition parse_int (negative : bool) (digits : pystr) : Z :=
  let n := Z.of_N (N.of_uint (chars_uint digits)) in
  if negative then (- n)%Z else n.

(** [match_number] and the choice between [parse_int] and [parse_float]. *)
Definition scan_number (s : pystr) : option (scan_error + (jvalue * pystr)) :=
  let '(negative, s') :=
    match s with
    | c :: s1 => if N.eqb c 45 then (true, s1) else (false, s)
    | [] => (false, s)
    end in
  match match_integer s' with
  | None => None
  | Some (digits, rest) =>
      if has_frac rest || has_exp rest then Some (inl FloatingPoint)
      else Some (inr (JInt (parse_int negative digits), rest))
  end.

(** [dict(pairs)]: a later pair with a key already present replaces the
    value and keeps the place of the key. *)
Fixpoint dict_set (d : list (pystr * jvalue)) (key : pystr) (value : jvalue)
  : list (pystr * jvalue) :=
  match d with
  | [] => [(key, value)]
  | (k, v) :: d' =>
      if pystr_eqb k key then (k, value) :: d'
      else (k, v) :: dict_set d' key value
  end.

Definition dict_of_pairs (pairs : list (pystr * jvalue))
  : list (pystr * jvalue) :=
  fold_left (fun d kv => dict_set d (fst kv) (snd kv)) pairs [].

Definition expecting_value {A} (r : scan_error + A) : scan_error + A :=
  match r with
  | inl StopIteration => inl (JSONDecodeError "Expecting value")
  | _ => r
  end.

(** [_scan_once], and the loops of [JSONObject] and [JSONArray]. *)
Fixpoint scan_once (fuel : nat) (s : pystr) {struct fuel}
  : scan_error + (jvalue * pystr) :=
  match fuel with
  | O => inl Exhausted
  | S fuel' =>
      match s with
      | [] => inl StopIteration
      | nextchar :: s1 =>
          if N.eqb nextchar 34 then
            match scanstring s1 [] with
            | inl e => inl e
            | inr (str, rest) => inr (JStr str, rest)
            end
          else if N.eqb nextchar 123 then
            (* JSONObject *)
            match skip_ws s1 with
            | [] =>
                inl (JSONDecodeError
                       "Expecting property name enclosed in double quotes")
            | c :: s2 =>
                if N.eqb c 125 then inr (JDict [], s2)
                else if N.eqb c 34 then
                  match JSONObject_loop fuel' [] s2 with
                  | inl e => inl e
                  | inr (pairs, rest) =>
                      inr (JDict (dict_of_pairs pairs), rest)
                  end
                else
                  inl (JSONDecodeError
                         "Expecting property name enclosed in double quotes")
            end
          else if N.eqb nextchar 91 then
            (* JSONArray *)
            let s2 := skip_ws s1 in
            match strip_prefix [93%N] s2 with
            | Some rest => inr (JList [], rest)
            | None =>
                match JSONArray_loop fuel' [] s2 with
                | inl e => inl e
                | inr (values, rest) => inr (JList values, rest)
                end
            end
          else
            match strip_prefix (py "null") s,
                  strip_prefix (py "true") s,
                  strip_prefix (py "false") s with
            | Some rest, _, _ => inr (JNull, rest)
            | None, Some rest, _ => inr (JBool true, rest)
            | None, None, Some rest => inr (JBool false, rest)
            | None, None, None =>
                match scan_number s with
                | Some r => r
                | None =>
                    match strip_prefix (py "NaN") s,
                          strip_prefix (py "Infinity") s,
                          strip_prefix (py "-Infinity") s with
                    | None, None, None => inl StopIteration
                    | _, _, _ => inl FloatingPoint
                    end
                end
            end
      end
  end

with JSONObject_loop (fuel : nat) (pairs : list (pystr * jvalue)) (s : pystr)
       {struct fuel} : scan_error + (list (pystr * jvalue) * pystr) :=
  match fuel with
  | O => inl Exhausted
  | S fuel' =>
      match scanstring s [] with
      | inl e => inl e
      | inr (key, s1) =>
          match skip_ws s1 with
          | [] => inl (JSONDecodeError "Expecting ':' delimiter")
          | c :: s2 =>
              if N.eqb c 58 then
                match expecting_value (scan_once fuel' (skip_ws s2)) with
                | inl e => inl e
                | inr (value, s3) =>
                    let pairs' := pairs ++ [(key, value)] in
                    match skip_ws s3 with
                    | [] => inl (JSONDecodeError "Expecting ',' delimiter")
                    | c' :: s4 =>
                        if N.eqb c' 125 then inr (pairs', s4)
                        else if N.eqb c' 44 then
                          match skip_ws s4 with
                          | [] =>
                              inl (JSONDecodeError
                                "Expecting property name enclosed in double quotes")
                          | q :: s5 =>
                              if N.eqb q 34
                              then JSONObject_loop fuel' pairs' s5
                              else
                                inl (JSONDecodeError
                                  "Expecting property name enclosed in double quotes")
                          end
                        else inl (JSONDecodeError "Expecting ',' delimiter")
                    end
                end
              else inl (JSONDecodeError "Expecting ':' delimiter")
          end
      end
  end

with JSONArray_loop (fuel : nat) (values : list jvalue) (s : pystr)
       {struct fuel} : scan_error + (list jvalue * pystr) :=
  match fuel with
  | O => inl Exhausted
  | S fuel' =>
      match expecting_value (scan_once fuel' s) with
      | inl e => inl e
      | inr (value, s1) =>
          let values' := values ++ [value] in
          match skip_ws s1 with
          | [] => inl (JSONDecodeError "Expecting ',' delimiter")
          | c :: s2 =>
              if N.eqb c 93 then inr (values', s2)
              else if N.eqb c 44
              then JSONArray_loop fuel' values' (skip_ws s2)
              else inl (JSONDecodeError "Expecting ',' delimiter")
          end
      end
  end.

(** [json.loads(s)]. *)
Definition json_loads (s : pystr) : scan_error + jvalue :=
  match s with
  | 65279%N :: _ =>
      inl (JSONDecodeError "Unexpected UTF-8 BOM (decode using utf-8-sig)")
  | _ =>
      match expecting_value (scan_once (2 * List.length s + 2) (skip_ws s)) with
      | inl e => inl e
      | inr (obj, rest) =>
          match skip_ws rest with
          | [] => inr obj
          | _ :: _ => inl (JSONDecodeError "Extra data")
          end
      end
  end.

Section Core.

Context {W : Type}.
Variable E : World W.

(** *** Primitive operations *)

Definition loader_lazy_load (file_path strategy : pystr)
  : M W (list Document) :=
  fun s =>
    let '(r, w) := lazy_load E file_path strategy (world s) in
    (r, set_world s w, [EvLoad file_path strategy]).

(** [init_chat_model]: on success a new object is allocated. *)
Definition init_chat_model (model provider : pystr) : M W ref :=
  fun s =>
    match chat_model_init E model provider (world s) with
    | (Some e, w) =>
        (inl e, set_world s w, [EvInitChatModel model provider None])
    | (None, w) =>
        let r := next_ref s in
        (inr r, alloc (set_world s w),
         [EvInitChatModel model provider (Some r)])
    end.

(** [base.with_structured_output(method=...)]: on success a new runnable
    wrapping [base] is allocated. *)
Definition with_structured_output (base : ref) (method : pystr) : M W ref :=
  fun s =>
    match structured_init E base method (world s) with
    | (Some e, w) =>
        (inl e, set_world s w, [EvStructured base method None])
    | (None, w) =>
        let r := next_ref s in
        (inr r, alloc (set_world s w),
         [EvStructured base method (Some r)])
    end.

Definition ainvoke (model : option ref) (input : pystr) : M W pyvalue :=
  match model with
  | None =>
      raise (AttributeError "'NoneType' object has no attribute 'ainvoke'")
  | Some m =>
      fun s =>
        let '(r, w) := model_ainvoke E m input (world s) in
        (r, set_world s w, [EvInvoke m input])
  end.

Definition get__model : M W (option ref) := fun s => (inr (_model s), s, []).
Definition get__json_model : M W (option ref) :=
  fun s => (inr (_json_model s), s, []).

Definition set__model (r : ref) : M W unit :=
  fun s =>
    (inr tt,
     {| _model := Some r; _json_model := _json_model s;
        next_ref := next_ref s; world := world s |},
     [EvSetModel r]).

Definition set__json_model (r : ref) : M W unit :=
  fun s =>
    (inr tt,
     {| _model := _model s; _json_model := Some r;
        next_ref := next_ref s; world := world s |},
     [EvSetJsonModel r]).

(** *** [load_pdf_content] *)

(** The loop [for doc in loader.lazy_load(): docs.append(doc)]. *)
Definition collect_docs (chunks : list Document) : list Document :=
  fold_left (fun docs doc => docs ++ [doc]) chunks [].

Definition load_pdf_content (file_path : pystr) : M W pystr :=
  chunks <- loader_lazy_load file_path (py "hi_res") ;;
  let docs := collect_docs chunks in
  match docs with
  | _ :: _ =>
      let docs_content := map page_content docs in
      ret (join (py " ") docs_content)
  | [] => ret (py "PDF content unavailable")
  end.

(** *** [read_markdown_file] *)

Definition read_markdown_file (file_path : pystr) : M W pystr :=
  fun s =>
    let '(r, w) := open_read E file_path (world s) in
    (r, set_world s w, [EvRead file_path]).

(** *** [get_model] *)

Definition get_model (json_mode : bool) : M W (option ref) :=
  if json_mode then
    cached <- get__json_model ;;
    match cached with
    | None =>
        base_model <- init_chat_model (py "gpt-4o-mini") (py "openai") ;;
        h <- with_structured_output base_model (py "json_mode") ;;
        set__json_model h
    | Some _ => ret tt
    end ;;;
    get__json_model
  else
    cached <- get__model ;;
    match cached with
    | None =>
        h <- init_chat_model (py "gpt-4o-mini") (py "openai") ;;
        set__model h
    | Some _ => ret tt
    end ;;;
    get__model.

(** *** [call_llm] *)

(** [result.content]. *)
Definition getattr_content (result : pyvalue) : exn + pyvalue :=
  match result with
  | PMessage c => inr (PJson (JStr c))
  | PJson _ => inl (AttributeError "object has no attribute 'content'")
  end.

Definition call_llm (input_data : pystr) (json_mode : bool) : M W pyvalue :=
  model <- get_model json_mode ;;
  result <- ainvoke model input_data ;;
  if json_mode then ret result else lift (getattr_content result).

(** *** [str.format] *)

(** [Py_UNICODE_TODECIMAL]. *)
Definition todecimal (c : N) : option N :=
  if N.ltb c 128 then
    if N.leb 48 c && N.leb c 57 then Some (c - 48)%N else None
  else unicode_todecimal E c.

(** [PY_SSIZE_T_MAX] of a 64-bit build. *)
Definition PY_SSIZE_T_MAX : N := 9223372036854775807.

Inductive arg_index : Type :=
| NotInteger
| Integer (n : N)
| TooManyDigits.

Fixpoint get_integer_from (s : pystr) (accumulator : N) : arg_index :=
  match s with
  | [] => Integer accumulator
  | c :: s1 =>
      match todecimal c with
      | None => NotInteger
      | Some digitval =>
          if N.ltb ((PY_SSIZE_T_MAX - digitval) / 10) accumulator
          then TooManyDigits
          else get_integer_from s1 (accumulator * 10 + digitval)
      end
  end.

Definition get_integer (s : pystr) : arg_index :=
  match s with
  | [] => NotInteger
  | _ => get_integer_from s 0
  end.

(** A field that substitutes the value itself: no attribute or index
    access, no conversion or [!s], an empty format spec. *)
Definition is_plain (rest : pystr) (conversion : option N)
    (format_spec : pystr) : bool :=
  match rest, conversion, format_spec with
  | [], None, [] => true
  | [], Some c, [] => N.eqb c 115    (* s *)
  | _, _, _ => false
  end.

(** One replacement field.  [str.format] is called with keyword arguments
    only, so a numbered or auto-numbered field is out of range. *)
Definition format_field (kw : kwargs) (field_name : pystr)
    (conversion : option N) (format_spec : pystr) : exn + pystr :=
  let '(first, rest) := field_name_split field_name in
  match get_integer first with
  | TooManyDigits =>
      inl (ValueError "Too many decimal digits in format string")
  | Integer _ =>
      inl (IndexError
             "Replacement index out of range for positional args tuple")
  | NotInteger =>
      match first with
      | [] =>
          inl (IndexError
                 "Replacement index out of range for positional args tuple")
      | _ :: _ =>
          match lookup kw first with
          | None => inl (KeyError first)
          | Some v =>
              if is_plain rest conversion format_spec then inr v
              else rich_field E v rest conversion format_spec kw
          end
      end
  end.

Fixpoint build_string (kw : kwargs) (segs : list segment) : exn + pystr :=
  match segs with
  | [] => inr []
  | SLiteral text :: segs' =>
      match build_string kw segs' with
      | inl e => inl e
      | inr out => inr (text ++ out)
      end
  | SField field_name conversion format_spec :: segs' =>
      match format_field kw field_name conversion format_spec with
      | inl e => inl e
      | inr text =>
          match build_string kw segs' with
          | inl e => inl e
          | inr out => inr (text ++ out)
          end
      end
  | SError e :: _ => inl e
  end.

(** [template.format] called with the keyword arguments [kw]. *)
Definition format (template : pystr) (kw : kwargs) : exn + pystr :=
  build_string kw (markup template).

Definition str_format (template : pystr) (kw : kwargs) : M W pystr :=
  emit (EvFormat template kw) ;;; lift (format template kw).

(** *** [extract_fields] *)

Definition extract_fields (pdf_path fields_description : pystr)
  : M W pyvalue :=
  content <- load_pdf_content pdf_path ;;
  prompt_template <- read_markdown_file (py "prompt.md") ;;
  formatted_prompt <-
    str_format prompt_template
      [(py "fields_description", fields_description);
       (py "content", content)] ;;
  result <- call_llm formatted_prompt true ;;
  ret result.

(** *** [validate_extracted_data] *)

Definition validate_extracted_data (fields_description : pystr)
    (extracted_data : jvalue) : M W pyvalue :=
  validation_template <- read_markdown_file (py "validation_prompt.md") ;;
  formatted_prompt <-
    str_format validation_template
      [(py "fields_description", fields_description);
       (py "extracted_data", json_dumps extracted_data)] ;;
  validation_result <- call_llm formatted_prompt true ;;
  ret validation_result.

End Core.

(** ** The reconciliation code of [app.py] *)

Module App.

(** [d.get(key, default)] on a dict. *)
Definition dict_get (d : list (pystr * jvalue)) (key : pystr)
    (default : jvalue) : jvalue :=
  match find (fun kv => pystr_eqb (fst kv) key) d with
  | Some kv => snd kv
  | None => default
  end.

(** [x.get(key, default)]: of the JSON values only a dict has [get]. *)
Definition get (x : jvalue) (key : pystr) (default : jvalue) : exn + jvalue :=
  match x with
  | JDict d => inr (dict_get d key default)
  | _ => inl (AttributeError "object has no attribute 'get'")
  end.

(** [score >= n] for an integer literal [n]; [bool] is a subclass of
    [int]. *)
Definition ge (score : jvalue) (n : Z) : exn + bool :=
  match score with
  | JInt z => inr (Z.leb n z)
  | JBool b => inr (Z.leb n (if b then 1 else 0))
  | _ => inl (TypeError "'>=' not supported between instances")
  end.

Inductive color : Type := green | orange | red.

(** The chain [if score >= 8 ... elif score >= 6 ... else ...]. *)
Definition score_color (score : jvalue) : exn + color :=
  match ge score 8 with
  | inl e => inl e
  | inr true => inr green
  | inr false =>
      match ge score 6 with
      | inl e => inl e
      | inr true => inr orange
      | inr false => inr red
      end
  end.

(** Truth value of a JSON value. *)
Definition truthy (v : jvalue) : bool :=
  match v with
  | JNull => false
  | JBool b => b
  | JInt z => negb (Z.eqb z 0)
  | JStr s => match s with [] => false | _ => true end
  | JList l => match l with [] => false | _ => true end
  | JDict d => match d with [] => false | _ => true end
  end.

(** The overall score line: the score shown and its colour. *)
Definition render_overall (validation_result : jvalue)
  : exn + (jvalue * color) :=
  match get validation_result (py "overall_score") (JInt 0) with
  | inl e => inl e
  | inr overall_score =>
      match score_color overall_score with
      | inl e => inl e
      | inr score_color => inr (overall_score, score_color)
      end
  end.

(** One element of the display of an extracted value. *)
Inductive shown : Type :=
| ShownJson (item : jvalue)      (* st.json(item) *)
| ShownBullet (item : jvalue)    (* st.markdown of a list item *)
| ShownValue (value : jvalue)    (* st.markdown of the value *)
| ShownNotFound.                 (* st.markdown("*Not found*") *)

(** The display of the extracted value of a field. *)
Definition render_value (value : jvalue) : list shown :=
  match value with
  | JList items =>
      match items with
      | [] => [ShownNotFound]
      | _ :: _ =>
          map (fun item =>
                 match item with
                 | JDict _ => ShownJson item
                 | _ => ShownBullet item
                 end) items
      end
  | _ => if truthy value then [ShownValue value] else [ShownNotFound]
  end.

(** What is shown for one field: the header with the score and its
    colour, the extracted value, and the validation details that are
    present.  (The header shows [field.title()]; the text of the lines is
    left out.) *)
Record field_view := {
  view_field : pystr;
  view_score : jvalue;
  view_color : color;
  view_value : list shown;
  view_details : list (string * jvalue)
}.

(** One detail line, [if evaluation.get(key): st.markdown(...)]. *)
Definition detail (evaluation : jvalue) (label : string) (key : pystr)
  : exn + list (string * jvalue) :=
  match get evaluation key JNull with
  | inl e => inl e
  | inr v => inr (if truthy v then [(label, v)] else [])
  end.

Definition details (evaluation : jvalue) : exn + list (string * jvalue) :=
  if truthy evaluation then
    match detail evaluation "Coverage" (py "coverage") with
    | inl e => inl e
    | inr l1 =>
        match detail evaluation "Correctness" (py "correctness") with
        | inl e => inl e
        | inr l2 =>
            match detail evaluation "Issues" (py "issues") with
            | inl e => inl e
            | inr l3 => inr (l1 ++ l2 ++ l3)
            end
        end
    end
  else inr [].

(** The body of the loop over [extracted_data.items()]. *)
Definition render_field (field_evaluations : jvalue) (field : pystr)
    (value : jvalue) : exn + field_view :=
  match get field_evaluations field (JDict []) with
  | inl e => inl e
  | inr evaluation =>
      match get evaluation (py "score") (JInt 0) with
      | inl e => inl e
      | inr score =>
          match score_color score with
          | inl e => inl e
          | inr field_color =>
              match details evaluation with
              | inl e => inl e
              | inr ds =>
                  inr {| view_field := field; view_score := score;
                         view_color := field_color;
                         view_value := render_value value;
                         view_details := ds |}
              end
          end
      end
  end.

Fixpoint render_fields (field_evaluations : jvalue)
    (items : list (pystr * jvalue)) : exn + list field_view :=
  match items with
  | [] => inr []
  | (field, value) :: items' =>
      match render_field field_evaluations field value with
      | inl e => inl e
      | inr v =>
          match render_fields field_evaluations items' with
          | inl e => inl e
          | inr vs => inr (v :: vs)
          end
      end
  end.

(** The display of the results, from [overall_score = ...] to the end of
    the loop over the fields. *)
Definition display (extracted_data validation_result : jvalue)
  : exn + ((jvalue * color) * list field_view) :=
  match render_overall validation_result with
  | inl e => inl e
  | inr overall =>
      match get validation_result (py "field_evaluations") (JDict []) with
      | inl e => inl e
      | inr field_evaluations =>
          match extracted_data with
          | JDict items =>
              match render_fields field_evaluations items with
              | inl e => inl e
              | inr views => inr (overall, views)
              end
          | _ => inl (AttributeError "object has no attribute 'items'")
          end
      end
  end.

(** The evaluation shown for a field the validation result says nothing
    about. *)
Definition default_view (field : pystr) (value : jvalue) : field_view :=
  {| view_field := field; view_score := JInt 0; view_color := red;
     view_value := render_value value; view_details := [] |}.

End App.

(** The text joined with single spaces, in the words of the data model:
    the first chunk, then each further chunk preceded by one space. *)
Definition space_joined (contents : list pystr) : pystr :=
  match contents with
  | [] => []
  | c :: cs => c ++ flat_map (fun x => 32%N :: x) cs
  end.

(** The chunks of the end-to-end scenario. *)
Definition jane_chunks : list Document :=
  [ {| page_content := py "Jane Doe," |};
    {| page_content := py "jane@example.com," |};
    {| page_content := py "Python developer" |} ].

(** ** A concrete world, for running the code on examples *)

(** A world in which the loader yields the chunks it is given, every file
    holds the same template, the model can be constructed and answers
    with a fixed object. *)
Definition stub_world (chunks : list Document) (template : pystr)
    (answer : pyvalue) : World unit :=
  {| lazy_load := fun _ _ w => (inr chunks, w);
     open_read := fun _ w => (inr template, w);
     chat_model_init := fun _ _ w => (None, w);
     structured_init := fun _ _ w => (None, w);
     model_ainvoke := fun _ _ w => (inr answer, w);
     rich_field := fun _ _ _ _ _ => inl (ValueError "unsupported");
     unicode_todecimal := fun _ => None |}.

(** A world whose loader cannot find the file. *)
Definition missing_file_world : World unit :=
  {| lazy_load := fun p _ w => (inl (Raised "FileNotFoundError" p), w);
     open_read := fun _ w => (inr [], w);
     chat_model_init := fun _ _ w => (None, w);
     structured_init := fun _ _ w => (None, w);
     model_ainvoke := fun _ _ w => (inr (PJson JNull), w);
     rich_field := fun _ _ _ _ _ => inl (ValueError "unsupported");
     unicode_todecimal := fun _ => None |}.

(** ** Histories of calls *)

(** A call of one of the functions of [main.py]. *)
Inductive call : Type :=
| CallGetModel (json_mode : bool)
| CallLLM (input_data : pystr) (json_mode : bool)
| CallLoadPdfContent (file_path : pystr)
| CallReadMarkdownFile (file_path : pystr)
| CallExtractFields (pdf_path fields_description : pystr)
| CallValidate (fields_description : pystr) (extracted_data : jvalue).

Definition forget {W A} (m : M W A) (s : state W) : state W * list event :=
  let '(_, s', t) := m s in (s', t).

Definition run_call {W} (E : World W) (c : call) (s : state W)
  : state W * list event :=
  match c with
  | CallGetModel json_mode => forget (get_model E json_mode) s
  | CallLLM input_data json_mode => forget (call_llm E input_data json_mode) s
  | CallLoadPdfContent file_path => forget (load_pdf_content E file_path) s
  | CallReadMarkdownFile file_path =>
      forget (read_markdown_file E file_path) s
  | CallExtractFields pdf_path fields_description =>
      forget (extract_fields E pdf_path fields_description) s
  | CallValidate fields_description extracted_data =>
      forget (validate_extracted_data E fields_description extracted_data) s
  end.

(** What a process does with the module: any sequence of calls, whether
    they return or raise. *)
Fixpoint run_history {W} (E : World W) (history : list call) (s : state W)
  : state W * list event :=
  match history with
  | [] => (s, [])
  | c :: history' =>
      let '(s1, t1) := run_call E c s in
      let '(s2, t2) := run_history E history' s1 in
      (s2, t1 ++ t2)
  end.

Definition is_set_model (e : event) : bool :=
  match e with EvSetModel _ => true | _ => false end.

Definition is_set_json_model (e : event) : bool :=
  match e with EvSetJsonModel _ => true | _ => false end.

(** The number of assignments to each global in a trace. *)
Definition writes_model (t : list event) : nat :=
  List.length (filter is_set_model t).

Definition writes_json_model (t : list event) : nat :=
  List.length (filter is_set_json_model t).

(** The cached handles are allocated objects, and they are two objects. *)
Definition slots_ok {W} (s : state W) : Prop :=
  (forall r, _model s = Some r -> r < next_ref s)
  /\ (forall r, _json_model s = Some r -> r < next_ref s)
  /\ (forall a b, _model s = Some a -> _json_model s = Some b -> a <> b).

(** What any piece of the code may do to the globals between a state [s]
    and a later state [s'], with trace [t]. *)
Definition step_ok {W} (s s' : state W) (t : list event) : Prop :=
  next_ref s <= next_ref s'
  /\ (slots_ok s -> slots_ok s')
  /\ (forall r, _model s = Some r -> _model s' = Some r /\ writes_model t = 0)
  /\ (_model s = None ->
      writes_model t = match _model s' with Some _ => 1 | None => 0 end)
  /\ (forall r, _json_model s = Some r ->
      _json_model s' = Some r /\ writes_json_model t = 0)
  /\ (_json_model s = None ->
      writes_json_model t =
        match _json_model s' with Some _ => 1 | None => 0 end).

(** A computation that respects the discipline of the two globals. *)
Definition M_ok {W A} (m : M W A) : Prop :=
  forall s r s' t, m s = (r, s', t) -> step_ok s s' t.

(** The three components of a run. *)
Definition outcome {W A} (m : M W A) (s : state W) : exn + A := fst (fst (m s)).
Definition state_after {W A} (m : M W A) (s : state W) : state W :=
  snd (fst (m s)).
Definition trace_of {W A} (m : M W A) (s : state W) : list event := snd (m s).

Definition is_structured (e : event) : bool :=
  match e with EvStructured _ _ _ => true | _ => false end.

(** The text [load_pdf_content] makes of the chunks of a document. *)
Definition document_text (chunks : list Document) : pystr :=
  match chunks with
  | [] => py "PDF content unavailable"
  | _ :: _ => join (py " ") (map page_content chunks)
  end.

(** The keyword arguments each step passes to [str.format]. *)
Definition extraction_kwargs (fields_description content : pystr) : kwargs :=
  [(py "fields_description", fields_description); (py "content", content)].

Definition validation_kwargs (fields_description : pystr)
    (extracted_data : jvalue) : kwargs :=
  [(py "fields_description", fields_description);
   (py "extracted_data", json_dumps extracted_data)].

(** Events of the prompt formatter and of the model client. *)
Definition is_formatter_event (e : event) : bool :=
  match e with EvRead _ | EvFormat _ _ => true | _ => false end.

Definition is_model_event (e : event) : bool :=
  match e with
  | EvInitChatModel _ _ _ | EvStructured _ _ _ | EvSetModel _
  | EvSetJsonModel _ | EvInvoke _ _ => true
  | _ => false
  end.

(** The end-to-end scenario of the specification. *)
Definition demo_template : pystr :=
  py "Extract these fields: {fields_description} from this text: {content}".

Definition demo_answer : jvalue :=
  JDict [(py "name", JStr (py "Jane Doe"));
         (py "email", JStr (py "jane@example.com"));
         (py "skills", JList [JStr (py "Python")])].

Definition demo_world : World unit :=
  stub_world jane_chunks demo_template (PJson demo_answer).

(** Events of the construction of a model handle. *)
Definition is_construction_event (e : event) : bool :=
  match e with
  | EvInitChatModel _ _ _ | EvStructured _ _ _ | EvSetModel _
  | EvSetJsonModel _ => true
  | _ => false
  end.

(** ** What a template asks for *)


(** The template has the placeholder [{name}] (or [{name!s}]): a field
    that stands for the value itself. *)
Definition has_placeholder (template name : pystr) : Prop :=
  exists conversion,
    In (SField name conversion []) (markup template)
    /\ (conversion = None \/ conversion = Some 115%N).

(** The validation result of the end-to-end scenario. *)
Definition demo_validation : jvalue :=
  JDict [(py "overall_score", JInt 9);
         (py "summary", JStr (py "Strong match"));
         (py "field_evaluations",
          JDict [(py "name",
                  JDict [(py "score", JInt 10);
                         (py "coverage", JStr (py "full"));
                         (py "correctness", JStr (py "exact"));
                         (py "issues", JStr [])])])].

(** A key is absent from a dict. *)
Definition absent (key : pystr) (d : list (pystr * jvalue)) : Prop :=
  ~ In key (map fst d).

(** ** JSON-compatible values *)

(** A string is text when its characters are code points and it has no
    high surrogate immediately followed by a low surrogate (two code
    points that stand for one character in UTF-16). *)
Fixpoint text_ok (s : pystr) : bool :=
  match s with
  | [] => true
  | c :: s' =>
      N.ltb c 1114112
      && negb (is_high_surrogate c
               && match s' with
                  | c' :: _ => is_low_surrogate c'
                  | [] => false
                  end)
      && text_ok s'
  end.













(** Induction on JSON values, through the lists they contain. *)
Section JvalueInduction.

Variable P : jvalue -> Prop.
Hypothesis Hnull : P JNull.
Hypothesis Hbool : forall b, P (JBool b).
Hypothesis Hint : forall z, P (JInt z).
Hypothesis Hstr : forall s, P (JStr s).
Hypothesis Hlist : forall items, Forall P items -> P (JList items).
Hypothesis Hdict :
  forall items, Forall (fun kv => P (snd kv)) items -> P (JDict items).


End JvalueInduction.

(** A string literal inside a JSON document, and a line break. *)
Definition quoted (s : string) : pystr := 34%N :: py s ++ [34%N].
Definition newline : pystr := [10%N].

(** The structured mode invocations in a trace. *)
Definition invocations (t : list event) : list pystr :=
  flat_map (fun e => match e with EvInvoke _ input => [input] | _ => [] end) t.

(** A world for the validation step of the end-to-end scenario. *)
Definition demo_validation_template : pystr :=
  py "Fields: {fields_description} Data: {extracted_data}".


(** A segment that [str.format] renders from the keyword arguments alone:
    literal text, or a placeholder for a name that was passed. *)
Definition renders_from {W} (E : World W) (kw : kwargs) (seg : segment)
  : bool :=
  match seg with
  | SLiteral _ => true
  | SField field_name conversion format_spec =>
      let '(first, rest) := field_name_split field_name in
      is_plain rest conversion format_spec
      && match get_integer E first, first, lookup kw first with
         | NotInteger, _ :: _, Some _ => true
         | _, _, _ => false
         end
  | SError _ => false
  end.

(** The six parts of [step_ok]. *)
Ltac split_step_ok :=
  unfold step_ok; split; [|split; [|split; [|split; [|split]]]].

(** What a scan with [fuel] does on a document [s]: when it returns a
    value it has consumed some of the document, and it does not run out
    of fuel when [fuel] exceeds twice the length of the document by
    [slack]. *)
Definition scan_ok {A} (slack fuel : nat) (s : pystr)
    (r : scan_error + (A * pystr)) : Prop :=
  (forall a rest, r = inr (a, rest) -> List.length rest < List.length s)
  /\ (2 * List.length s + slack <= fuel -> r <> inl Exhausted).

(** ** Counting what a run did *)

Definition is_load (e : event) : bool :=
  match e with EvLoad _ _ => true | _ => false end.

Definition is_read (e : event) : bool :=
  match e with EvRead _ => true | _ => false end.

Definition is_format (e : event) : bool :=
  match e with EvFormat _ _ => true | _ => false end.

Definition is_init_chat_model (e : event) : bool :=
  match e with EvInitChatModel _ _ _ => true | _ => false end.

Definition is_invoke (e : event) : bool :=
  match e with EvInvoke _ _ => true | _ => false end.

(** The number of events of a kind in a trace. *)
Definition count (kind : event -> bool) (t : list event) : nat :=
  List.length (filter kind t).

(** A text without braces: [str.format] copies it as it is. *)
Definition brace_free (text : pystr) : bool :=
  forallb (fun c => negb (N.eqb c c_lbrace || N.eqb c c_rbrace)) text.


(** A world whose model answers in free text. *)
Definition chat_world : World unit :=
  stub_world [] [] (PMessage (py "Jane Doe is a Python developer.")).

(** A world in which no chat model can be created. *)
Definition offline_world : World unit :=
  {| lazy_load := fun _ _ w => (inr [], w);
     open_read := fun _ w => (inr [], w);
     chat_model_init :=
       fun _ provider w => (Some (Raised "ConnectionError" provider), w);
     structured_init := fun _ _ w => (None, w);
     model_ainvoke := fun _ _ w => (inr (PJson JNull), w);
     rich_field := fun _ _ _ _ _ => inl (ValueError "unsupported");
     unicode_todecimal := fun _ => None |}.

(** ** Reading a display *)

(** The value an element of a display shows, if it shows one. *)
Definition shown_item (x : App.shown) : option jvalue :=
  match x with
  | App.ShownJson item | App.ShownBullet item | App.ShownValue item =>
      Some item
  | App.ShownNotFound => None
  end.

Definition is_dict (v : jvalue) : bool :=
  match v with JDict _ => true | _ => false end.

Definition is_number (v : jvalue) : bool :=
  match v with JInt _ | JBool _ => true | _ => false end.

(** ** The page of [app.py]: what a click on the button does *)

Module Page.

Import App.

(** What the page shows of a result or of a failure.  The fixed parts of
    the page (titles, rules, the spinner, columns and expanders) and the
    wording of the lines are left out; the calls of Streamlit are taken not
    to raise. *)
Inductive output : Type :=
| OSuccess                       (* st.success(...) *)
| OOverall (overall_score : jvalue) (score_color : color)
| OSummary (summary : jvalue)
| OField (view : field_view)     (* one turn of the loop over the fields *)
| ORaw (extracted_data validation_result : pyvalue)   (* the two st.json *)
| OError (e : exn).              (* st.error(...) and st.exception(e) *)

(** What a run of the page does, in order. *)
Inductive page_event : Type :=
| PTempFile (name : option pystr)
| PWrite (name : pystr) (data : list Byte.byte)
| PNewLoop
| PMain (e : event)
| PLoopClose
| PShow (o : output)
| PUnlink (path : pystr).

(** What the page calls besides [main.py]. *)
Record Host (W : Type) := {
  (* what main.py calls *)
  main_world : World W;
  (* tempfile.NamedTemporaryFile(delete=False, suffix=...): tmp_file.name *)
  named_temporary_file : pystr -> W -> (exn + pystr) * W;
  (* tmp_file.write(data) and the close at the end of the with block *)
  write_close : pystr -> list Byte.byte -> W -> option exn * W;
  (* asyncio.new_event_loop() and asyncio.set_event_loop(loop) *)
  new_event_loop : W -> option exn * W;
  (* loop.close() *)
  loop_close : W -> option exn * W;
  (* os.unlink(path) *)
  os_unlink : pystr -> W -> option exn * W;
  (* whether an exception class of the world derives from Exception *)
  derives_from_Exception : string -> bool
}.

(** Programs of the page: as [M], with the events of the page. *)
Definition Pg (W A : Type) : Type :=
  state W -> (exn + A) * state W * list page_event.

Definition pret {W A} (a : A) : Pg W A := fun s => (inr a, s, []).

Definition praise {W A} (e : exn) : Pg W A := fun s => (inl e, s, []).

Definition pbind {W A B} (m : Pg W A) (f : A -> Pg W B) : Pg W B :=
  fun s =>
    match m s with
    | (inl e, s1, t1) => (inl e, s1, t1)
    | (inr a, s1, t1) =>
        match f a s1 with
        | (r, s2, t2) => (r, s2, t1 ++ t2)
        end
    end.

Declare Scope page_scope.
Delimit Scope page_scope with page.
Notation "x <- m ;; k" := (pbind m (fun x => k))
  (at level 61, m at next level, right associativity) : page_scope.
Notation "m ;;; k" := (pbind m (fun _ => k))
  (at level 61, right associativity) : page_scope.

Definition plift {W A} (r : exn + A) : Pg W A := fun s => (r, s, []).

Definition show {W} (o : output) : Pg W unit :=
  fun s => (inr tt, s, [PShow o]).

(** A function of [main.py], run to completion by
    [loop.run_until_complete]. *)
Definition run_until_complete {W A} (m : M W A) : Pg W A :=
  fun s => let '(r, s', t) := m s in (r, s', map PMain t).

(** A call that returns nothing, or raises. *)
Definition host_call {W} (f : W -> option exn * W) (ev : page_event)
  : Pg W unit :=
  fun s =>
    match f (world s) with
    | (Some e, w) => (inl e, set_world s w, [ev])
    | (None, w) => (inr tt, set_world s w, [ev])
    end.

Section Handler.

Local Open Scope page_scope.

Context {W : Type}.
Variable host : Host W.

(** [isinstance(e, Exception)]: the exceptions the interpreter raises
    here are, those of the world are as their class says. *)
Definition isinstance_Exception (e : exn) : bool :=
  match e with
  | Raised cls _ => derives_from_Exception host cls
  | _ => true
  end.

(** [try: body / except Exception as e: handler]. *)
Definition try_except_Exception (body : Pg W unit)
    (handler : exn -> Pg W unit) : Pg W unit :=
  fun s =>
    match body s with
    | (inl e, s1, t1) =>
        if isinstance_Exception e then
          match handler e s1 with
          | (r, s2, t2) => (r, s2, t1 ++ t2)
          end
        else (inl e, s1, t1)
    | (inr a, s1, t1) => (inr a, s1, t1)
    end.

(** [try: body / except: pass]. *)
Definition try_except_pass (body : Pg W unit) : Pg W unit :=
  fun s => match body s with (_, s1, t1) => (inr tt, s1, t1) end.

(** [try: body / finally: final]: [final] always runs; what [body]
    returned or raised stands, unless [final] raises. *)
Definition try_finally (body final : Pg W unit) : Pg W unit :=
  fun s =>
    match body s with
    | (r, s1, t1) =>
        match final s1 with
        | (inl e, s2, t2) => (inl e, s2, t1 ++ t2)
        | (inr _, s2, t2) => (r, s2, t1 ++ t2)
        end
    end.

(** The temporary file: created, then written and closed. *)
Definition NamedTemporaryFile (suffix : pystr) : Pg W pystr :=
  fun s =>
    match named_temporary_file host suffix (world s) with
    | (inl e, w) => (inl e, set_world s w, [PTempFile None])
    | (inr name, w) => (inr name, set_world s w, [PTempFile (Some name)])
    end.

(** [validate_extracted_data] called with what [extract_fields] returned:
    [json.dumps] raises [TypeError] on a chat message, after the template
    was read. *)
Definition validate (fields_description : pystr) (extracted_data : pyvalue)
  : M W pyvalue :=
  match extracted_data with
  | PJson data =>
      validate_extracted_data (main_world host) fields_description data
  | PMessage _ =>
      bind (read_markdown_file (main_world host) (py "validation_prompt.md"))
        (fun _ =>
           raise (TypeError
                    "Object of type AIMessage is not JSON serializable"))
  end.

(** [if 'summary' in validation_result: st.markdown(...)]. *)
Definition show_summary (validation_result : list (pystr * jvalue))
  : Pg W unit :=
  match find (fun kv => pystr_eqb (fst kv) (py "summary")) validation_result
  with
  | Some kv => show (OSummary (snd kv))
  | None => pret tt
  end.

(** [extracted_data.items()]. *)
Definition dict_items (extracted_data : pyvalue)
  : exn + list (pystr * jvalue) :=
  match extracted_data with
  | PJson (JDict d) => inr d
  | _ => inl (AttributeError "object has no attribute 'items'")
  end.

(** The loop over the fields: a field is on the page before the next one
    is looked at. *)
Fixpoint show_fields (field_evaluations : jvalue)
    (fields : list (pystr * jvalue)) : Pg W unit :=
  match fields with
  | [] => pret tt
  | (field, value) :: fields' =>
      view <- plift (render_field field_evaluations field value) ;;
      show (OField view) ;;;
      show_fields field_evaluations fields'
  end.

(** From [st.success] to the raw data at the end of the [try] block. *)
Definition display_results (extracted_data validation_result : pyvalue)
  : Pg W unit :=
  show OSuccess ;;;
  match validation_result with
  | PJson (JDict vr) =>
      overall <- plift (render_overall (JDict vr)) ;;
      show (OOverall (fst overall) (snd overall)) ;;;
      show_summary vr ;;;
      field_evaluations <-
        plift (get (JDict vr) (py "field_evaluations") (JDict [])) ;;
      fields <- plift (dict_items extracted_data) ;;
      show_fields field_evaluations fields ;;;
      show (ORaw extracted_data validation_result)
  | _ => praise (AttributeError "object has no attribute 'get'")
  end.

(** The body of the [try] block. *)
Definition process (tmp_file_path fields_description : pystr) : Pg W unit :=
  host_call (new_event_loop host) PNewLoop ;;;
  extracted_data <-
    run_until_complete
      (extract_fields (main_world host) tmp_file_path fields_description) ;;
  validation_result <-
    run_until_complete (validate fields_description extracted_data) ;;
  host_call (loop_close host) PLoopClose ;;;
  display_results extracted_data validation_result.

(** [if extract_button and uploaded_file: ...]: the upload is written to a
    temporary file, processed, and the file is removed. *)
Definition process_extraction (extract_button : bool)
    (uploaded_file : option (list Byte.byte)) (fields_description : pystr)
  : Pg W unit :=
  match extract_button, uploaded_file with
  | true, Some data =>
      tmp_file_path <- NamedTemporaryFile (py ".pdf") ;;
      host_call (write_close host tmp_file_path data)
        (PWrite tmp_file_path data) ;;;
      try_finally
        (try_except_Exception (process tmp_file_path fields_description)
           (fun e => show (OError e)))
        (try_except_pass
           (host_call (os_unlink host tmp_file_path) (PUnlink tmp_file_path)))
  | _, _ => pret tt
  end.

End Handler.

(** Events that are not a removal of a file. *)
Definition not_unlink (e : page_event) : bool :=
  match e with PUnlink _ => false | _ => true end.

(** What is shown of a result, and the events of the body of the [try]
    block. *)
Definition is_result (o : output) : bool :=
  match o with OError _ => false | _ => true end.

Definition inside_try (e : page_event) : bool :=
  match e with
  | PNewLoop | PMain _ | PLoopClose => true
  | PShow o => is_result o
  | PTempFile _ | PWrite _ _ | PUnlink _ => false
  end.

(** The summary line, when the validation result has a summary. *)
Definition summary_line (validation_result : list (pystr * jvalue))
  : list output :=
  match find (fun kv => pystr_eqb (fst kv) (py "summary")) validation_result
  with
  | Some kv => [OSummary (snd kv)]
  | None => []
  end.

(** What a run of the page made [main.py] do. *)
Definition main_events (t : list page_event) : list event :=
  flat_map (fun e => match e with PMain ev => [ev] | _ => [] end) t.

(** What is on the page after a run. *)
Definition shown_outputs (t : list page_event) : list output :=
  flat_map (fun e => match e with PShow o => [o] | _ => [] end) t.

(** A host for examples: every call succeeds; the temporary file is
    [/tmp/upload.pdf]. *)
Definition upload_path : pystr := py "/tmp/upload.pdf".

Definition stub_host {W} (E : World W) : Host W :=
  {| main_world := E;
     named_temporary_file := fun _ w => (inr upload_path, w);
     write_close := fun _ _ w => (None, w);
     new_event_loop := fun w => (None, w);
     loop_close := fun w => (None, w);
     os_unlink := fun _ w => (None, w);
     derives_from_Exception := fun _ => true |}.

(** A host whose disk is full when the upload is written. *)
Definition full_disk_host {W} (E : World W) : Host W :=
  {| main_world := E;
     named_temporary_file := fun _ w => (inr upload_path, w);
     write_close :=
       fun _ _ w =>
         (Some (Raised "OSError" (py "No space left on device")), w);
     new_event_loop := fun w => (None, w);
     loop_close := fun w => (None, w);
     os_unlink := fun _ w => (None, w);
     derives_from_Exception := fun _ => true |}.

(** The world of the end-to-end scenario, for both steps: the state of
    the world tells whether the model has been asked already; its first
    answer is the extraction result, its later ones the validation
    result. *)
Definition pipeline_world : World bool :=
  {| lazy_load := fun _ _ w => (inr jane_chunks, w);
     open_read :=
       fun p w =>
         (inr (if pystr_eqb p (py "prompt.md") then demo_template
               else demo_validation_template), w);
     chat_model_init := fun _ _ w => (None, w);
     structured_init := fun _ _ w => (None, w);
     model_ainvoke :=
       fun _ _ (asked : bool) =>
         (inr (PJson (if asked then demo_validation else demo_answer)), true);
     rich_field := fun _ _ _ _ _ => inl (ValueError "unsupported");
     unicode_todecimal := fun _ => None |}.

(** A validation result that gives a bare score where the evaluation of
    a field is expected. *)
Definition bare_score_validation : list (pystr * jvalue) :=
  [(py "overall_score", JInt 9);
   (py "field_evaluations", JDict [(py "email", JInt 7)])].

(** The upload of the examples. *)
Definition demo_upload : list Byte.byte :=
  [Byte.x25; Byte.x50; Byte.x44; Byte.x46].

(** Two clicks in a row, on the end-to-end scenario. *)
Definition first_click : (exn + unit) * state bool * list page_event :=
  process_extraction (stub_host pipeline_world) true (Some demo_upload)
    (py "Name") (init_state false).

Definition second_click : (exn + unit) * state bool * list page_event :=
  process_extraction (stub_host pipeline_world) true (Some demo_upload)
    (py "Name") (snd (fst first_click)).

End Page.

(** * Properties *)

(** ** Document ingestion *)

Section Ingestion.

Context {W : Type}.
Variable E : World W.

Lemma collect_docs_from (chunks docs : list Document) :
  fold_left (fun docs doc => docs ++ [doc]) chunks docs = docs ++ chunks.
Proof.
  revert docs; induction chunks as [|d chunks IH]; intros docs; simpl.
  - now rewrite app_nil_r.
  - rewrite IH, <- app_assoc. reflexivity.
Qed.

Lemma collect_docs_id (chunks : list Document) : collect_docs chunks = chunks.
Proof. unfold collect_docs. now rewrite collect_docs_from. Qed.

(** The outcome of [load_pdf_content] in terms of what the loader did. *)
Lemma load_pdf_content_run (file_path : pystr) (s : state W) :
  load_pdf_content E file_path s =
  match lazy_load E file_path (py "hi_res") (world s) with
  | (inl e, w) => (inl e, set_world s w, [EvLoad file_path (py "hi_res")])
  | (inr [], w) =>
      (inr (py "PDF content unavailable"), set_world s w,
       [EvLoad file_path (py "hi_res")])
  | (inr (d :: ds), w) =>
      (inr (join (py " ") (map page_content (d :: ds))), set_world s w,
       [EvLoad file_path (py "hi_res")])
  end.
Proof.
  unfold load_pdf_content, bind, loader_lazy_load.
  destruct (lazy_load E file_path (py "hi_res") (world s)) as [[e|chunks] w];
    [reflexivity|].
  rewrite collect_docs_id. destruct chunks; reflexivity.
Qed.

Lemma join_space_joined (contents : list pystr) :
  join (py " ") contents = space_joined contents.
Proof.
  destruct contents as [|c cs]; [reflexivity|].
  revert c; induction cs as [|c' cs IH]; intros c.
  - simpl. now rewrite app_nil_r.
  - change (join (py " ") (c :: c' :: cs))
      with (c ++ py " " ++ join (py " ") (c' :: cs)).
    rewrite IH. reflexivity.
Qed.

(** C5: when the loader yields no chunk, [load_pdf_content] returns the
    sentinel ["PDF content unavailable"]: a value, not an exception, and
    not the empty string. *)
Theorem load_pdf_content_no_chunks (file_path : pystr) (s : state W) (w : W) :
  lazy_load E file_path (py "hi_res") (world s) = (inr [], w) ->
  load_pdf_content E file_path s =
    (inr (py "PDF content unavailable"), set_world s w,
     [EvLoad file_path (py "hi_res")])
  /\ py "PDF content unavailable" <> [].
Proof.
  intros H. rewrite load_pdf_content_run, H. split; [reflexivity|discriminate].
Qed.

(** C7: when the loader yields at least one chunk, [load_pdf_content]
    returns the contents of all chunks, in the order the loader produced
    them, joined by single spaces. *)
Theorem load_pdf_content_joins_chunks (file_path : pystr) (s : state W)
    (chunks : list Document) (w : W) :
  lazy_load E file_path (py "hi_res") (world s) = (inr chunks, w) ->
  chunks <> [] ->
  load_pdf_content E file_path s =
    (inr (space_joined (map page_content chunks)), set_world s w,
     [EvLoad file_path (py "hi_res")]).
Proof.
  intros H Hne. rewrite load_pdf_content_run, H.
  destruct chunks as [|d ds]; [congruence|].
  now rewrite join_space_joined.
Qed.

End Ingestion.

(** C5, on an example: a loader that yields nothing. *)
Lemma load_pdf_content_no_chunks_witness :
  load_pdf_content (stub_world [] [] (PJson JNull)) (py "cv.pdf")
    (init_state tt)
  = (inr (py "PDF content unavailable"), set_world (init_state tt) tt,
     [EvLoad (py "cv.pdf") (py "hi_res")])
  /\ py "PDF content unavailable" <> [].
Proof.
  apply (load_pdf_content_no_chunks (stub_world [] [] (PJson JNull))).
  reflexivity.
Defined.

(** C7, on an example: three chunks. *)
Lemma load_pdf_content_joins_chunks_witness :
  load_pdf_content (stub_world jane_chunks [] (PJson JNull))
    (py "cv.pdf") (init_state tt)
  = (inr (py "Jane Doe, jane@example.com, Python developer"),
     set_world (init_state tt) tt, [EvLoad (py "cv.pdf") (py "hi_res")]).
Proof.
  change (py "Jane Doe, jane@example.com, Python developer")
    with (space_joined (map page_content jane_chunks)).
  apply (load_pdf_content_joins_chunks
           (stub_world jane_chunks [] (PJson JNull))
           (py "cv.pdf") (init_state tt) (w := tt)).
  - reflexivity.
  - discriminate.
Defined.

(** ** The model client *)

Section ModelClient.

Context {W : Type}.
Variable E : World W.

Lemma writes_model_app (t1 t2 : list event) :
  writes_model (t1 ++ t2) = writes_model t1 + writes_model t2.
Proof. unfold writes_model. now rewrite filter_app, List.length_app. Qed.

Lemma writes_json_model_app (t1 t2 : list event) :
  writes_json_model (t1 ++ t2) = writes_json_model t1 + writes_json_model t2.
Proof. unfold writes_json_model. now rewrite filter_app, List.length_app. Qed.

Lemma step_ok_refl (s : state W) : step_ok s s [].
Proof.
  split_step_ok; auto.
  - intros H; now rewrite H.
  - intros H; now rewrite H.
Qed.

Lemma step_ok_trans (s s1 s2 : state W) (t1 t2 : list event) :
  step_ok s s1 t1 -> step_ok s1 s2 t2 -> step_ok s s2 (t1 ++ t2).
Proof.
  intros (Hn & Hok & Hm & Hm0 & Hj & Hj0) (Hn' & Hok' & Hm' & Hm0' & Hj' & Hj0').
  split_step_ok; rewrite ?writes_model_app, ?writes_json_model_app.
  - lia.
  - auto.
  - intros r H. destruct (Hm r H) as [H1 H2].
    destruct (Hm' r H1) as [H3 H4]. split; [assumption|lia].
  - intros H. specialize (Hm0 H).
    destruct (_model s1) as [r|] eqn:E1.
    + destruct (Hm' r eq_refl) as [H3 H4]. rewrite H3. lia.
    + rewrite (Hm0' eq_refl). lia.
  - intros r H. destruct (Hj r H) as [H1 H2].
    destruct (Hj' r H1) as [H3 H4]. split; [assumption|lia].
  - intros H. specialize (Hj0 H).
    destruct (_json_model s1) as [r|] eqn:E1.
    + destruct (Hj' r eq_refl) as [H3 H4]. rewrite H3. lia.
    + rewrite (Hj0' eq_refl). lia.
Qed.

Lemma M_ok_ret {A} (a : A) : M_ok (W := W) (ret a).
Proof. intros s r s' t H; inversion H; subst. apply step_ok_refl. Qed.

Lemma M_ok_lift {A} (x : exn + A) : M_ok (W := W) (lift x).
Proof. intros s r s' t H; inversion H; subst. apply step_ok_refl. Qed.

Lemma M_ok_bind {A B} (m : M W A) (f : A -> M W B) :
  M_ok m -> (forall a, M_ok (f a)) -> M_ok (bind m f).
Proof.
  intros Hm Hf s r s' t. unfold bind.
  destruct (m s) as [[[e|a] s1] t1] eqn:Em.
  - intros H; inversion H; subst. eapply Hm; eauto.
  - destruct (f a s1) as [[r2 s2] t2] eqn:Ef.
    intros H; inversion H; subst.
    eapply step_ok_trans; [eapply Hm|eapply Hf]; eauto.
Qed.

(** Operations that only talk to the outside world. *)
Lemma step_ok_world (s : state W) (w : W) (t : list event) :
  writes_model t = 0 -> writes_json_model t = 0 ->
  step_ok s (set_world s w) t.
Proof.
  intros H1 H2. split_step_ok; simpl; auto.
  - intros H; now rewrite H.
  - intros H; now rewrite H.
Qed.

Lemma step_ok_alloc (s : state W) (w : W) (t : list event) :
  writes_model t = 0 -> writes_json_model t = 0 ->
  step_ok s (alloc (set_world s w)) t.
Proof.
  intros H1 H2. split_step_ok; simpl; auto.
  - intros (Ha & Hb & Hc). unfold slots_ok; simpl. split; [|split].
    + intros r Hr. specialize (Ha r Hr). lia.
    + intros r Hr. specialize (Hb r Hr). lia.
    + assumption.
  - intros H; now rewrite H.
  - intros H; now rewrite H.
Qed.

Lemma M_ok_loader (p q : pystr) : M_ok (loader_lazy_load E p q).
Proof.
  intros s r s' t. unfold loader_lazy_load.
  destruct (lazy_load E p q (world s)) as [r0 w].
  intros H; inversion H; subst. now apply step_ok_world.
Qed.

Lemma M_ok_read (p : pystr) : M_ok (read_markdown_file E p).
Proof.
  intros s r s' t. unfold read_markdown_file.
  destruct (open_read E p (world s)) as [r0 w].
  intros H; inversion H; subst. now apply step_ok_world.
Qed.

Lemma M_ok_ainvoke (m : option ref) (input : pystr) : M_ok (ainvoke E m input).
Proof.
  intros s r s' t. unfold ainvoke. destruct m as [h|].
  - destruct (model_ainvoke E h input (world s)) as [r0 w].
    intros H; inversion H; subst. now apply step_ok_world.
  - intros H; inversion H; subst. apply step_ok_refl.
Qed.

Lemma step_ok_quiet (s : state W) (t : list event) :
  writes_model t = 0 -> writes_json_model t = 0 -> step_ok s s t.
Proof.
  intros H1 H2. split_step_ok; auto.
  - intros H; now rewrite H.
  - intros H; now rewrite H.
Qed.

Lemma M_ok_str_format (tpl : pystr) (kw : kwargs) : M_ok (str_format E tpl kw).
Proof.
  unfold str_format. apply M_ok_bind.
  - intros s r s' t H. inversion H; subst. now apply step_ok_quiet.
  - intros _. apply M_ok_lift.
Qed.

Lemma M_ok_load_pdf_content (p : pystr) : M_ok (load_pdf_content E p).
Proof.
  unfold load_pdf_content. apply M_ok_bind; [apply M_ok_loader|].
  intros chunks. destruct (collect_docs chunks); apply M_ok_ret.
Qed.

(** The four ways a call of [get_model] can go in structured mode. *)
Lemma get_model_json_run (s : state W) :
  get_model E true s =
  match _json_model s with
  | Some h => (inr (Some h), s, [])
  | None =>
      match chat_model_init E (py "gpt-4o-mini") (py "openai") (world s) with
      | (Some e, w) =>
          (inl e, set_world s w,
           [EvInitChatModel (py "gpt-4o-mini") (py "openai") None])
      | (None, w) =>
          let base := next_ref s in
          match structured_init E base (py "json_mode") w with
          | (Some e, w') =>
              (inl e, set_world (alloc (set_world s w)) w',
               [EvInitChatModel (py "gpt-4o-mini") (py "openai") (Some base);
                EvStructured base (py "json_mode") None])
          | (None, w') =>
              (inr (Some (S base)),
               {| _model := _model s; _json_model := Some (S base);
                  next_ref := S (S base); world := w' |},
               [EvInitChatModel (py "gpt-4o-mini") (py "openai") (Some base);
                EvStructured base (py "json_mode") (Some (S base));
                EvSetJsonModel (S base)])
          end
      end
  end.
Proof.
  unfold get_model, bind, get__json_model.
  destruct (_json_model s) as [h|] eqn:Ej; simpl.
  - now rewrite Ej.
  - unfold init_chat_model.
    destruct (chat_model_init E (py "gpt-4o-mini") (py "openai") (world s))
      as [[e|] w]; [reflexivity|].
    unfold with_structured_output; simpl.
    destruct (structured_init E (next_ref s) (py "json_mode") w)
      as [[e|] w']; reflexivity.
Qed.

(** The three ways a call of [get_model] can go in free-text mode. *)
Lemma get_model_text_run (s : state W) :
  get_model E false s =
  match _model s with
  | Some h => (inr (Some h), s, [])
  | None =>
      match chat_model_init E (py "gpt-4o-mini") (py "openai") (world s) with
      | (Some e, w) =>
          (inl e, set_world s w,
           [EvInitChatModel (py "gpt-4o-mini") (py "openai") None])
      | (None, w) =>
          let h := next_ref s in
          (inr (Some h),
           {| _model := Some h; _json_model := _json_model s;
              next_ref := S h; world := w |},
           [EvInitChatModel (py "gpt-4o-mini") (py "openai") (Some h);
            EvSetModel h])
      end
  end.
Proof.
  unfold get_model, bind, get__model.
  destruct (_model s) as [h|] eqn:Em; simpl.
  - now rewrite Em.
  - unfold init_chat_model.
    destruct (chat_model_init E (py "gpt-4o-mini") (py "openai") (world s))
      as [[e|] w]; reflexivity.
Qed.

Lemma M_ok_get_model (json_mode : bool) : M_ok (get_model E json_mode).
Proof.
  intros s r s' t. destruct json_mode.
  - rewrite get_model_json_run.
    destruct (_json_model s) as [h|] eqn:Ej.
    + intros H; inversion H; subst. apply step_ok_refl.
    + destruct (chat_model_init E (py "gpt-4o-mini") (py "openai") (world s))
        as [[e|] w].
      * intros H; inversion H; subst. now apply step_ok_world.
      * cbv zeta.
        destruct (structured_init E (next_ref s) (py "json_mode") w)
          as [[e|] w'].
        -- intros H; inversion H; subst.
           change (set_world (alloc (set_world s w)) w')
             with (alloc (set_world s w')).
           now apply step_ok_alloc.
        -- intros H; inversion H; subst. clear H. split_step_ok; simpl.
           ++ lia.
           ++ intros (Ha & Hb & Hc). unfold slots_ok; simpl. split; [|split].
              ** intros r0 Hr. specialize (Ha r0 Hr). lia.
              ** intros r0 Hr. inversion Hr; subst. lia.
              ** intros a b Hm Hb'. inversion Hb'; subst.
                 specialize (Ha a Hm). lia.
           ++ intros r0 Hr. split; [assumption|reflexivity].
           ++ intros Hn. rewrite Hn. reflexivity.
           ++ intros r0 Hr. congruence.
           ++ intros _. reflexivity.
  - rewrite get_model_text_run.
    destruct (_model s) as [h|] eqn:Em.
    + intros H; inversion H; subst. apply step_ok_refl.
    + destruct (chat_model_init E (py "gpt-4o-mini") (py "openai") (world s))
        as [[e|] w].
      * intros H; inversion H; subst. now apply step_ok_world.
      * cbv zeta. intros H; inversion H; subst. clear H.
        split_step_ok; simpl.
        -- lia.
        -- intros (Ha & Hb & Hc). unfold slots_ok; simpl. split; [|split].
           ++ intros r0 Hr. inversion Hr; subst. lia.
           ++ intros r0 Hr. specialize (Hb r0 Hr). lia.
           ++ intros a b Ha' Hj. inversion Ha'; subst.
              specialize (Hb b Hj). lia.
        -- intros r0 Hr. congruence.
        -- intros _. reflexivity.
        -- intros r0 Hr. split; [assumption|reflexivity].
        -- intros Hn. rewrite Hn. reflexivity.
Qed.

Lemma M_ok_call_llm (input : pystr) (json_mode : bool) :
  M_ok (call_llm E input json_mode).
Proof.
  unfold call_llm. apply M_ok_bind; [apply M_ok_get_model|].
  intros m. apply M_ok_bind; [apply M_ok_ainvoke|].
  intros r. destruct json_mode; [apply M_ok_ret|apply M_ok_lift].
Qed.

Lemma M_ok_extract_fields (pdf_path fd : pystr) :
  M_ok (extract_fields E pdf_path fd).
Proof.
  unfold extract_fields.
  apply M_ok_bind; [apply M_ok_load_pdf_content|]. intros content.
  apply M_ok_bind; [apply M_ok_read|]. intros tpl.
  apply M_ok_bind; [apply M_ok_str_format|]. intros prompt.
  apply M_ok_bind; [apply M_ok_call_llm|]. intros r. apply M_ok_ret.
Qed.

Lemma M_ok_validate_extracted_data (fd : pystr) (data : jvalue) :
  M_ok (validate_extracted_data E fd data).
Proof.
  unfold validate_extracted_data.
  apply M_ok_bind; [apply M_ok_read|]. intros tpl.
  apply M_ok_bind; [apply M_ok_str_format|]. intros prompt.
  apply M_ok_bind; [apply M_ok_call_llm|]. intros r. apply M_ok_ret.
Qed.

Lemma forget_ok {A} (m : M W A) (s s' : state W) (t : list event) :
  M_ok m -> forget m s = (s', t) -> step_ok s s' t.
Proof.
  intros Hm. unfold forget. destruct (m s) as [[r s1] t1] eqn:Em.
  intros H; inversion H; subst. eapply Hm; eauto.
Qed.

Lemma run_call_ok (c : call) (s s' : state W) (t : list event) :
  run_call E c s = (s', t) -> step_ok s s' t.
Proof.
  destruct c; simpl; apply forget_ok.
  - apply M_ok_get_model.
  - apply M_ok_call_llm.
  - apply M_ok_load_pdf_content.
  - apply M_ok_read.
  - apply M_ok_extract_fields.
  - apply M_ok_validate_extracted_data.
Qed.

Lemma run_history_ok (history : list call) :
  forall (s s' : state W) (t : list event),
    run_history E history s = (s', t) -> step_ok s s' t.
Proof.
  induction history as [|c history IH]; intros s s' t; simpl.
  - intros H; inversion H; subst. apply step_ok_refl.
  - destruct (run_call E c s) as [s1 t1] eqn:Ec.
    destruct (run_history E history s1) as [s2 t2] eqn:Eh.
    intros H; inversion H; subst.
    eapply step_ok_trans; [eapply run_call_ok|eapply IH]; eauto.
Qed.

Lemma init_state_ok (w : W) : slots_ok (init_state w).
Proof. unfold slots_ok; simpl. repeat split; intros; discriminate. Qed.

Lemma reachable_ok (w : W) (history : list call) (s : state W)
    (t : list event) :
  run_history E history (init_state w) = (s, t) -> slots_ok s.
Proof.
  intros H. apply run_history_ok in H. destruct H as (_ & Hok & _).
  apply Hok, init_state_ok.
Qed.

(** A call that returns a handle returns the content of its slot. *)
Lemma get_model_returns_slot (json_mode : bool) (s s1 : state W)
    (h : option ref) (t : list event) :
  get_model E json_mode s = (inr h, s1, t) ->
  h <> None
  /\ h = (if json_mode then _json_model s1 else _model s1).
Proof.
  destruct json_mode.
  - rewrite get_model_json_run.
    destruct (_json_model s) as [h0|] eqn:Ej.
    + intros H; inversion H; subst. rewrite Ej. split; [discriminate|auto].
    + destruct (chat_model_init E (py "gpt-4o-mini") (py "openai") (world s))
        as [[e|] w]; [discriminate|]. cbv zeta.
      destruct (structured_init E (next_ref s) (py "json_mode") w)
        as [[e|] w']; [discriminate|].
      intros H; inversion H; subst. simpl. split; [discriminate|auto].
  - rewrite get_model_text_run.
    destruct (_model s) as [h0|] eqn:Em.
    + intros H; inversion H; subst. rewrite Em. split; [discriminate|auto].
    + destruct (chat_model_init E (py "gpt-4o-mini") (py "openai") (world s))
        as [[e|] w]; [discriminate|]. cbv zeta.
      intros H; inversion H; subst. simpl. split; [discriminate|auto].
Qed.

(** A call on a filled slot does nothing but return it. *)
Lemma get_model_cached (json_mode : bool) (s : state W) (r : ref) :
  (if json_mode then _json_model s else _model s) = Some r ->
  get_model E json_mode s = (inr (Some r), s, []).
Proof.
  destruct json_mode; intros H.
  - rewrite get_model_json_run, H. reflexivity.
  - rewrite get_model_text_run, H. reflexivity.
Qed.

(** In any process, each global is assigned at most once. *)
Lemma slots_written_at_most_once (w : W) (history : list call)
    (s : state W) (t : list event) :
  run_history E history (init_state w) = (s, t) ->
  writes_model t <= 1 /\ writes_json_model t <= 1.
Proof.
  intros H. apply run_history_ok in H.
  destruct H as (_ & _ & _ & Hm & _ & Hj).
  rewrite (Hm eq_refl), (Hj eq_refl).
  destruct (_model s), (_json_model s); lia.
Qed.

(** C3: in a process that has made any calls so far, a call of
    [get_model] that returns a handle returns an object; calling again in
    the same mode, at once or after any further calls, returns the
    identical handle without constructing anything or touching the state;
    a call in the other mode returns a different handle; over the whole
    run each of the two globals is assigned at most once, and once
    assigned it keeps its value. *)
Theorem get_model_memoized (w : W) (history1 history2 : list call)
    (json_mode : bool) (s0 s1 s2 : state W) (t0 t1 t2 : list event)
    (h1 : option ref) :
  run_history E history1 (init_state w) = (s0, t0) ->
  get_model E json_mode s0 = (inr h1, s1, t1) ->
  run_history E history2 s1 = (s2, t2) ->
  h1 <> None
  /\ get_model E json_mode s1 = (inr h1, s1, [])
  /\ get_model E json_mode s2 = (inr h1, s2, [])
  /\ (forall h2 s3 t3,
        get_model E (negb json_mode) s2 = (inr h2, s3, t3) -> h2 <> h1)
  /\ writes_model (t0 ++ t1 ++ t2) <= 1
  /\ writes_json_model (t0 ++ t1 ++ t2) <= 1
  /\ (forall r, _model s1 = Some r ->
        _model s2 = Some r /\ writes_model t2 = 0)
  /\ (forall r, _json_model s1 = Some r ->
        _json_model s2 = Some r /\ writes_json_model t2 = 0).
Proof.
  intros H0 H1 H2.
  pose proof H0 as Hok0. apply reachable_ok in Hok0.
  pose proof H0 as Hs0. apply run_history_ok in Hs0.
  pose proof H1 as Hs1. apply M_ok_get_model in Hs1.
  pose proof H2 as Hs2. apply run_history_ok in Hs2.
  assert (Hok1 : slots_ok s1) by (apply Hs1; assumption).
  assert (Hok2 : slots_ok s2) by (apply Hs2; assumption).
  pose proof H1 as Hr1. apply get_model_returns_slot in Hr1.
  destruct Hr1 as [Hne Hslot].
  destruct h1 as [r1|]; [clear Hne|congruence].
  assert (Hslot2 : (if json_mode then _json_model s2 else _model s2) = Some r1).
  { destruct Hs2 as (_ & _ & Hm & _ & Hj & _).
    destruct json_mode; [apply Hj|apply Hm]; auto. }
  split; [discriminate|].
  split; [apply get_model_cached; auto|].
  split; [apply get_model_cached; auto|].
  split.
  { intros h2 s3 t3 H3.
    pose proof H3 as Hs3. apply M_ok_get_model in Hs3.
    assert (Hok3 : slots_ok s3) by (apply Hs3; assumption).
    pose proof H3 as Hr3. apply get_model_returns_slot in Hr3.
    destruct Hr3 as [Hne3 Hslot3].
    destruct h2 as [r2|]; [|congruence].
    destruct Hs3 as (_ & _ & Hm3 & _ & Hj3 & _).
    destruct Hok3 as (_ & _ & Hdiff).
    destruct json_mode; simpl in *.
    - destruct (Hj3 _ Hslot2) as [Hk _].
      intros Heq; inversion Heq; subst.
      eapply Hdiff; eauto.
    - destruct (Hm3 _ Hslot2) as [Hk _].
      intros Heq; inversion Heq; subst.
      eapply Hdiff; eauto. }
  assert (Hall : step_ok (init_state w) s2 (t0 ++ t1 ++ t2)).
  { eapply step_ok_trans; [eassumption|].
    eapply step_ok_trans; eassumption. }
  destruct Hall as (_ & _ & _ & Hm & _ & Hj).
  split; [rewrite (Hm eq_refl); destruct (_model s2); lia|].
  split; [rewrite (Hj eq_refl); destruct (_json_model s2); lia|].
  destruct Hs2 as (_ & _ & Hm2 & _ & Hj2 & _).
  split; assumption.
Qed.

(** C10: a call of [get_model] in structured mode leaves the free-text
    global as it was and never assigns it; a call in free-text mode leaves
    the structured global as it was, never assigns it and wraps nothing
    for structured output.  This holds whether the call returns or
    raises. *)
Theorem get_model_frame (s : state W) :
  (_model (state_after (get_model E true) s) = _model s
   /\ writes_model (trace_of (get_model E true) s) = 0)
  /\ (_json_model (state_after (get_model E false) s) = _json_model s
      /\ writes_json_model (trace_of (get_model E false) s) = 0
      /\ filter is_structured (trace_of (get_model E false) s) = []).
Proof.
  unfold state_after, trace_of. split.
  - rewrite get_model_json_run.
    destruct (_json_model s); [split; reflexivity|].
    destruct (chat_model_init E (py "gpt-4o-mini") (py "openai") (world s))
      as [[e|] w]; [split; reflexivity|]. cbv zeta.
    destruct (structured_init E (next_ref s) (py "json_mode") w)
      as [[e|] w']; split; reflexivity.
  - rewrite get_model_text_run.
    destruct (_model s); [repeat split; reflexivity|].
    destruct (chat_model_init E (py "gpt-4o-mini") (py "openai") (world s))
      as [[e|] w]; repeat split; reflexivity.
Qed.

End ModelClient.

(** C3, on an example: a process loads a document, asks for the
    structured model, then for the free-text model. *)
Lemma get_model_memoized_witness :
  get_model demo_world true
    (state_after (get_model demo_world true) (init_state tt))
  = (inr (Some 1), state_after (get_model demo_world true) (init_state tt), [])
  /\ (forall h2 s3 t3,
        get_model demo_world false
          (fst (run_history demo_world [CallGetModel false]
                  (state_after (get_model demo_world true) (init_state tt))))
        = (inr h2, s3, t3) -> h2 <> Some 1).
Proof.
  pose proof (@get_model_memoized unit demo_world tt
                [CallLoadPdfContent (py "cv.pdf")] [CallGetModel false] true
                _ _ _ _ _ _ _ eq_refl eq_refl eq_refl) as H.
  destruct H as (_ & H1 & _ & H3 & _).
  split; [exact H1|exact H3].
Defined.

(** ** The two steps *)

Section Steps.

Context {W : Type}.
Variable E : World W.

(** [call_llm] in structured mode, step by step. *)
Lemma call_llm_json_run (input : pystr) (s : state W) :
  call_llm E input true s =
  match get_model E true s with
  | (inl e, s1, t1) => (inl e, s1, t1)
  | (inr None, s1, t1) =>
      (inl (AttributeError "'NoneType' object has no attribute 'ainvoke'"),
       s1, t1 ++ [])
  | (inr (Some h), s1, t1) =>
      match model_ainvoke E h input (world s1) with
      | (inl e, w) => (inl e, set_world s1 w, t1 ++ [EvInvoke h input])
      | (inr result, w) =>
          (inr result, set_world s1 w, t1 ++ [EvInvoke h input] ++ [])
      end
  end.
Proof.
  unfold call_llm, bind.
  destruct (get_model E true s) as [[[e|[h|]] s1] t1]; try reflexivity.
  unfold ainvoke.
  destruct (model_ainvoke E h input (world s1)) as [[e|result] w];
    reflexivity.
Qed.

(** [get_model] only constructs handles: nothing else is in its trace. *)
Lemma get_model_trace (json_mode : bool) (s : state W) :
  forallb is_construction_event (trace_of (get_model E json_mode) s) = true.
Proof.
  unfold trace_of. destruct json_mode.
  - rewrite get_model_json_run.
    destruct (_json_model s); [reflexivity|].
    destruct (chat_model_init E (py "gpt-4o-mini") (py "openai") (world s))
      as [[e|] w]; [reflexivity|]. cbv zeta.
    destruct (structured_init E (next_ref s) (py "json_mode") w)
      as [[e|] w']; reflexivity.
  - rewrite get_model_text_run.
    destruct (_model s); [reflexivity|].
    destruct (chat_model_init E (py "gpt-4o-mini") (py "openai") (world s))
      as [[e|] w]; reflexivity.
Qed.

Lemma construction_is_model (t : list event) :
  forallb is_construction_event t = true -> forallb is_model_event t = true.
Proof.
  induction t as [|e t IH]; [reflexivity|]. simpl.
  intros H. apply andb_true_iff in H. destruct H as [He Ht].
  rewrite (IH Ht), andb_true_r. now destruct e.
Qed.

Lemma call_llm_trace (input : pystr) (s : state W) :
  forallb is_model_event (trace_of (call_llm E input true) s) = true.
Proof.
  unfold trace_of. rewrite call_llm_json_run.
  pose proof (construction_is_model _ (get_model_trace true s)) as Hg.
  unfold trace_of in Hg.
  destruct (get_model E true s) as [[[e|[h|]] s1] t1]; simpl in *.
  - assumption.
  - destruct (model_ainvoke E h input (world s1)) as [[e|result] w]; simpl;
      rewrite forallb_app, Hg; reflexivity.
  - now rewrite List.app_nil_r.
Qed.

(** [extract_fields], step by step: the outcome of each stage decides
    whether the next one runs. *)
Lemma extract_fields_run (pdf_path fields_description : pystr) (s : state W) :
  extract_fields E pdf_path fields_description s =
  let load := EvLoad pdf_path (py "hi_res") in
  match lazy_load E pdf_path (py "hi_res") (world s) with
  | (inl e, w1) => (inl e, set_world s w1, [load])
  | (inr chunks, w1) =>
      let read := EvRead (py "prompt.md") in
      match open_read E (py "prompt.md") w1 with
      | (inl e, w2) => (inl e, set_world s w2, [load; read])
      | (inr template, w2) =>
          let kw :=
            extraction_kwargs fields_description (document_text chunks) in
          let fmt := EvFormat template kw in
          match format E template kw with
          | inl e => (inl e, set_world s w2, [load; read; fmt])
          | inr prompt =>
              match call_llm E prompt true (set_world s w2) with
              | (r, s3, t3) => (r, s3, [load; read; fmt] ++ t3)
              end
          end
      end
  end.
Proof.
  unfold extract_fields. unfold bind at 1. rewrite load_pdf_content_run.
  destruct (lazy_load E pdf_path (py "hi_res") (world s))
    as [[e|chunks] w1]; [reflexivity|].
  assert (Hrest : forall content,
    (prompt_template <- read_markdown_file E (py "prompt.md") ;;
     formatted_prompt <-
       str_format E prompt_template
         [(py "fields_description", fields_description);
          (py "content", content)] ;;
     result <- call_llm E formatted_prompt true ;; ret result)
      (set_world s w1)
    = match open_read E (py "prompt.md") w1 with
      | (inl e, w2) => (inl e, set_world s w2, [EvRead (py "prompt.md")])
      | (inr template, w2) =>
          let kw := extraction_kwargs fields_description content in
          match format E template kw with
          | inl e =>
              (inl e, set_world s w2,
               [EvRead (py "prompt.md"); EvFormat template kw])
          | inr prompt =>
              match call_llm E prompt true (set_world s w2) with
              | (r, s3, t3) =>
                  (r, s3,
                   [EvRead (py "prompt.md"); EvFormat template kw] ++ t3)
              end
          end
      end).
  { intros content. unfold bind at 1. unfold read_markdown_file.
    change (world (set_world s w1)) with w1.
    destruct (open_read E (py "prompt.md") w1) as [[e|template] w2];
      [reflexivity|].
    change (set_world (set_world s w1) w2) with (set_world s w2).
    cbv zeta. unfold bind at 1, str_format. unfold bind at 1, emit, lift.
    unfold extraction_kwargs.
    destruct (format E template
                [(py "fields_description", fields_description);
                 (py "content", content)]) as [e|prompt]; [reflexivity|].
    unfold bind at 1.
    destruct (call_llm E prompt true (set_world s w2)) as [[[e|r] s3] t3];
      [reflexivity|].
    unfold ret. cbv beta iota. rewrite !List.app_nil_r. reflexivity. }
  destruct chunks as [|d ds]; unfold document_text; cbv beta iota;
    rewrite Hrest;
    (destruct (open_read E (py "prompt.md") w1) as [[e|template] w2];
     [reflexivity|]);
    cbv zeta;
    match goal with
    | |- context [format E template ?kw] =>
        destruct (format E template kw) as [e|prompt]; [reflexivity|]
    end;
    destruct (call_llm E prompt true (set_world s w2)) as [[r s3] t3];
    reflexivity.
Qed.

(** [validate_extracted_data], step by step. *)
Lemma validate_extracted_data_run (fields_description : pystr)
    (extracted_data : jvalue) (s : state W) :
  validate_extracted_data E fields_description extracted_data s =
  let read := EvRead (py "validation_prompt.md") in
  match open_read E (py "validation_prompt.md") (world s) with
  | (inl e, w1) => (inl e, set_world s w1, [read])
  | (inr template, w1) =>
      let kw := validation_kwargs fields_description extracted_data in
      let fmt := EvFormat template kw in
      match format E template kw with
      | inl e => (inl e, set_world s w1, [read; fmt])
      | inr prompt =>
          match call_llm E prompt true (set_world s w1) with
          | (r, s2, t2) => (r, s2, [read; fmt] ++ t2)
          end
      end
  end.
Proof.
  unfold validate_extracted_data. unfold bind at 1. unfold read_markdown_file.
  destruct (open_read E (py "validation_prompt.md") (world s))
    as [[e|template] w1]; [reflexivity|].
  cbv zeta. unfold bind at 1, str_format. unfold bind at 1, emit, lift.
  unfold validation_kwargs.
  destruct (format E template
              [(py "fields_description", fields_description);
               (py "extracted_data", json_dumps extracted_data)])
    as [e|prompt]; [reflexivity|].
  unfold bind at 1.
  destruct (call_llm E prompt true (set_world s w1)) as [[[e|r] s2] t2];
    [reflexivity|].
  unfold ret. cbv beta iota. rewrite !List.app_nil_r. reflexivity.
Qed.

(** C1: when every stage succeeds, [extract_fields] does exactly this, in
    this order: it loads the document at the path, reads the extraction
    template, formats it with the field description and the document
    text, obtains the structured-mode model (which only constructs
    handles, if it does anything), invokes it once on the formatted prompt,
    and returns what the model returned, whatever it is. *)
Theorem extract_fields_sequence (pdf_path fields_description : pystr)
    (s : state W) (chunks : list Document) (w1 : W) (template : pystr)
    (w2 : W) (prompt : pystr) (h : ref) (s3 : state W) (tg : list event)
    (result : pyvalue) (w4 : W) :
  lazy_load E pdf_path (py "hi_res") (world s) = (inr chunks, w1) ->
  open_read E (py "prompt.md") w1 = (inr template, w2) ->
  format E template
    (extraction_kwargs fields_description (document_text chunks))
    = inr prompt ->
  get_model E true (set_world s w2) = (inr (Some h), s3, tg) ->
  model_ainvoke E h prompt (world s3) = (inr result, w4) ->
  extract_fields E pdf_path fields_description s =
    (inr result, set_world s3 w4,
     [EvLoad pdf_path (py "hi_res");
      EvRead (py "prompt.md");
      EvFormat template
        (extraction_kwargs fields_description (document_text chunks))]
     ++ tg ++ [EvInvoke h prompt])
  /\ forallb is_construction_event tg = true.
Proof.
  intros Hload Hread Hfmt Hget Hinv.
  split.
  - rewrite extract_fields_run, Hload. cbv zeta. rewrite Hread, Hfmt.
    rewrite call_llm_json_run, Hget, Hinv. rewrite List.app_nil_r.
    reflexivity.
  - pose proof (get_model_trace true (set_world s w2)) as Ht.
    unfold trace_of in Ht. now rewrite Hget in Ht.
Qed.

(** C6: an exception raised by any stage is the outcome of the step, and
    nothing runs after it.  If the loader raises, [extract_fields] raises
    the same exception having read no template, formatted nothing and
    touched no model.  The same holds for a failure to read the template,
    of [str.format], of the construction of the model and of its
    invocation, in [extract_fields] and in [validate_extracted_data]: the
    trace ends with the operation that failed, which was tried once. *)
Theorem errors_propagate (pdf_path fields_description : pystr)
    (extracted_data : jvalue) (s : state W) (e : exn) :
  (forall w1,
      lazy_load E pdf_path (py "hi_res") (world s) = (inl e, w1) ->
      extract_fields E pdf_path fields_description s =
        (inl e, set_world s w1, [EvLoad pdf_path (py "hi_res")]))
  /\ (forall chunks w1 w2,
      lazy_load E pdf_path (py "hi_res") (world s) = (inr chunks, w1) ->
      open_read E (py "prompt.md") w1 = (inl e, w2) ->
      extract_fields E pdf_path fields_description s =
        (inl e, set_world s w2,
         [EvLoad pdf_path (py "hi_res"); EvRead (py "prompt.md")]))
  /\ (forall chunks w1 template w2,
      lazy_load E pdf_path (py "hi_res") (world s) = (inr chunks, w1) ->
      open_read E (py "prompt.md") w1 = (inr template, w2) ->
      format E template
        (extraction_kwargs fields_description (document_text chunks))
        = inl e ->
      extract_fields E pdf_path fields_description s =
        (inl e, set_world s w2,
         [EvLoad pdf_path (py "hi_res"); EvRead (py "prompt.md");
          EvFormat template
            (extraction_kwargs fields_description (document_text chunks))]))
  /\ (forall chunks w1 template w2 prompt s3 tg,
      lazy_load E pdf_path (py "hi_res") (world s) = (inr chunks, w1) ->
      open_read E (py "prompt.md") w1 = (inr template, w2) ->
      format E template
        (extraction_kwargs fields_description (document_text chunks))
        = inr prompt ->
      get_model E true (set_world s w2) = (inl e, s3, tg) ->
      extract_fields E pdf_path fields_description s =
        (inl e, s3,
         [EvLoad pdf_path (py "hi_res"); EvRead (py "prompt.md");
          EvFormat template
            (extraction_kwargs fields_description (document_text chunks))]
         ++ tg))
  /\ (forall chunks w1 template w2 prompt h s3 tg w4,
      lazy_load E pdf_path (py "hi_res") (world s) = (inr chunks, w1) ->
      open_read E (py "prompt.md") w1 = (inr template, w2) ->
      format E template
        (extraction_kwargs fields_description (document_text chunks))
        = inr prompt ->
      get_model E true (set_world s w2) = (inr (Some h), s3, tg) ->
      model_ainvoke E h prompt (world s3) = (inl e, w4) ->
      extract_fields E pdf_path fields_description s =
        (inl e, set_world s3 w4,
         [EvLoad pdf_path (py "hi_res"); EvRead (py "prompt.md");
          EvFormat template
            (extraction_kwargs fields_description (document_text chunks))]
         ++ tg ++ [EvInvoke h prompt]))
  /\ (forall w1,
      open_read E (py "validation_prompt.md") (world s) = (inl e, w1) ->
      validate_extracted_data E fields_description extracted_data s =
        (inl e, set_world s w1, [EvRead (py "validation_prompt.md")]))
  /\ (forall template w1,
      open_read E (py "validation_prompt.md") (world s) = (inr template, w1) ->
      format E template (validation_kwargs fields_description extracted_data)
        = inl e ->
      validate_extracted_data E fields_description extracted_data s =
        (inl e, set_world s w1,
         [EvRead (py "validation_prompt.md");
          EvFormat template
            (validation_kwargs fields_description extracted_data)]))
  /\ (forall template w1 prompt s2 tg,
      open_read E (py "validation_prompt.md") (world s) = (inr template, w1) ->
      format E template (validation_kwargs fields_description extracted_data)
        = inr prompt ->
      get_model E true (set_world s w1) = (inl e, s2, tg) ->
      validate_extracted_data E fields_description extracted_data s =
        (inl e, s2,
         [EvRead (py "validation_prompt.md");
          EvFormat template
            (validation_kwargs fields_description extracted_data)] ++ tg))
  /\ (forall template w1 prompt h s2 tg w3,
      open_read E (py "validation_prompt.md") (world s) = (inr template, w1) ->
      format E template (validation_kwargs fields_description extracted_data)
        = inr prompt ->
      get_model E true (set_world s w1) = (inr (Some h), s2, tg) ->
      model_ainvoke E h prompt (world s2) = (inl e, w3) ->
      validate_extracted_data E fields_description extracted_data s =
        (inl e, set_world s2 w3,
         [EvRead (py "validation_prompt.md");
          EvFormat template
            (validation_kwargs fields_description extracted_data)]
         ++ tg ++ [EvInvoke h prompt])).
Proof.
  repeat match goal with |- _ /\ _ => split end; intros.
  - rewrite extract_fields_run, H. reflexivity.
  - rewrite extract_fields_run, H. cbv zeta. rewrite H0. reflexivity.
  - rewrite extract_fields_run, H. cbv zeta. rewrite H0, H1. reflexivity.
  - rewrite extract_fields_run, H. cbv zeta. rewrite H0, H1.
    rewrite call_llm_json_run, H2. reflexivity.
  - rewrite extract_fields_run, H. cbv zeta. rewrite H0, H1.
    rewrite call_llm_json_run, H2, H3. reflexivity.
  - rewrite validate_extracted_data_run, H. reflexivity.
  - rewrite validate_extracted_data_run, H. cbv zeta. rewrite H0.
    reflexivity.
  - rewrite validate_extracted_data_run, H. cbv zeta. rewrite H0.
    rewrite call_llm_json_run, H1. reflexivity.
  - rewrite validate_extracted_data_run, H. cbv zeta. rewrite H0.
    rewrite call_llm_json_run, H1, H2. reflexivity.
Qed.

Lemma model_events_not_formatter (t : list event) (e : event) :
  forallb is_model_event t = true -> In e t -> is_formatter_event e = false.
Proof.
  intros Ht Hin. rewrite forallb_forall in Ht. specialize (Ht e Hin).
  destruct e; simpl in *; congruence.
Qed.

(** The formatter events of a run of [extract_fields]: at most one read,
    of [prompt.md], and at most one [format], of what was read. *)
Lemma extract_fields_formatter_events (pdf_path fields_description : pystr)
    (s : state W) (e : event) :
  In e (trace_of (extract_fields E pdf_path fields_description) s) ->
  is_formatter_event e = true ->
  e = EvRead (py "prompt.md")
  \/ exists template kw w w',
       e = EvFormat template kw
       /\ open_read E (py "prompt.md") w = (inr template, w').
Proof.
  unfold trace_of. rewrite extract_fields_run. cbv zeta.
  destruct (lazy_load E pdf_path (py "hi_res") (world s))
    as [[e0|chunks] w1].
  { simpl. intros [<-|[]]. discriminate. }
  destruct (open_read E (py "prompt.md") w1) as [[e0|template] w2] eqn:Er.
  { simpl. intros [<-|[<-|[]]]; [discriminate|]. now left. }
  assert (Hhead : forall t,
    In e ([EvLoad pdf_path (py "hi_res"); EvRead (py "prompt.md");
           EvFormat template
             (extraction_kwargs fields_description (document_text chunks))]
          ++ t) ->
    is_formatter_event e = true ->
    forallb is_model_event t = true ->
    e = EvRead (py "prompt.md")
    \/ exists template kw w w',
         e = EvFormat template kw
         /\ open_read E (py "prompt.md") w = (inr template, w')).
  { intros t Hin Hf Ht. simpl in Hin.
    destruct Hin as [<-|[<-|[<-|Hin]]].
    - discriminate.
    - now left.
    - right. eauto 6.
    - rewrite (@model_events_not_formatter _ _ Ht Hin) in Hf. discriminate. }
  destruct (format E template
              (extraction_kwargs fields_description (document_text chunks)))
    as [e0|prompt].
  { intros Hin Hf. apply (Hhead []); auto. }
  pose proof (call_llm_trace prompt (set_world s w2)) as Hc.
  unfold trace_of in Hc.
  destruct (call_llm E prompt true (set_world s w2)) as [[r s3] t3].
  simpl snd in *. intros Hin Hf. apply (Hhead t3); auto.
Qed.

Lemma validate_formatter_events (fields_description : pystr)
    (extracted_data : jvalue) (s : state W) (e : event) :
  In e (trace_of
          (validate_extracted_data E fields_description extracted_data) s) ->
  is_formatter_event e = true ->
  e = EvRead (py "validation_prompt.md")
  \/ exists template kw w w',
       e = EvFormat template kw
       /\ open_read E (py "validation_prompt.md") w = (inr template, w').
Proof.
  unfold trace_of. rewrite validate_extracted_data_run. cbv zeta.
  destruct (open_read E (py "validation_prompt.md") (world s))
    as [[e0|template] w1] eqn:Er.
  { simpl. intros [<-|[]]. now left. }
  assert (Hhead : forall t,
    In e ([EvRead (py "validation_prompt.md");
           EvFormat template
             (validation_kwargs fields_description extracted_data)] ++ t) ->
    is_formatter_event e = true ->
    forallb is_model_event t = true ->
    e = EvRead (py "validation_prompt.md")
    \/ exists template kw w w',
         e = EvFormat template kw
         /\ open_read E (py "validation_prompt.md") w = (inr template, w')).
  { intros t Hin Hf Ht. simpl in Hin.
    destruct Hin as [<-|[<-|Hin]].
    - now left.
    - right. eauto 6.
    - rewrite (@model_events_not_formatter _ _ Ht Hin) in Hf. discriminate. }
  destruct (format E template
              (validation_kwargs fields_description extracted_data))
    as [e0|prompt].
  { intros Hin Hf. apply (Hhead []); auto. }
  pose proof (call_llm_trace prompt (set_world s w1)) as Hc.
  unfold trace_of in Hc.
  destruct (call_llm E prompt true (set_world s w1)) as [[r s2] t2].
  simpl snd in *. intros Hin Hf. apply (Hhead t2); auto.
Qed.

(** C8: in every run, whatever its outcome, the only file
    [extract_fields] reads is [prompt.md] and the only text it formats is
    the content of that file; the only file [validate_extracted_data]
    reads is [validation_prompt.md] and the only text it formats is the
    content of that file; and these are two different files. *)
Theorem template_fixed_per_step (pdf_path fields_description : pystr)
    (extracted_data : jvalue) (s : state W) :
  (forall path,
      In (EvRead path)
         (trace_of (extract_fields E pdf_path fields_description) s) ->
      path = py "prompt.md")
  /\ (forall template kw,
      In (EvFormat template kw)
         (trace_of (extract_fields E pdf_path fields_description) s) ->
      exists w w', open_read E (py "prompt.md") w = (inr template, w'))
  /\ (forall path,
      In (EvRead path)
         (trace_of
            (validate_extracted_data E fields_description extracted_data) s) ->
      path = py "validation_prompt.md")
  /\ (forall template kw,
      In (EvFormat template kw)
         (trace_of
            (validate_extracted_data E fields_description extracted_data) s) ->
      exists w w',
        open_read E (py "validation_prompt.md") w = (inr template, w'))
  /\ py "prompt.md" <> py "validation_prompt.md".
Proof.
  split; [|split; [|split; [|split]]].
  - intros path Hin.
    destruct (@extract_fields_formatter_events _ _ _ _ Hin eq_refl)
      as [Heq|(t & kw & w & w' & Heq & _)]; congruence.
  - intros template kw Hin.
    destruct (@extract_fields_formatter_events _ _ _ _ Hin eq_refl)
      as [Heq|(t & kw' & w & w' & Heq & Hr)]; [discriminate|].
    inversion Heq; subst. eauto.
  - intros path Hin.
    destruct (@validate_formatter_events _ _ _ _ Hin eq_refl)
      as [Heq|(t & kw & w & w' & Heq & _)]; congruence.
  - intros template kw Hin.
    destruct (@validate_formatter_events _ _ _ _ Hin eq_refl)
      as [Heq|(t & kw' & w & w' & Heq & Hr)]; [discriminate|].
    inversion Heq; subst. eauto.
  - discriminate.
Qed.

End Steps.

(** C1, on the end-to-end scenario: the object the stub model answers
    with is the result of the extraction. *)
Lemma extract_fields_sequence_witness :
  outcome (extract_fields demo_world (py "cv.pdf") (py "Name, Email, Skills"))
    (init_state tt)
  = inr (PJson demo_answer).
Proof.
  pose proof (@extract_fields_sequence unit demo_world (py "cv.pdf")
                (py "Name, Email, Skills") (init_state tt)
                _ _ _ _ _ _ _ _ _ _
                eq_refl eq_refl eq_refl eq_refl eq_refl) as [H _].
  unfold outcome. rewrite H. reflexivity.
Defined.

(** C6, on the failure scenario: the loader cannot find the file. *)
Lemma errors_propagate_witness :
  extract_fields missing_file_world (py "cv.pdf") (py "Name") (init_state tt)
  = (inl (Raised "FileNotFoundError" (py "cv.pdf")),
     set_world (init_state tt) tt, [EvLoad (py "cv.pdf") (py "hi_res")]).
Proof.
  exact (proj1 (@errors_propagate unit missing_file_world (py "cv.pdf")
                  (py "Name") JNull (init_state tt)
                  (Raised "FileNotFoundError" (py "cv.pdf")))
           tt eq_refl).
Defined.

(** The trace of the end-to-end scenario. *)
Example extract_fields_demo_trace :
  trace_of (extract_fields demo_world (py "cv.pdf") (py "Name, Email, Skills"))
    (init_state tt)
  = [EvLoad (py "cv.pdf") (py "hi_res");
     EvRead (py "prompt.md");
     EvFormat demo_template
       (extraction_kwargs (py "Name, Email, Skills")
          (py "Jane Doe, jane@example.com, Python developer"));
     EvInitChatModel (py "gpt-4o-mini") (py "openai") (Some 0);
     EvStructured 0 (py "json_mode") (Some 1);
     EvSetJsonModel 1;
     EvInvoke 1
       (py ("Extract these fields: Name, Email, Skills from this text: "
            ++ "Jane Doe, jane@example.com, Python developer"))].
Proof. reflexivity. Qed.

(** ** The prompt formatter *)

Section Formatter.

Context {W : Type}.
Variable E : World W.

Lemma build_string_app (kw : kwargs) (a b : list segment) :
  build_string E kw (a ++ b) =
  match build_string E kw a with
  | inl e => inl e
  | inr out1 =>
      match build_string E kw b with
      | inl e => inl e
      | inr out2 => inr (out1 ++ out2)
      end
  end.
Proof.
  induction a as [|[text|name conv spec|e] a IH]; simpl.
  - destruct (build_string E kw b); reflexivity.
  - rewrite IH. destruct (build_string E kw a); [reflexivity|].
    destruct (build_string E kw b); [reflexivity|].
    now rewrite List.app_assoc.
  - destruct (format_field E kw name conv spec); [reflexivity|].
    rewrite IH. destruct (build_string E kw a); [reflexivity|].
    destruct (build_string E kw b); [reflexivity|].
    now rewrite List.app_assoc.
  - reflexivity.
Qed.



(** A placeholder stands for the value passed under its name. *)
Lemma format_field_placeholder (kw : kwargs) (name : pystr)
    (conv : option N) (value : pystr) :
  field_name_split name = (name, []) ->
  name <> [] -> get_integer E name = NotInteger ->
  conv = None \/ conv = Some 115%N ->
  lookup kw name = Some value ->
  format_field E kw name conv [] = inr value.
Proof.
  intros Hs Hne Hint Hc Hl. unfold format_field. rewrite Hs, Hint.
  destruct name; [congruence|]. rewrite Hl.
  destruct Hc as [->| ->]; reflexivity.
Qed.

Lemma format_contains (template : pystr) (kw : kwargs) (name value out : pystr) :
  has_placeholder template name ->
  field_name_split name = (name, []) ->
  name <> [] -> get_integer E name = NotInteger ->
  lookup kw name = Some value ->
  format E template kw = inr out ->
  contains out value.
Proof.
  intros (conv & Hin & Hc) Hs Hne Hint Hl. unfold format.
  apply in_split in Hin. destruct Hin as (pre & post & ->).
  rewrite build_string_app.
  destruct (build_string E kw pre) as [e|out1]; [discriminate|].
  simpl. rewrite (@format_field_placeholder kw name conv value Hs Hne Hint Hc Hl).
  destruct (build_string E kw post) as [e|out2]; [discriminate|].
  intros H; inversion H; subst. exists out1, out2. reflexivity.
Qed.




End Formatter.

(** The formatter on the end-to-end scenario, and on a template that
    misspells a placeholder. *)
Example format_demo :
  format demo_world demo_template
    (extraction_kwargs (py "Name, Email, Skills") (py "Jane Doe"))
  = inr (py ("Extract these fields: Name, Email, Skills "
             ++ "from this text: Jane Doe")).
Proof. reflexivity. Qed.

Example format_demo_renders :
  forallb
    (renders_from demo_world
       (extraction_kwargs (py "Name, Email, Skills") (py "Jane Doe")))
    (markup demo_template) = true.
Proof. reflexivity. Qed.

Example format_missing_demo :
  format demo_world (py "Fields: {fields_description} Text: {contents}")
    (extraction_kwargs (py "Name") (py "Jane Doe"))
  = inl (KeyError (py "contents")).
Proof. reflexivity. Qed.

(** ** Reconciliation in the presentation layer *)

Section Reconciliation.

Import App.

Lemma pystr_eqb_refl (a : pystr) : pystr_eqb a a = true.
Proof. unfold pystr_eqb. destruct (pystr_eq_dec a a); congruence. Qed.

Lemma pystr_eqb_eq (a b : pystr) : pystr_eqb a b = true <-> a = b.
Proof.
  unfold pystr_eqb. destruct (pystr_eq_dec a b); split; congruence.
Qed.

Lemma dict_get_absent (d : list (pystr * jvalue)) (key : pystr)
    (default : jvalue) :
  absent key d -> dict_get d key default = default.
Proof.
  unfold absent, dict_get. induction d as [|[k v] d IH]; simpl; [reflexivity|].
  intros Hn. destruct (pystr_eqb k key) eqn:Ek.
  - apply pystr_eqb_eq in Ek. tauto.
  - apply IH. tauto.
Qed.

Lemma render_field_absent (fe : list (pystr * jvalue)) (field : pystr)
    (value : jvalue) :
  absent field fe ->
  render_field (JDict fe) field value = inr (default_view field value).
Proof.
  intros Ha. unfold render_field, get. rewrite (dict_get_absent _ Ha).
  reflexivity.
Qed.

Lemma render_fields_app (fe : jvalue) (a b : list (pystr * jvalue)) :
  render_fields fe (a ++ b) =
  match render_fields fe a with
  | inl e => inl e
  | inr va =>
      match render_fields fe b with
      | inl e => inl e
      | inr vb => inr (va ++ vb)
      end
  end.
Proof.
  induction a as [|[field value] a IH]; simpl.
  - destruct (render_fields fe b); reflexivity.
  - destruct (render_field fe field value); [reflexivity|]. rewrite IH.
    destruct (render_fields fe a); [reflexivity|].
    destruct (render_fields fe b); reflexivity.
Qed.

(** C9: for a validation result whose [field_evaluations] is a mapping
    that lacks a field of the extraction result, the loop over the fields
    shows that field with the default evaluation (score 0, in red, no
    details) and goes on with the next field: the missing entry raises
    nothing.  The same happens for every field when the validation result
    has no [field_evaluations] at all, and a validation result without
    [overall_score] is shown with the overall score 0, in red. *)
Theorem missing_evaluation_defaults :
  (forall fe field value, absent field fe ->
      render_field (JDict fe) field value = inr (default_view field value))
  /\ (forall fe before field value after, absent field fe ->
      render_fields (JDict fe) (before ++ (field, value) :: after) =
      match render_fields (JDict fe) before with
      | inl e => inl e
      | inr shown =>
          match render_fields (JDict fe) after with
          | inl e => inl e
          | inr rest => inr (shown ++ default_view field value :: rest)
          end
      end)
  /\ (forall vr items, absent (py "field_evaluations") vr ->
      match render_overall (JDict vr) with
      | inl e => display (JDict items) (JDict vr) = inl e
      | inr overall =>
          display (JDict items) (JDict vr)
          = inr (overall,
                 map (fun kv => default_view (fst kv) (snd kv)) items)
      end)
  /\ (forall vr, absent (py "overall_score") vr ->
      render_overall (JDict vr) = inr (JInt 0, red)).
Proof.
  split; [|split; [|split]].
  - apply render_field_absent.
  - intros fe before field value after Ha.
    rewrite render_fields_app. cbn [render_fields].
    rewrite (render_field_absent value Ha).
    destruct (render_fields (JDict fe) before); [reflexivity|].
    destruct (render_fields (JDict fe) after); reflexivity.
  - intros vr items Ha. unfold display.
    destruct (render_overall (JDict vr)) as [e|overall]; [reflexivity|].
    unfold get. rewrite (dict_get_absent _ Ha).
    assert (Hall : render_fields (JDict []) items
                   = inr (map (fun kv => default_view (fst kv) (snd kv))
                            items)).
    { induction items as [|[field value] items IH]; [reflexivity|].
      cbn [render_fields]. rewrite render_field_absent by (intros []).
      rewrite IH. reflexivity. }
    now rewrite Hall.
  - intros vr Ha. unfold render_overall, get.
    rewrite (dict_get_absent _ Ha). reflexivity.
Qed.

(** The end-to-end scenario: [name] is shown with its evaluation, [email]
    and [skills], which the validation result does not mention, with the
    default one. *)
Example display_demo :
  display demo_answer demo_validation
  = inr ((JInt 9, green),
         [ {| view_field := py "name"; view_score := JInt 10;
              view_color := green;
              view_value := [ShownValue (JStr (py "Jane Doe"))];
              view_details := [("Coverage"%string, JStr (py "full"));
                               ("Correctness"%string, JStr (py "exact"))] |};
           default_view (py "email") (JStr (py "jane@example.com"));
           default_view (py "skills") (JList [JStr (py "Python")]) ]).
Proof. reflexivity. Qed.

End Reconciliation.

(** ** Serialization of the extraction result *)

Section JsonStrings.

Local Open Scope N_scope.





















End JsonStrings.

Section JsonNumbers.












End JsonNumbers.

Section JsonValues.


























End JsonValues.

(** ** The decoder always answers *)

Section JsonFuel.

Lemma skip_ws_length (s : pystr) : List.length (skip_ws s) <= List.length s.
Proof.
  induction s as [|c s IH]; [apply Nat.le_refl|].
  cbn [skip_ws]. destruct (is_ws c); cbn [List.length]; lia.
Qed.

Lemma strip_prefix_length (p s rest : pystr) :
  strip_prefix p s = Some rest ->
  List.length s = List.length p + List.length rest.
Proof.
  revert s. induction p as [|a p IH]; intros s; cbn [strip_prefix].
  - intros H; inversion H; reflexivity.
  - destruct s as [|b s]; [discriminate|].
    destruct (N.eqb a b); [|discriminate].
    intros H. apply IH in H. cbn [List.length]. lia.
Qed.

(** [scanstring] consumes the closing quote at least, and needs no
    fuel. *)
Lemma scanstring_consumes (n : nat) :
  forall s chunks,
    List.length s <= n ->
    scanstring s chunks <> inl Exhausted
    /\ forall str rest,
         scanstring s chunks = inr (str, rest) ->
         List.length rest < List.length s.
Proof.
  induction n as [|n IH]; intros s chunks Hn.
  - destruct s; [|cbn in Hn; lia]. split; [discriminate|discriminate].
  - destruct s as [|c s1]; [split; discriminate|].
    cbn [List.length] in Hn.
    assert (Hrec : forall s' ch',
               List.length s' <= List.length s1 ->
               scanstring s' ch' <> inl Exhausted
               /\ forall str rest,
                    scanstring s' ch' = inr (str, rest) ->
                    List.length rest < List.length (c :: s1)).
    { intros s' ch' Hl. destruct (IH s' ch') as [H1 H2]; [lia|].
      split; [assumption|]. intros str rest H. apply H2 in H.
      cbn [List.length]. lia. }
    cbn [scanstring].
    destruct (N.eqb c 34).
    { split; [discriminate|]. intros str rest H. inversion H; subst.
      cbn [List.length]. lia. }
    destruct (N.eqb c 92); [|destruct (N.ltb c 32);
                              [split; discriminate|apply Hrec; lia]].
    destruct s1 as [|esc s2]; [split; discriminate|].
    destruct (N.eqb esc 117).
    2:{ destruct (BACKSLASH esc); [|split; discriminate].
        apply Hrec. cbn [List.length]. lia. }
    destruct s2 as [|h1 [|h2 [|h3 [|h4 [|x s4]]]]]; try (split; discriminate).
    destruct (decode_uXXXX h1 h2 h3 h4) as [uni|]; [|split; discriminate].
    assert (Hs3 : scanstring (x :: s4) (chunks ++ [uni]) <> inl Exhausted
                  /\ forall str rest,
                       scanstring (x :: s4) (chunks ++ [uni]) = inr (str, rest) ->
                       List.length rest
                       < List.length (c :: esc :: h1 :: h2 :: h3 :: h4 :: x :: s4)).
    { apply Hrec. cbn [List.length]. lia. }
    destruct s4 as [|b2 [|k1 [|k2 [|k3 [|k4 [|y s5]]]]]]; try exact Hs3.
    destruct (is_high_surrogate uni && N.eqb x 92 && N.eqb b2 117);
      [|exact Hs3].
    destruct (decode_uXXXX k1 k2 k3 k4) as [uni2|]; [|split; discriminate].
    destruct (is_low_surrogate uni2); [|exact Hs3].
    apply Hrec. cbn [List.length]. lia.
Qed.

Lemma span_digits_length (s ds rest : pystr) :
  span_digits s = (ds, rest) ->
  List.length s = List.length ds + List.length rest.
Proof.
  revert ds rest. induction s as [|c s IH]; intros ds rest; cbn [span_digits].
  - intros H; inversion H; reflexivity.
  - destruct (is_digit c).
    + destruct (span_digits s) as [ds' rest'] eqn:Es.
      intros H; inversion H; subst. specialize (IH _ _ eq_refl).
      cbn [List.length]. lia.
    + intros H; inversion H; subst. reflexivity.
Qed.

Lemma match_integer_consumes (s ds rest : pystr) :
  match_integer s = Some (ds, rest) -> List.length rest < List.length s.
Proof.
  destruct s as [|c s]; [discriminate|]. unfold match_integer.
  destruct (N.eqb c 48).
  - intros H; inversion H; subst. cbn [List.length]. lia.
  - destruct (is_digit c) eqn:Hd; [|discriminate].
    intros H. assert (Hs : span_digits (c :: s) = (ds, rest)) by congruence.
    apply span_digits_length in Hs.
    assert (Hds : ds <> []).
    { intros ->. cbn [span_digits] in H. rewrite Hd in H.
      destruct (span_digits s); discriminate. }
    destruct ds; [congruence|]. cbn [List.length] in *. lia.
Qed.

Lemma scan_number_consumes (s : pystr) (r : scan_error + (jvalue * pystr)) :
  scan_number s = Some r ->
  r <> inl Exhausted
  /\ forall v rest, r = inr (v, rest) -> List.length rest < List.length s.
Proof.
  unfold scan_number.
  set (p := match s with
            | [] => (false, s)
            | c :: s1 => if N.eqb c 45 then (true, s1) else (false, s)
            end).
  assert (Hp : List.length (snd p) <= List.length s).
  { subst p. destruct s as [|c s1]; [apply Nat.le_refl|].
    destruct (N.eqb c 45); cbn [snd List.length]; lia. }
  destruct p as [negative s']. cbn [snd] in Hp.
  destruct (match_integer s') as [[digits rest]|] eqn:Em; [|discriminate].
  apply match_integer_consumes in Em.
  destruct (has_frac rest || has_exp rest); intros H; inversion H; subst.
  - split; [discriminate|discriminate].
  - split; [discriminate|]. intros v rest' Hr. inversion Hr; subst. lia.
Qed.

Lemma expecting_value_exhausted {A} (r : scan_error + A) :
  expecting_value r = inl Exhausted -> r = inl Exhausted.
Proof. destruct r as [[| | |]|]; cbn; congruence. Qed.

Lemma expecting_value_inr {A} (r : scan_error + A) (a : A) :
  expecting_value r = inr a -> r = inr a.
Proof. destruct r as [[| | |]|]; cbn; congruence. Qed.

Lemma scanners_ok (fuel : nat) :
  (forall s, scan_ok 1 fuel s (scan_once fuel s))
  /\ (forall pairs s, scan_ok 2 fuel s (JSONObject_loop fuel pairs s))
  /\ (forall values s, scan_ok 2 fuel s (JSONArray_loop fuel values s)).
Proof.
  induction fuel as [|f (IHv & IHo & IHa)].
  { repeat split; try discriminate; cbn; intros; lia. }
  split; [|split].
  - (* scan_once *)
    intros s. destruct s as [|c s1]; [split; [discriminate|discriminate]|].
    cbn [scan_once].
    destruct (N.eqb c 34).
    { destruct (@scanstring_consumes (List.length s1) s1 [] (Nat.le_refl _))
        as [Hne Hlen].
      destruct (scanstring s1 []) as [e|[str rest]].
      - split; [discriminate|]. intros _. congruence.
      - split; [|discriminate]. intros a rest' H. inversion H; subst.
        specialize (Hlen _ _ eq_refl). cbn [List.length]. lia. }
    destruct (N.eqb c 123).
    { pose proof (skip_ws_length s1) as Hws.
      destruct (skip_ws s1) as [|c' s2]; [split; discriminate|].
      cbn [List.length] in Hws.
      destruct (N.eqb c' 125).
      { split; [|discriminate]. intros a rest H. inversion H; subst.
        cbn [List.length]. lia. }
      destruct (N.eqb c' 34); [|split; discriminate].
      destruct (IHo [] s2) as [Hlen Hne].
      destruct (JSONObject_loop f [] s2) as [e|[pairs rest]].
      - split; [discriminate|]. cbn [List.length]. intros Hf Heq.
        inversion Heq; subst. apply Hne; [lia|reflexivity].
      - split; [|discriminate]. intros a rest' H. inversion H; subst.
        specialize (Hlen _ _ eq_refl). cbn [List.length]. lia. }
    destruct (N.eqb c 91).
    { pose proof (skip_ws_length s1) as Hws. cbv zeta.
      destruct (strip_prefix [93%N] (skip_ws s1)) as [rest|] eqn:Es.
      { apply strip_prefix_length in Es. split; [|discriminate].
        intros a rest' H. inversion H; subst. cbn [List.length] in *. lia. }
      destruct (IHa [] (skip_ws s1)) as [Hlen Hne].
      destruct (JSONArray_loop f [] (skip_ws s1)) as [e|[values rest]].
      - split; [discriminate|]. cbn [List.length]. intros Hf Heq.
        inversion Heq; subst. apply Hne; [lia|reflexivity].
      - split; [|discriminate]. intros a rest' H. inversion H; subst.
        specialize (Hlen _ _ eq_refl). cbn [List.length]. lia. }
    destruct (strip_prefix (py "null") (c :: s1)) as [rest|] eqn:E1.
    { apply strip_prefix_length in E1. split; [|discriminate].
      intros a rest' H. inversion H; subst.
      change (List.length (py "null")) with 4 in E1. lia. }
    destruct (strip_prefix (py "true") (c :: s1)) as [rest|] eqn:E2.
    { apply strip_prefix_length in E2. split; [|discriminate].
      intros a rest' H. inversion H; subst.
      change (List.length (py "true")) with 4 in E2. lia. }
    destruct (strip_prefix (py "false") (c :: s1)) as [rest|] eqn:E3.
    { apply strip_prefix_length in E3. split; [|discriminate].
      intros a rest' H. inversion H; subst.
      change (List.length (py "false")) with 5 in E3. lia. }
    destruct (scan_number (c :: s1)) as [r|] eqn:En.
    { destruct (scan_number_consumes _ En) as [Hne Hlen].
      split; [exact Hlen|]. intros _. exact Hne. }
    destruct (strip_prefix (py "NaN") (c :: s1));
      destruct (strip_prefix (py "Infinity") (c :: s1));
      destruct (strip_prefix (py "-Infinity") (c :: s1));
      split; discriminate.
  - (* JSONObject_loop *)
    intros pairs s. cbn [JSONObject_loop].
    destruct (@scanstring_consumes (List.length s) s [] (Nat.le_refl _))
      as [Hsne Hslen].
    destruct (scanstring s []) as [e|[key s1]].
    { split; [discriminate|]. intros _. congruence. }
    specialize (Hslen _ _ eq_refl).
    pose proof (skip_ws_length s1) as Hws1.
    destruct (skip_ws s1) as [|c s2]; [split; discriminate|].
    cbn [List.length] in Hws1.
    destruct (N.eqb c 58); [|split; discriminate].
    pose proof (skip_ws_length s2) as Hws2.
    destruct (IHv (skip_ws s2)) as [Hvlen Hvne].
    destruct (expecting_value (scan_once f (skip_ws s2)))
      as [e|[value s3]] eqn:Ev.
    { split; [discriminate|]. intros Hf Heq. inversion Heq; subst.
      apply expecting_value_exhausted in Ev. apply Hvne; [lia|exact Ev]. }
    apply expecting_value_inr in Ev. specialize (Hvlen _ _ Ev).
    pose proof (skip_ws_length s3) as Hws3.
    destruct (skip_ws s3) as [|c' s4]; [split; discriminate|].
    cbn [List.length] in Hws3.
    destruct (N.eqb c' 125).
    { split; [|discriminate]. intros a rest H. inversion H; subst. lia. }
    destruct (N.eqb c' 44); [|split; discriminate].
    pose proof (skip_ws_length s4) as Hws4.
    destruct (skip_ws s4) as [|q s5]; [split; discriminate|].
    cbn [List.length] in Hws4.
    destruct (N.eqb q 34); [|split; discriminate].
    destruct (IHo (pairs ++ [(key, value)]) s5) as [Holen Hone].
    split.
    + intros a rest H. specialize (Holen _ _ H). lia.
    + intros Hf. apply Hone. lia.
  - (* JSONArray_loop *)
    intros values s. cbn [JSONArray_loop].
    destruct (IHv s) as [Hvlen Hvne].
    destruct (expecting_value (scan_once f s)) as [e|[value s1]] eqn:Ev.
    { split; [discriminate|]. intros Hf Heq. inversion Heq; subst.
      apply expecting_value_exhausted in Ev. apply Hvne; [lia|exact Ev]. }
    apply expecting_value_inr in Ev. specialize (Hvlen _ _ Ev).
    pose proof (skip_ws_length s1) as Hws1.
    destruct (skip_ws s1) as [|c s2]; [split; discriminate|].
    cbn [List.length] in Hws1.
    destruct (N.eqb c 93).
    { split; [|discriminate]. intros a rest H. inversion H; subst. lia. }
    destruct (N.eqb c 44); [|split; discriminate].
    pose proof (skip_ws_length s2) as Hws2.
    destruct (IHa (values ++ [value]) (skip_ws s2)) as [Halen Hane].
    split.
    + intros a rest H. specialize (Halen _ _ H). lia.
    + intros Hf. apply Hane. lia.
Qed.

(** [json.loads] never runs out of fuel: it returns a value or raises,
    for every document. *)
Lemma json_loads_total (s : pystr) : json_loads s <> inl Exhausted.
Proof.
  unfold json_loads.
  assert (H : match expecting_value
                      (scan_once (2 * List.length s + 2) (skip_ws s)) with
              | inl e => inl e
              | inr (obj, rest) =>
                  match skip_ws rest with
                  | [] => inr obj
                  | _ :: _ => inl (JSONDecodeError "Extra data")
                  end
              end <> inl Exhausted).
  { destruct (scanners_ok (2 * List.length s + 2)) as (Hv & _ & _).
    destruct (Hv (skip_ws s)) as [_ Hne].
    pose proof (skip_ws_length s) as Hws.
    destruct (expecting_value (scan_once (2 * List.length s + 2) (skip_ws s)))
      as [e|[obj rest]] eqn:Ev.
    - intros Heq. inversion Heq; subst.
      apply expecting_value_exhausted in Ev. apply Hne; [lia|exact Ev].
    - destruct (skip_ws rest); discriminate. }
  destruct s as [|c r]; [exact H|].
  destruct c as [|p]; [exact H|].
  repeat (destruct p as [p|p|]; try exact H). discriminate.
Qed.

End JsonFuel.

(** The document [json.dumps] writes for the extraction result of the
    end-to-end scenario: one key per line, two spaces per level. *)
Example json_dumps_demo :
  json_dumps demo_answer =
  py "{" ++ newline
  ++ py "  " ++ quoted "name" ++ py ": " ++ quoted "Jane Doe" ++ py ","
  ++ newline
  ++ py "  " ++ quoted "email" ++ py ": " ++ quoted "jane@example.com"
  ++ py "," ++ newline
  ++ py "  " ++ quoted "skills" ++ py ": [" ++ newline
  ++ py "    " ++ quoted "Python" ++ newline
  ++ py "  ]" ++ newline
  ++ py "}".
Proof. reflexivity. Qed.

(** Two surrogates written as two characters are read back as one
    character: such a string is not text. *)
Example surrogate_pair_not_text :
  text_ok [55357%N; 56832%N] = false
  /\ json_loads (json_dumps (JStr [55357%N; 56832%N])) = inr (JStr [128512%N]).
Proof. split; reflexivity. Qed.

Section ValidationPrompt.

Context {W : Type}.
Variable E : World W.

Lemma invocations_app (t1 t2 : list event) :
  invocations (t1 ++ t2) = invocations t1 ++ invocations t2.
Proof. unfold invocations. apply flat_map_app. Qed.

Lemma construction_no_invocation (t : list event) :
  forallb is_construction_event t = true -> invocations t = [].
Proof.
  induction t as [|e t IH]; [reflexivity|]. cbn [forallb].
  intros H. apply andb_true_iff in H. destruct H as [He Ht].
  unfold invocations in *. cbn [flat_map]. rewrite (IH Ht).
  destruct e; try discriminate; reflexivity.
Qed.

(** What [call_llm] sends to the model in structured mode: the prompt,
    once, or nothing when no model could be had. *)
Lemma call_llm_invocations (prompt : pystr) (s : state W) :
  invocations (trace_of (call_llm E prompt true) s) = [prompt]
  \/ (invocations (trace_of (call_llm E prompt true) s) = []
      /\ exists e, outcome (call_llm E prompt true) s = inl e).
Proof.
  unfold trace_of, outcome. rewrite call_llm_json_run.
  pose proof (construction_no_invocation _ (get_model_trace E true s)) as Hg.
  unfold trace_of in Hg.
  destruct (get_model E true s) as [[[e|[h|]] s1] t1]; cbn [fst snd] in *.
  - right. split; [assumption|eauto].
  - destruct (model_ainvoke E h prompt (world s1)) as [[e|result] w];
      cbn [fst snd]; left; rewrite ?List.app_nil_r, invocations_app, Hg;
      reflexivity.
  - right. rewrite List.app_nil_r. split; [assumption|eauto].
Qed.


End ValidationPrompt.


(** ** The model client, in both modes *)

Section ModelClientModes.

Context {W : Type}.
Variable E : World W.

(** [call_llm], step by step, in either mode. *)
Lemma call_llm_run (input : pystr) (json_mode : bool) (s : state W) :
  call_llm E input json_mode s =
  match get_model E json_mode s with
  | (inl e, s1, t1) => (inl e, s1, t1)
  | (inr None, s1, t1) =>
      (inl (AttributeError "'NoneType' object has no attribute 'ainvoke'"),
       s1, t1 ++ [])
  | (inr (Some h), s1, t1) =>
      match model_ainvoke E h input (world s1) with
      | (inl e, w) => (inl e, set_world s1 w, t1 ++ [EvInvoke h input])
      | (inr result, w) =>
          (if json_mode then inr result else getattr_content result,
           set_world s1 w, t1 ++ [EvInvoke h input] ++ [])
      end
  end.
Proof.
  unfold call_llm, bind.
  destruct (get_model E json_mode s) as [[[e|[h|]] s1] t1]; try reflexivity.
  unfold ainvoke.
  destruct (model_ainvoke E h input (world s1)) as [[e|result] w];
    [reflexivity|].
  destruct json_mode; reflexivity.
Qed.

(** A construction event is not an invocation. *)
Lemma construction_not_invoke (t : list event) (h : ref) (i : pystr) :
  forallb is_construction_event t = true -> ~ In (EvInvoke h i) t.
Proof.
  intros Ht Hin. rewrite forallb_forall in Ht. specialize (Ht _ Hin).
  discriminate.
Qed.

(** The model [call_llm] invokes is the one cached for its mode, and what
    it sends is its input. *)
Lemma call_llm_invokes (input : pystr) (json_mode : bool) (s s' : state W)
    (r : exn + pyvalue) (t : list event) (h : ref) (i : pystr) :
  call_llm E input json_mode s = (r, s', t) ->
  In (EvInvoke h i) t ->
  i = input /\ (if json_mode then _json_model s' else _model s') = Some h.
Proof.
  rewrite call_llm_run.
  pose proof (get_model_trace E json_mode s) as Hg. unfold trace_of in Hg.
  destruct (get_model E json_mode s) as [[[e|[h0|]] s1] t1] eqn:Eg;
    cbn [snd] in Hg.
  - intros H; inversion H; subst. intros Hin.
    now apply construction_not_invoke in Hin.
  - apply get_model_returns_slot in Eg. destruct Eg as [_ Hslot].
    assert (Hin : forall w,
      In (EvInvoke h i) (t1 ++ [EvInvoke h0 input]) ->
      i = input
      /\ (if json_mode then _json_model (set_world s1 w)
          else _model (set_world s1 w)) = Some h).
    { intros w Hin. apply in_app_or in Hin. destruct Hin as [Hin|[Heq|[]]].
      - now apply construction_not_invoke in Hin.
      - inversion Heq; subst. split; [reflexivity|].
        destruct json_mode; simpl; congruence. }
    destruct (model_ainvoke E h0 input (world s1)) as [[e|result] w];
      intros H; inversion H; subst; rewrite ?List.app_nil_r; apply Hin.
  - intros H; inversion H; subst. rewrite List.app_nil_r. intros Hin.
    now apply construction_not_invoke in Hin.
Qed.

(** X1: whenever [call_llm] returns in free-text mode, the free-text model
    was obtained, it was invoked once on the input and answered with a
    message, and the value returned is the content of that message.  The
    handle invoked is the one cached in [_model]; nothing was wrapped for
    structured output and [_json_model] is as it was. *)
Theorem call_llm_free_text (input : pystr) (s s' : state W) (v : pyvalue)
    (t : list event) :
  call_llm E input false s = (inr v, s', t) ->
  exists h content s1 tg w,
    get_model E false s = (inr (Some h), s1, tg)
    /\ model_ainvoke E h input (world s1) = (inr (PMessage content), w)
    /\ v = PJson (JStr content)
    /\ s' = set_world s1 w
    /\ t = tg ++ [EvInvoke h input]
    /\ _model s' = Some h
    /\ _json_model s' = _json_model s
    /\ filter is_structured t = [].
Proof.
  rewrite call_llm_run.
  destruct (get_model E false s) as [[[e|[h|]] s1] tg] eqn:Eg;
    try discriminate.
  destruct (model_ainvoke E h input (world s1)) as [[e|result] w] eqn:Ei;
    [discriminate|].
  destruct result as [x|content]; [discriminate|].
  cbn [getattr_content]. intros H; inversion H; subst. clear H.
  exists h, content, s1, tg, w.
  pose proof Eg as Hslot. apply get_model_returns_slot in Hslot.
  destruct Hslot as [_ Hslot].
  assert (Hframe : _json_model s1 = _json_model s
                   /\ filter is_structured tg = []).
  { pose proof Eg as Eg'. rewrite get_model_text_run in Eg'.
    destruct (_model s); [inversion Eg'; subst; split; reflexivity|].
    destruct (chat_model_init E (py "gpt-4o-mini") (py "openai") (world s))
      as [[e|] w0]; [discriminate|].
    cbv zeta in Eg'. inversion Eg'; subst. split; reflexivity. }
  destruct Hframe as [Hj Hf].
  split; [reflexivity|]. split; [exact Ei|]. split; [reflexivity|].
  split; [reflexivity|]. split; [reflexivity|].
  split; [simpl; congruence|]. split; [exact Hj|].
  cbn [app]. now rewrite filter_app, Hf.
Qed.

(** X2: in a process that has made any calls so far, a model invoked by
    [call_llm] is the handle cached for the mode of the call, it is sent
    the input of the call, and it is not the handle of the other mode: a
    prompt of one mode never reaches the model of the other. *)
Theorem call_llm_uses_own_handle (w : W) (history : list call)
    (s0 s1 : state W) (t0 t1 : list event) (input : pystr)
    (json_mode : bool) (r : exn + pyvalue) (h : ref) (i : pystr) :
  run_history E history (init_state w) = (s0, t0) ->
  call_llm E input json_mode s0 = (r, s1, t1) ->
  In (EvInvoke h i) t1 ->
  i = input
  /\ (if json_mode then _json_model s1 else _model s1) = Some h
  /\ (if json_mode then _model s1 else _json_model s1) <> Some h.
Proof.
  intros H0 H1 Hin.
  edestruct call_llm_invokes as [Hi Hslot]; [exact H1|exact Hin|].
  split; [assumption|]. split; [assumption|].
  apply reachable_ok in H0.
  pose proof H1 as Hs. apply M_ok_call_llm in Hs.
  destruct Hs as (_ & Hok & _). specialize (Hok H0).
  destruct Hok as (_ & _ & Hdiff).
  destruct json_mode; intros Heq.
  - exact (Hdiff h h Heq Hslot eq_refl).
  - exact (Hdiff h h Hslot Heq eq_refl).
Qed.

(** The models a call of a function of [main.py] invokes are cached when
    the call ends. *)
Lemma run_call_invokes (c : call) (s s' : state W) (t : list event)
    (h : ref) (i : pystr) :
  run_call E c s = (s', t) ->
  In (EvInvoke h i) t ->
  _model s' = Some h \/ _json_model s' = Some h.
Proof.
  assert (Hllm : forall input b s s' r t,
    call_llm E input b s = (r, s', t) -> In (EvInvoke h i) t ->
    _model s' = Some h \/ _json_model s' = Some h).
  { intros input b sa sb r ta Hc Hin.
    edestruct call_llm_invokes as [_ Hslot]; [exact Hc|exact Hin|].
    destruct b; auto. }
  destruct c as [b|input b|p|p|p fd|fd data]; cbn [run_call]; unfold forget.
  - pose proof (get_model_trace E b s) as Hg. unfold trace_of in Hg.
    destruct (get_model E b s) as [[r s1] t1]. cbn [snd] in Hg.
    intros H; inversion H; subst. intros Hin.
    now apply construction_not_invoke in Hin.
  - destruct (call_llm E input b s) as [[r s1] t1] eqn:Ec.
    intros H; inversion H; subst. eauto.
  - rewrite load_pdf_content_run.
    destruct (lazy_load E p (py "hi_res") (world s)) as [[e|[|d ds]] w1];
      intros H; inversion H; subst; intros [Hin|[]]; discriminate.
  - unfold read_markdown_file.
    destruct (open_read E p (world s)) as [r w1].
    intros H; inversion H; subst; intros [Hin|[]]; discriminate.
  - rewrite extract_fields_run. cbv zeta.
    destruct (lazy_load E p (py "hi_res") (world s)) as [[e|chunks] w1].
    { intros H; inversion H; subst; intros [Hin|[]]; discriminate. }
    destruct (open_read E (py "prompt.md") w1) as [[e|template] w2].
    { intros H; inversion H; subst; intros [Hin|[Hin|[]]]; discriminate. }
    destruct (format E template
                (extraction_kwargs fd (document_text chunks))) as [e|prompt].
    { intros H; inversion H; subst.
      intros [Hin|[Hin|[Hin|[]]]]; discriminate. }
    destruct (call_llm E prompt true (set_world s w2)) as [[r s3] t3] eqn:Ec.
    intros H; inversion H; subst.
    intros [Hin|[Hin|[Hin|Hin]]]; try discriminate. eauto.
  - rewrite validate_extracted_data_run. cbv zeta.
    destruct (open_read E (py "validation_prompt.md") (world s))
      as [[e|template] w1].
    { intros H; inversion H; subst; intros [Hin|[]]; discriminate. }
    destruct (format E template (validation_kwargs fd data)) as [e|prompt].
    { intros H; inversion H; subst; intros [Hin|[Hin|[]]]; discriminate. }
    destruct (call_llm E prompt true (set_world s w1)) as [[r s2] t2] eqn:Ec.
    intros H; inversion H; subst.
    intros [Hin|[Hin|Hin]]; try discriminate. eauto.
Qed.

(** X3: whatever calls a process makes, and whether they return or raise,
    every model it ever invokes is one of the two handles cached in the
    globals at the end: no other model object is ever used. *)
Theorem invoked_models_are_cached (history : list call) (s s' : state W)
    (t : list event) (h : ref) (i : pystr) :
  run_history E history s = (s', t) ->
  In (EvInvoke h i) t ->
  _model s' = Some h \/ _json_model s' = Some h.
Proof.
  revert s s' t. induction history as [|c history IH]; intros s s' t.
  - cbn [run_history]. intros H; inversion H; subst. intros [].
  - cbn [run_history].
    destruct (run_call E c s) as [s1 t1] eqn:Ec.
    destruct (run_history E history s1) as [s2 t2] eqn:Eh.
    intros H; inversion H; subst. clear H. intros Hin.
    apply in_app_or in Hin. destruct Hin as [Hin|Hin].
    + edestruct run_call_invokes as [Hm|Hj]; [exact Ec|exact Hin| |].
      * apply run_history_ok in Eh.
        destruct Eh as (_ & _ & Hkeep & _). left. now apply Hkeep.
      * apply run_history_ok in Eh.
        destruct Eh as (_ & _ & _ & _ & Hkeep & _). right. now apply Hkeep.
    + eapply IH; eauto.
Qed.

End ModelClientModes.

(** X1, on an example: a model that answers with a message. *)
Lemma call_llm_free_text_witness :
  exists h content s1 tg w,
    get_model chat_world false (init_state tt) = (inr (Some h), s1, tg)
    /\ model_ainvoke chat_world h (py "Who is this?") (world s1)
       = (inr (PMessage content), w)
    /\ PJson (JStr (py "Jane Doe is a Python developer."))
       = PJson (JStr content)
    /\ {| _model := Some 0; _json_model := None; next_ref := 1; world := tt |}
       = set_world s1 w
    /\ [EvInitChatModel (py "gpt-4o-mini") (py "openai") (Some 0);
        EvSetModel 0; EvInvoke 0 (py "Who is this?")]
       = tg ++ [EvInvoke h (py "Who is this?")]
    /\ Some 0 = Some h
    /\ None = _json_model (init_state tt)
    /\ filter is_structured
         [EvInitChatModel (py "gpt-4o-mini") (py "openai") (Some 0);
          EvSetModel 0; EvInvoke 0 (py "Who is this?")] = [].
Proof.
  exact (@call_llm_free_text unit chat_world (py "Who is this?")
           (init_state tt)
           {| _model := Some 0; _json_model := None; next_ref := 1;
              world := tt |}
           (PJson (JStr (py "Jane Doe is a Python developer.")))
           [EvInitChatModel (py "gpt-4o-mini") (py "openai") (Some 0);
            EvSetModel 0; EvInvoke 0 (py "Who is this?")]
           eq_refl).
Defined.

(** X2, on the end-to-end scenario: the extraction has run, then a
    free-text call is made. *)
Lemma call_llm_uses_own_handle_witness :
  py "Who is this?" = py "Who is this?"
  /\ _model (state_after (call_llm demo_world (py "Who is this?") false)
               (fst (run_history demo_world
                       [CallExtractFields (py "cv.pdf") (py "Name")]
                       (init_state tt)))) = Some 2
  /\ _json_model (state_after (call_llm demo_world (py "Who is this?") false)
                    (fst (run_history demo_world
                            [CallExtractFields (py "cv.pdf") (py "Name")]
                            (init_state tt)))) <> Some 2.
Proof.
  apply (@call_llm_uses_own_handle unit demo_world tt
           [CallExtractFields (py "cv.pdf") (py "Name")]
           _ _ _ _ (py "Who is this?") false _ 2 (py "Who is this?")
           eq_refl eq_refl).
  vm_compute. auto.
Defined.

(** X3, on the end-to-end scenario. *)
Lemma invoked_models_are_cached_witness :
  _model (fst (run_history demo_world
                 [CallExtractFields (py "cv.pdf") (py "Name");
                  CallValidate (py "Name") demo_answer] (init_state tt)))
    = Some 1
  \/ _json_model (fst (run_history demo_world
                         [CallExtractFields (py "cv.pdf") (py "Name");
                          CallValidate (py "Name") demo_answer]
                         (init_state tt)))
     = Some 1.
Proof.
  apply (@invoked_models_are_cached unit demo_world
           [CallExtractFields (py "cv.pdf") (py "Name");
            CallValidate (py "Name") demo_answer]
           (init_state tt) _ _ 1
           (py ("Extract these fields: Name from this text: "
                ++ "Jane Doe, jane@example.com, Python developer"))
           eq_refl).
  vm_compute. do 6 right. left. reflexivity.
Defined.

(** ** The two steps and the model they share *)

Section StepsAndModel.

Context {W : Type}.
Variable E : World W.

(** A structured call leaves the free-text global alone. *)
Lemma call_llm_json_frame (input : pystr) (s s' : state W)
    (r : exn + pyvalue) (t : list event) :
  call_llm E input true s = (r, s', t) ->
  _model s' = _model s /\ writes_model t = 0.
Proof.
  rewrite call_llm_json_run, get_model_json_run.
  destruct (_json_model s) as [h|].
  - destruct (model_ainvoke E h input (world s)) as [[e|result] w];
      intros H; inversion H; subst; split; reflexivity.
  - destruct (chat_model_init E (py "gpt-4o-mini") (py "openai") (world s))
      as [[e|] w0].
    { intros H; inversion H; subst; split; reflexivity. }
    cbv zeta.
    destruct (structured_init E (next_ref s) (py "json_mode") w0)
      as [[e|] w1].
    { intros H; inversion H; subst; split; reflexivity. }
    match goal with
    | |- context [model_ainvoke E ?h ?i ?w] =>
        destruct (model_ainvoke E h i w) as [[e|result] w2]
    end; intros H; inversion H; subst; split; reflexivity.
Qed.

(** X4: neither step touches the free-text model: [extract_fields] and
    [validate_extracted_data] leave [_model] as it was and never assign
    it, whether they return or raise. *)
Theorem steps_leave_free_text_model (pdf_path fields_description : pystr)
    (extracted_data : jvalue) (s : state W) :
  (_model (state_after (extract_fields E pdf_path fields_description) s)
   = _model s
   /\ writes_model
        (trace_of (extract_fields E pdf_path fields_description) s) = 0)
  /\ (_model
        (state_after
           (validate_extracted_data E fields_description extracted_data) s)
      = _model s
      /\ writes_model
           (trace_of
              (validate_extracted_data E fields_description extracted_data)
              s) = 0).
Proof.
  unfold state_after, trace_of. split.
  - rewrite extract_fields_run. cbv zeta.
    destruct (lazy_load E pdf_path (py "hi_res") (world s))
      as [[e|chunks] w1]; [split; reflexivity|].
    destruct (open_read E (py "prompt.md") w1) as [[e|template] w2];
      [split; reflexivity|].
    destruct (format E template
                (extraction_kwargs fields_description (document_text chunks)))
      as [e|prompt]; [split; reflexivity|].
    destruct (call_llm E prompt true (set_world s w2)) as [[r s3] t3] eqn:Ec.
    apply call_llm_json_frame in Ec. destruct Ec as [Hm Hw].
    cbn [fst snd]. rewrite writes_model_app, Hw, Hm. split; reflexivity.
  - rewrite validate_extracted_data_run. cbv zeta.
    destruct (open_read E (py "validation_prompt.md") (world s))
      as [[e|template] w1]; [split; reflexivity|].
    destruct (format E template
                (validation_kwargs fields_description extracted_data))
      as [e|prompt]; [split; reflexivity|].
    destruct (call_llm E prompt true (set_world s w1)) as [[r s2] t2] eqn:Ec.
    apply call_llm_json_frame in Ec. destruct Ec as [Hm Hw].
    cbn [fst snd]. rewrite writes_model_app, Hw, Hm. split; reflexivity.
Qed.

(** A structured call that returns has invoked the cached handle, once,
    after constructing it if need be. *)
Lemma call_llm_json_returns (input : pystr) (s s' : state W) (x : pyvalue)
    (t : list event) :
  call_llm E input true s = (inr x, s', t) ->
  exists h tg,
    _json_model s' = Some h
    /\ t = tg ++ [EvInvoke h input]
    /\ forallb is_construction_event tg = true.
Proof.
  rewrite call_llm_json_run.
  pose proof (get_model_trace E true s) as Hg. unfold trace_of in Hg.
  destruct (get_model E true s) as [[[e|[h|]] s1] tg] eqn:Eg;
    try discriminate.
  cbn [snd] in Hg. apply get_model_returns_slot in Eg.
  destruct Eg as [_ Hslot].
  destruct (model_ainvoke E h input (world s1)) as [[e|result] w];
    [discriminate|].
  intros H; inversion H; subst. exists h, tg.
  split; [simpl; congruence|]. split; [reflexivity|assumption].
Qed.

(** A structured call on a filled slot constructs nothing. *)
Lemma call_llm_json_cached (input : pystr) (s : state W) (h : ref) :
  _json_model s = Some h ->
  call_llm E input true s =
  match model_ainvoke E h input (world s) with
  | (r, w) => (r, set_world s w, [EvInvoke h input])
  end.
Proof.
  intros Hj. rewrite call_llm_json_run.
  rewrite (@get_model_cached _ E true s h Hj).
  destruct (model_ainvoke E h input (world s)) as [[e|result] w];
    reflexivity.
Qed.


(** Counting goes through concatenation. *)
Lemma count_app (kind : event -> bool) (t1 t2 : list event) :
  count kind (t1 ++ t2) = count kind t1 + count kind t2.
Proof. unfold count. now rewrite filter_app, List.length_app. Qed.

(** What a structured call does at most: one attempt to create the chat
    model, one attempt to wrap it, one invocation; it loads no document,
    reads no file and formats nothing. *)
Lemma call_llm_json_counts (input : pystr) (s : state W) :
  let t := trace_of (call_llm E input true) s in
  count is_load t = 0 /\ count is_read t = 0 /\ count is_format t = 0
  /\ count is_init_chat_model t <= 1 /\ count is_structured t <= 1
  /\ count is_invoke t <= 1.
Proof.
  unfold trace_of. rewrite call_llm_json_run, get_model_json_run.
  destruct (_json_model s) as [h|].
  - destruct (model_ainvoke E h input (world s)) as [[e|result] w];
      cbn; repeat split; lia.
  - destruct (chat_model_init E (py "gpt-4o-mini") (py "openai") (world s))
      as [[e|] w0]; [cbn; repeat split; lia|].
    cbv zeta.
    destruct (structured_init E (next_ref s) (py "json_mode") w0)
      as [[e|] w1]; [cbn; repeat split; lia|].
    match goal with
    | |- context [model_ainvoke E ?h ?i ?w] =>
        destruct (model_ainvoke E h i w) as [[e|result] w2]
    end; cbn; repeat split; lia.
Qed.

(** The same bounds for the two steps. *)
Lemma extract_fields_counts (pdf_path fields_description : pystr)
    (s : state W) :
  let t := trace_of (extract_fields E pdf_path fields_description) s in
  count is_load t = 1 /\ count is_read t <= 1 /\ count is_format t <= 1
  /\ count is_init_chat_model t <= 1 /\ count is_structured t <= 1
  /\ count is_invoke t <= 1.
Proof.
  cbv zeta; unfold trace_of.
  rewrite extract_fields_run. cbv zeta.
  destruct (lazy_load E pdf_path (py "hi_res") (world s))
    as [[e|chunks] w1]; [cbn; repeat split; lia|].
  destruct (open_read E (py "prompt.md") w1) as [[e|template] w2];
    [cbn; repeat split; lia|].
  destruct (format E template
              (extraction_kwargs fields_description (document_text chunks)))
    as [e|prompt]; [cbn; repeat split; lia|].
  pose proof (call_llm_json_counts prompt (set_world s w2)) as Hc.
  cbv zeta in Hc. unfold trace_of in Hc.
  destruct (call_llm E prompt true (set_world s w2)) as [[r s3] t3].
  cbn [fst snd] in *. rewrite !count_app.
  destruct Hc as (H1 & H2 & H3 & H4 & H5 & H6).
  cbn [count filter is_load is_read is_format is_init_chat_model
       is_structured is_invoke List.length].
  repeat split; lia.
Qed.

Lemma validate_extracted_data_counts (fields_description : pystr)
    (extracted_data : jvalue) (s : state W) :
  let t :=
    trace_of (validate_extracted_data E fields_description extracted_data) s
  in
  count is_load t = 0 /\ count is_read t <= 1 /\ count is_format t <= 1
  /\ count is_init_chat_model t <= 1 /\ count is_structured t <= 1
  /\ count is_invoke t <= 1.
Proof.
  cbv zeta; unfold trace_of.
  rewrite validate_extracted_data_run. cbv zeta.
  destruct (open_read E (py "validation_prompt.md") (world s))
    as [[e|template] w1]; [cbn; repeat split; lia|].
  destruct (format E template
              (validation_kwargs fields_description extracted_data))
    as [e|prompt]; [cbn; repeat split; lia|].
  pose proof (call_llm_json_counts prompt (set_world s w1)) as Hc.
  cbv zeta in Hc. unfold trace_of in Hc.
  destruct (call_llm E prompt true (set_world s w1)) as [[r s2] t2].
  cbn [fst snd] in *. rewrite !count_app.
  destruct Hc as (H1 & H2 & H3 & H4 & H5 & H6).
  cbn [count filter is_load is_read is_format is_init_chat_model
       is_structured is_invoke List.length].
  repeat split; lia.
Qed.

(** X6: a step never repeats anything.  In every run of [extract_fields],
    whatever its outcome, the document is loaded exactly once, and there
    is at most one read of a template, one call of [str.format], one
    attempt to create the chat model, one attempt to wrap it, and one
    invocation of the model; [validate_extracted_data] loads no document
    and is bounded in the same way. *)
Theorem steps_do_nothing_twice (pdf_path fields_description : pystr)
    (extracted_data : jvalue) (s : state W) :
  (let t := trace_of (extract_fields E pdf_path fields_description) s in
   count is_load t = 1 /\ count is_read t <= 1 /\ count is_format t <= 1
   /\ count is_init_chat_model t <= 1 /\ count is_structured t <= 1
   /\ count is_invoke t <= 1)
  /\ (let t :=
        trace_of
          (validate_extracted_data E fields_description extracted_data) s in
      count is_load t = 0 /\ count is_read t <= 1 /\ count is_format t <= 1
      /\ count is_init_chat_model t <= 1 /\ count is_structured t <= 1
      /\ count is_invoke t <= 1).
Proof.
  split; [apply extract_fields_counts|apply validate_extracted_data_counts].
Qed.

(** X7: a document without chunks does not stop the extraction.  When the
    loader yields nothing, the template is still read and formatted, the
    prompt holds the sentinel text in the place of the document, and that
    prompt is what the model is invoked on (unless no model could be
    had). *)
Theorem empty_document_still_sent (pdf_path fields_description : pystr)
    (s : state W) (w1 w2 : W) (template prompt : pystr) :
  lazy_load E pdf_path (py "hi_res") (world s) = (inr [], w1) ->
  open_read E (py "prompt.md") w1 = (inr template, w2) ->
  has_placeholder template (py "content") ->
  format E template
    (extraction_kwargs fields_description (py "PDF content unavailable"))
    = inr prompt ->
  contains prompt (py "PDF content unavailable")
  /\ (invocations (trace_of (extract_fields E pdf_path fields_description) s)
      = [prompt]
      \/ (invocations
            (trace_of (extract_fields E pdf_path fields_description) s) = []
          /\ exists e,
              outcome (extract_fields E pdf_path fields_description) s
              = inl e)).
Proof.
  intros Hload Hread Hph Hfmt. split.
  - eapply format_contains with (name := py "content");
      eauto; try reflexivity; discriminate.
  - unfold trace_of, outcome. rewrite extract_fields_run, Hload. cbv zeta.
    rewrite Hread. change (document_text []) with (py "PDF content unavailable").
    rewrite Hfmt.
    pose proof (call_llm_invocations E prompt (set_world s w2)) as Hi.
    unfold trace_of, outcome in Hi.
    destruct (call_llm E prompt true (set_world s w2)) as [[r s3] t3].
    cbn [fst snd] in *. rewrite invocations_app. exact Hi.
Qed.

(** Text joined with spaces is empty only when it is made of one empty
    piece. *)
Lemma space_joined_nil (contents : list pystr) :
  contents <> [] -> (space_joined contents = [] <-> contents = [[]]).
Proof.
  destruct contents as [|c cs]; [congruence|]. intros _.
  unfold space_joined. split.
  - intros H. apply app_eq_nil in H. destruct H as [-> H].
    destruct cs as [|c' cs]; [reflexivity|discriminate].
  - intros H. inversion H; subst. reflexivity.
Qed.

(** X8: the text [load_pdf_content] returns is empty exactly when the
    loader yielded a single chunk whose content is empty: the sentinel
    replaces a document without chunks, not a document without text. *)
Theorem load_pdf_content_empty_text (file_path : pystr) (s : state W)
    (chunks : list Document) (w : W) :
  lazy_load E file_path (py "hi_res") (world s) = (inr chunks, w) ->
  (outcome (load_pdf_content E file_path) s = inr []
   <-> map page_content chunks = [[]]).
Proof.
  intros Hload. unfold outcome. rewrite load_pdf_content_run, Hload.
  destruct chunks as [|d ds]; cbn [fst].
  - split; discriminate.
  - rewrite join_space_joined.
    rewrite <- (@space_joined_nil (map page_content (d :: ds)))
      by discriminate.
    split; [intros H; now inversion H|intros ->; reflexivity].
Qed.

End StepsAndModel.


(** X7, on an example: a scanned document the loader makes nothing of. *)
Lemma empty_document_still_sent_witness :
  contains
    (py ("Extract these fields: Name from this text: "
         ++ "PDF content unavailable"))
    (py "PDF content unavailable")
  /\ (invocations
        (trace_of
           (extract_fields (stub_world [] demo_template (PJson demo_answer))
              (py "scan.pdf") (py "Name")) (init_state tt))
      = [py ("Extract these fields: Name from this text: "
             ++ "PDF content unavailable")]
      \/ (invocations
            (trace_of
               (extract_fields
                  (stub_world [] demo_template (PJson demo_answer))
                  (py "scan.pdf") (py "Name")) (init_state tt)) = []
          /\ exists e,
              outcome
                (extract_fields
                   (stub_world [] demo_template (PJson demo_answer))
                   (py "scan.pdf") (py "Name")) (init_state tt) = inl e)).
Proof.
  apply (@empty_document_still_sent unit
           (stub_world [] demo_template (PJson demo_answer))
           (py "scan.pdf") (py "Name") (init_state tt) tt tt demo_template).
  - reflexivity.
  - reflexivity.
  - exists None. split; [vm_compute; tauto|now left].
  - reflexivity.
Defined.

(** X8, on an example: one chunk without text. *)
Lemma load_pdf_content_empty_text_witness :
  outcome
    (load_pdf_content (stub_world [ {| page_content := [] |} ] [] (PJson JNull))
       (py "blank.pdf")) (init_state tt) = inr [].
Proof.
  apply (@load_pdf_content_empty_text unit
           (stub_world [ {| page_content := [] |} ] [] (PJson JNull))
           (py "blank.pdf") (init_state tt) [ {| page_content := [] |} ] tt
           eq_refl).
  reflexivity.
Defined.

(** ** What the prompts are made of *)

Section PromptText.

Context {W : Type}.
Variable E : World W.

(** The scanner copies text without braces into the literal it is
    reading. *)
Lemma markup_literal_brace_free (a s lit : pystr) :
  brace_free a = true ->
  markup_literal (a ++ s) lit = markup_literal s (lit ++ a).
Proof.
  revert lit. induction a as [|c a IH]; intros lit Ha.
  - now rewrite List.app_nil_r.
  - cbn [brace_free forallb] in Ha. apply andb_true_iff in Ha.
    destruct Ha as [Hc Ha]. apply negb_true_iff, orb_false_iff in Hc.
    destruct Hc as [Hl Hr].
    change ((c :: a) ++ s) with (c :: (a ++ s)).
    cbn [markup_literal]. rewrite Hl, Hr.
    rewrite (IH (lit ++ [c]) Ha), <- List.app_assoc. reflexivity.
Qed.

Lemma markup_brace_free_end (c lit : pystr) :
  brace_free c = true -> markup_literal c lit = [SLiteral (lit ++ c)].
Proof.
  intros Hc. rewrite <- (List.app_nil_r c) at 1.
  now rewrite markup_literal_brace_free.
Qed.

(** The three placeholders of the two templates, as the scanner reads
    them. *)
Lemma markup_fields_description (rest lit : pystr) :
  markup_literal (py "{fields_description}" ++ rest) lit
  = SLiteral lit :: SField (py "fields_description") None []
    :: markup_literal rest [].
Proof. reflexivity. Qed.

Lemma markup_content (rest lit : pystr) :
  markup_literal (py "{content}" ++ rest) lit
  = SLiteral lit :: SField (py "content") None [] :: markup_literal rest [].
Proof. reflexivity. Qed.

Lemma markup_extracted_data (rest lit : pystr) :
  markup_literal (py "{extracted_data}" ++ rest) lit
  = SLiteral lit :: SField (py "extracted_data") None []
    :: markup_literal rest [].
Proof. reflexivity. Qed.

(** X9: for a template made of text without braces around the two
    placeholders of a step, the prompt is exactly that text with each
    placeholder replaced by its argument.  The arguments are copied as
    they are: braces in the field description, in the document or in the
    serialized data are not read as markup. *)
Theorem prompts_are_exact_substitutions (a b c : pystr)
    (fields_description content : pystr) (extracted_data : jvalue) :
  brace_free a = true -> brace_free b = true -> brace_free c = true ->
  format E (a ++ py "{fields_description}" ++ b ++ py "{content}" ++ c)
    (extraction_kwargs fields_description content)
  = inr (a ++ fields_description ++ b ++ content ++ c)
  /\ format E
       (a ++ py "{fields_description}" ++ b ++ py "{extracted_data}" ++ c)
       (validation_kwargs fields_description extracted_data)
     = inr (a ++ fields_description ++ b ++ json_dumps extracted_data ++ c).
Proof.
  intros Ha Hb Hc. unfold format, markup. split.
  - rewrite markup_literal_brace_free by exact Ha.
    rewrite markup_fields_description.
    rewrite markup_literal_brace_free by exact Hb.
    rewrite markup_content.
    rewrite markup_brace_free_end by exact Hc.
    cbn [app build_string]. rewrite !List.app_nil_r. reflexivity.
  - rewrite markup_literal_brace_free by exact Ha.
    rewrite markup_fields_description.
    rewrite markup_literal_brace_free by exact Hb.
    rewrite markup_extracted_data.
    rewrite markup_brace_free_end by exact Hc.
    cbn [app build_string]. rewrite !List.app_nil_r. reflexivity.
Qed.

End PromptText.

Section SerializedText.










End SerializedText.

(** X9, on the templates of the end-to-end scenario, with a document that
    holds braces. *)
Lemma prompts_are_exact_substitutions_witness :
  format demo_world
    (py "Extract these fields: " ++ py "{fields_description}"
     ++ py " from this text: " ++ py "{content}" ++ [])
    (extraction_kwargs (py "Name") (py "{Jane} {0}"))
  = inr (py "Extract these fields: " ++ py "Name"
         ++ py " from this text: " ++ py "{Jane} {0}" ++ [])
  /\ format demo_world
       (py "Extract these fields: " ++ py "{fields_description}"
        ++ py " from this text: " ++ py "{extracted_data}" ++ [])
       (validation_kwargs (py "Name") demo_answer)
     = inr (py "Extract these fields: " ++ py "Name"
            ++ py " from this text: " ++ json_dumps demo_answer ++ []).
Proof.
  apply (@prompts_are_exact_substitutions unit demo_world
           (py "Extract these fields: ") (py " from this text: ") []
           (py "Name") (py "{Jane} {0}") demo_answer);
    reflexivity.
Defined.

(** ** What the page shows for a field *)

Section FieldDisplay.

Import App.

(** X11: the colour of a score.  An integer score is green from 8 up,
    orange at 6 and 7, red below 6; there is no check of the range, so any
    integer has a colour.  [True] and [False] count as 1 and 0 and are
    red.  A score that is not a number (a string, [None], a list, a
    mapping) raises [TypeError]. *)
Theorem score_color_thresholds :
  (forall z, score_color (JInt z) = inr green <-> (8 <= z)%Z)
  /\ (forall z, score_color (JInt z) = inr orange <-> (6 <= z < 8)%Z)
  /\ (forall z, score_color (JInt z) = inr red <-> (z < 6)%Z)
  /\ (forall b, score_color (JBool b) = inr red)
  /\ (forall score, is_number score = false ->
        exists msg, score_color score = inl (TypeError msg)).
Proof.
  split; [|split; [|split; [|split]]].
  - intros z. unfold score_color, ge.
    destruct (Z.leb_spec 8 z); [split; [lia|reflexivity]|].
    destruct (Z.leb_spec 6 z); split; try discriminate; lia.
  - intros z. unfold score_color, ge.
    destruct (Z.leb_spec 8 z); [split; [discriminate|lia]|].
    destruct (Z.leb_spec 6 z); split; try discriminate; try lia.
    reflexivity.
  - intros z. unfold score_color, ge.
    destruct (Z.leb_spec 8 z); [split; [discriminate|lia]|].
    destruct (Z.leb_spec 6 z); split; try discriminate; try lia.
    reflexivity.
  - intros [|]; reflexivity.
  - intros [|b|z|s|l|d]; try discriminate; intros _; eexists; reflexivity.
Qed.

(** X12: what is shown for an extracted value.  The page shows "Not
    found" exactly for the values Python takes as false: [None], [False],
    0, the empty string, list and mapping.  For any other value it shows
    the value itself, or, for a list, every item once and in order. *)
Theorem render_value_shows (value : jvalue) :
  (render_value value = [ShownNotFound] <-> truthy value = false)
  /\ (truthy value = true ->
      map shown_item (render_value value) =
      match value with
      | JList items => map Some items
      | _ => [Some value]
      end).
Proof.
  split.
  - destruct value as [|b|z|s|[|x items]|d]; cbn [render_value truthy];
      try (split; [reflexivity|discriminate]); try tauto.
    + destruct b; split; try discriminate; reflexivity.
    + destruct (Z.eqb z 0); split; try discriminate; reflexivity.
    + destruct s; split; try discriminate; reflexivity.
    + split; [|discriminate]. cbn [map]. destruct x; discriminate.
    + destruct d; split; try discriminate; reflexivity.
  - destruct value as [|b|z|s|items|d]; cbn [render_value];
      intros Ht; rewrite ?Ht; try reflexivity; try discriminate.
    destruct items as [|x items]; [discriminate|].
    rewrite map_map. apply map_ext. intros [|b|z|s|l|d]; reflexivity.
Qed.

(** X13: where the page expects a mapping, anything else raises.  An
    entry of [field_evaluations] that is there but is not a mapping (a
    bare score, [None], a string) raises [AttributeError] when its field is
    shown, and so does a [field_evaluations] that is not a mapping; only
    an entry that is missing is replaced by the default.  With no field to
    show the loop body never runs, and nothing is raised. *)
Theorem evaluation_must_be_mapping :
  (forall fe field value,
      is_dict (dict_get fe field (JDict [])) = false ->
      exists msg, render_field (JDict fe) field value
                  = inl (AttributeError msg))
  /\ (forall field_evaluations field value,
      is_dict field_evaluations = false ->
      exists msg, render_field field_evaluations field value
                  = inl (AttributeError msg))
  /\ (forall vr field value items overall,
      render_overall (JDict vr) = inr overall ->
      is_dict (dict_get vr (py "field_evaluations") (JDict [])) = false ->
      (exists msg, display (JDict ((field, value) :: items)) (JDict vr)
                   = inl (AttributeError msg))
      /\ display (JDict []) (JDict vr) = inr (overall, [])).
Proof.
  split; [|split].
  - intros fe field value Hd. unfold render_field. cbn [get].
    destruct (dict_get fe field (JDict [])); try discriminate;
      eexists; reflexivity.
  - intros fe field value Hd. unfold render_field.
    destruct fe; try discriminate; eexists; reflexivity.
  - intros vr field value items overall Ho Hd. unfold display.
    rewrite Ho. cbn [get render_fields]. unfold render_field.
    destruct (dict_get vr (py "field_evaluations") (JDict []));
      try discriminate; (split; [eexists; reflexivity|reflexivity]).
Qed.

(** The views of a display are those of the fields, one for one. *)
Lemma render_fields_views (fe : jvalue) (items : list (pystr * jvalue))
    (views : list field_view) :
  render_fields fe items = inr views ->
  map view_field views = map fst items
  /\ map view_value views = map (fun kv => render_value (snd kv)) items.
Proof.
  revert views. induction items as [|[field value] items IH]; intros views.
  - cbn [render_fields]. intros H; inversion H; subst. split; reflexivity.
  - cbn [render_fields].
    destruct (render_field fe field value) as [e|v] eqn:Ef; [discriminate|].
    destruct (render_fields fe items) as [e|vs]; [discriminate|].
    intros H; inversion H; subst. destruct (IH vs eq_refl) as [H1 H2].
    cbn [map fst snd]. rewrite H1, H2.
    unfold render_field in Ef.
    destruct (get fe field (JDict [])) as [e|evaluation]; [discriminate|].
    destruct (get evaluation (py "score") (JInt 0)) as [e|score];
      [discriminate|].
    destruct (score_color score) as [e|c]; [discriminate|].
    destruct (details evaluation) as [e|ds]; [discriminate|].
    inversion Ef; subst. split; reflexivity.
Qed.

(** X14: a display that is shown shows the extraction result as it is.
    There is one view for each field of the extracted data, in the order
    of the data, under the name of the field and with the value that was
    extracted: the validation result decides scores, colours and details,
    never which fields or values appear. *)
Theorem display_shows_every_field (extracted_data validation_result : jvalue)
    (overall : jvalue * color) (views : list field_view) :
  display extracted_data validation_result = inr (overall, views) ->
  exists items,
    extracted_data = JDict items
    /\ map view_field views = map fst items
    /\ map view_value views = map (fun kv => render_value (snd kv)) items.
Proof.
  unfold display.
  destruct (render_overall validation_result) as [e|o]; [discriminate|].
  destruct (get validation_result (py "field_evaluations") (JDict []))
    as [e|fe]; [discriminate|].
  destruct extracted_data as [|b|z|s|l|items]; try discriminate.
  destruct (render_fields fe items) as [e|vs] eqn:Er; [discriminate|].
  intros H; inversion H; subst. exists items.
  split; [reflexivity|]. now apply render_fields_views in Er.
Qed.

End FieldDisplay.

(** X14, on the end-to-end scenario. *)
Lemma display_shows_every_field_witness :
  exists items,
    demo_answer = JDict items
    /\ map App.view_field
         [ {| App.view_field := py "name"; App.view_score := JInt 10;
              App.view_color := App.green;
              App.view_value := [App.ShownValue (JStr (py "Jane Doe"))];
              App.view_details :=
                [("Coverage"%string, JStr (py "full"));
                 ("Correctness"%string, JStr (py "exact"))] |};
           App.default_view (py "email") (JStr (py "jane@example.com"));
           App.default_view (py "skills") (JList [JStr (py "Python")]) ]
       = map fst items
    /\ map App.view_value
         [ {| App.view_field := py "name"; App.view_score := JInt 10;
              App.view_color := App.green;
              App.view_value := [App.ShownValue (JStr (py "Jane Doe"))];
              App.view_details :=
                [("Coverage"%string, JStr (py "full"));
                 ("Correctness"%string, JStr (py "exact"))] |};
           App.default_view (py "email") (JStr (py "jane@example.com"));
           App.default_view (py "skills") (JList [JStr (py "Python")]) ]
       = map (fun kv => App.render_value (snd kv)) items.
Proof.
  exact (@display_shows_every_field demo_answer demo_validation
           (JInt 9, App.green) _ eq_refl).
Defined.

(** ** The page: a click on the button *)

Section PageRun.

Import App Page.

Context {W : Type}.
Variable host : Host W.

(** The display is a computation on the two results: it leaves the state
    alone. *)
Lemma show_fields_shown (fe : jvalue) (fields : list (pystr * jvalue))
    (views : list field_view) (s : state W) :
  render_fields fe fields = inr views ->
  show_fields fe fields s = (inr tt, s, map (fun v => PShow (OField v)) views).
Proof.
  revert views. induction fields as [|[field value] fields IH]; intros views.
  - cbn [render_fields]. intros H; inversion H; subst. reflexivity.
  - cbn [render_fields show_fields].
    destruct (render_field fe field value) as [e|v]; [discriminate|].
    destruct (render_fields fe fields) as [e|vs]; [discriminate|].
    intros H; inversion H; subst.
    unfold pbind, plift, show. rewrite (IH vs eq_refl). reflexivity.
Qed.

(** The loop stops at the first field that cannot be shown; the fields
    before it are on the page. *)
Lemma show_fields_stops (fe : jvalue) (before after : list (pystr * jvalue))
    (field : pystr) (value : jvalue) (views : list field_view) (e : exn)
    (s : state W) :
  render_fields fe before = inr views ->
  render_field fe field value = inl e ->
  show_fields fe (before ++ (field, value) :: after) s
  = (inl e, s, map (fun v => PShow (OField v)) views).
Proof.
  revert views. induction before as [|[f x] before IH]; intros views.
  - cbn [render_fields]. intros H; inversion H; subst. intros He.
    cbn [app show_fields]. unfold pbind, plift. rewrite He. reflexivity.
  - cbn [render_fields app show_fields].
    destruct (render_field fe f x) as [e0|v]; [discriminate|].
    destruct (render_fields fe before) as [e0|vs]; [discriminate|].
    intros H; inversion H; subst. intros He.
    unfold pbind, plift, show. rewrite (IH vs eq_refl He). reflexivity.
Qed.

Lemma show_summary_run (vr : list (pystr * jvalue)) (s : state W) :
  show_summary vr s = (inr tt, s, map PShow (summary_line vr)).
Proof.
  unfold show_summary, summary_line.
  destruct (find (fun kv => pystr_eqb (fst kv) (py "summary")) vr);
    reflexivity.
Qed.

(** The page and [display] agree: what [display] computes is what the
    page shows, between the success line and the raw data. *)
Lemma display_results_shown (x : jvalue) (vr : list (pystr * jvalue))
    (overall : jvalue * color) (views : list field_view) (s : state W) :
  display x (JDict vr) = inr (overall, views) ->
  display_results (PJson x) (PJson (JDict vr)) s
  = (inr tt, s,
     map PShow
       ([OSuccess; OOverall (fst overall) (snd overall)]
        ++ summary_line vr ++ map OField views
        ++ [ORaw (PJson x) (PJson (JDict vr))])).
Proof.
  unfold display, display_results.
  destruct (render_overall (JDict vr)) as [e|o] eqn:Eo; [discriminate|].
  cbn [get].
  destruct x as [|b|z|str|l|d]; try discriminate.
  destruct (render_fields (dict_get vr (py "field_evaluations") (JDict [])) d)
    as [e|vs] eqn:Er; [discriminate|].
  intros H; inversion H; subst.
  unfold pbind, plift, show. rewrite show_summary_run.
  cbn [dict_items]. rewrite (show_fields_shown _ _ s Er).
  rewrite !map_app, map_map. cbn [map app].
  reflexivity.
Qed.

(** X15: a display that fails has already shown what came before.  When
    the evaluation of a field cannot be shown, the page holds the success
    line, the overall score, the summary and the fields before that one;
    the exception is raised from there. *)
Theorem display_results_partial (before after : list (pystr * jvalue))
    (field : pystr) (value : jvalue) (vr : list (pystr * jvalue))
    (overall : jvalue * color) (views : list field_view) (e : exn)
    (s : state W) :
  render_overall (JDict vr) = inr overall ->
  render_fields (dict_get vr (py "field_evaluations") (JDict [])) before
    = inr views ->
  render_field (dict_get vr (py "field_evaluations") (JDict [])) field value
    = inl e ->
  display (JDict (before ++ (field, value) :: after)) (JDict vr) = inl e
  /\ display_results (PJson (JDict (before ++ (field, value) :: after)))
       (PJson (JDict vr)) s
     = (inl e, s,
        map PShow
          ([OSuccess; OOverall (fst overall) (snd overall)]
           ++ summary_line vr ++ map OField views)).
Proof.
  intros Ho Hb Hf. split.
  - unfold display. rewrite Ho. cbn [get]. rewrite render_fields_app, Hb.
    cbn [render_fields]. now rewrite Hf.
  - unfold display_results.
    unfold pbind, plift, show. rewrite Ho, show_summary_run.
    cbn [dict_items get]. rewrite (@show_fields_stops _ before after field value views e s Hb Hf).
    rewrite !map_app, map_map. cbn [map app]. reflexivity.
Qed.

(** The display only shows results: it leaves the state alone and does
    nothing else. *)
Lemma show_fields_pure (fe : jvalue) (fields : list (pystr * jvalue))
    (s : state W) :
  exists r outs,
    show_fields fe fields s = (r, s, map PShow outs)
    /\ forallb is_result outs = true.
Proof.
  induction fields as [|[field value] fields IH].
  - exists (inr tt), []. split; reflexivity.
  - cbn [show_fields]. unfold pbind, plift, show.
    destruct (render_field fe field value) as [e|v].
    + exists (inl e), []. split; reflexivity.
    + destruct IH as (r & outs & -> & Houts). exists r, (OField v :: outs).
      split; [reflexivity|exact Houts].
Qed.

Lemma is_result_summary_line (vr : list (pystr * jvalue)) :
  forallb is_result (summary_line vr) = true.
Proof.
  unfold summary_line.
  destruct (find (fun kv => pystr_eqb (fst kv) (py "summary")) vr);
    reflexivity.
Qed.

Lemma display_results_pure (x v : pyvalue) (s : state W) :
  exists r outs,
    display_results x v s = (r, s, map PShow outs)
    /\ forallb is_result outs = true.
Proof.
  unfold display_results, pbind, plift, show, praise.
  destruct v as [[|b|z|str|l|vr]|c];
    try (exists (inl (AttributeError "object has no attribute 'get'")),
           [OSuccess]; split; reflexivity).
  destruct (render_overall (JDict vr)) as [e|overall].
  { exists (inl e), [OSuccess]. split; reflexivity. }
  rewrite show_summary_run. cbn [get].
  destruct (dict_items x) as [e|fields].
  { exists (inl e),
      (OSuccess :: OOverall (fst overall) (snd overall) :: summary_line vr).
    cbn [map app forallb is_result andb]. rewrite List.app_nil_r.
    split; [reflexivity|apply is_result_summary_line]. }
  destruct (show_fields_pure
              (dict_get vr (py "field_evaluations") (JDict [])) fields s)
    as ([e|[]] & outs & -> & Houts).
  - exists (inl e),
      (OSuccess :: OOverall (fst overall) (snd overall)
       :: summary_line vr ++ outs).
    cbn [map app forallb is_result andb]. rewrite map_app, forallb_app.
    rewrite is_result_summary_line, Houts. split; reflexivity.
  - exists (inr tt),
      (OSuccess :: OOverall (fst overall) (snd overall)
       :: summary_line vr ++ outs ++ [ORaw x (PJson (JDict vr))]).
    cbn [map app forallb is_result andb]. rewrite !map_app, !forallb_app.
    rewrite is_result_summary_line, Houts. split; reflexivity.
Qed.

Lemma inside_try_main (t : list event) :
  forallb inside_try (map PMain t) = true.
Proof. induction t; [reflexivity|assumption]. Qed.

Lemma inside_try_show (outs : list output) :
  forallb is_result outs = true ->
  forallb inside_try (map PShow outs) = true.
Proof.
  induction outs as [|o outs IH]; [reflexivity|]. cbn [forallb map inside_try].
  intros H. apply andb_true_iff in H. destruct H as [-> H]. now apply IH.
Qed.

(** The body of the [try] block, step by step: each stage runs when the
    one before it has returned. *)
Lemma process_run (path fd : pystr) (s : state W) :
  process host path fd s =
  match new_event_loop host (world s) with
  | (Some e, w1) => (inl e, set_world s w1, [PNewLoop])
  | (None, w1) =>
      match extract_fields (main_world host) path fd (set_world s w1) with
      | (inl e, s2, t2) => (inl e, s2, [PNewLoop] ++ map PMain t2)
      | (inr x, s2, t2) =>
          match validate host fd x s2 with
          | (inl e, s3, t3) =>
              (inl e, s3, [PNewLoop] ++ map PMain t2 ++ map PMain t3)
          | (inr v, s3, t3) =>
              match loop_close host (world s3) with
              | (Some e, w4) =>
                  (inl e, set_world s3 w4,
                   [PNewLoop] ++ map PMain t2 ++ map PMain t3
                   ++ [PLoopClose])
              | (None, w4) =>
                  match display_results x v (set_world s3 w4) with
                  | (r, s5, t5) =>
                      (r, s5,
                       [PNewLoop] ++ map PMain t2 ++ map PMain t3
                       ++ [PLoopClose] ++ t5)
                  end
              end
          end
      end
  end.
Proof.
  unfold process, pbind, host_call, run_until_complete.
  destruct (new_event_loop host (world s)) as [[e|] w1]; [reflexivity|].
  destruct (extract_fields (main_world host) path fd (set_world s w1))
    as [[[e|x] s2] t2]; [reflexivity|].
  destruct (validate host fd x s2) as [[[e|v] s3] t3]; [reflexivity|].
  destruct (loop_close host (world s3)) as [[e|] w4]; [reflexivity|].
  destruct (display_results x v (set_world s3 w4)) as [[r s5] t5].
  reflexivity.
Qed.

(** The body of the [try] block removes no file and shows no error. *)
Lemma process_inside_try (path fd : pystr) (s s' : state W)
    (r : exn + unit) (t : list page_event) :
  process host path fd s = (r, s', t) -> forallb inside_try t = true.
Proof.
  rewrite process_run.
  destruct (new_event_loop host (world s)) as [[e|] w1].
  { intros H; inversion H; subst. reflexivity. }
  destruct (extract_fields (main_world host) path fd (set_world s w1))
    as [[[e|x] s2] t2].
  { intros H; inversion H; subst. cbn [app forallb inside_try andb].
    apply inside_try_main. }
  destruct (validate host fd x s2) as [[[e|v] s3] t3].
  { intros H; inversion H; subst. cbn [app forallb inside_try andb].
    now rewrite forallb_app, !inside_try_main. }
  destruct (loop_close host (world s3)) as [[e|] w4].
  { intros H; inversion H; subst. cbn [app forallb inside_try andb].
    now rewrite !forallb_app, !inside_try_main. }
  destruct (display_results_pure x v (set_world s3 w4))
    as (r5 & outs & -> & Houts).
  intros H; inversion H; subst. cbn [app forallb inside_try andb].
  rewrite !forallb_app, !inside_try_main. cbn [forallb inside_try andb].
  now apply inside_try_show.
Qed.

Lemma inside_try_not_unlink (t : list page_event) :
  forallb inside_try t = true -> forallb not_unlink t = true.
Proof.
  induction t as [|ev t IH]; [reflexivity|]. cbn [forallb].
  intros H. apply andb_true_iff in H. destruct H as [He Ht].
  rewrite (IH Ht), andb_true_r. now destruct ev.
Qed.

Lemma inside_try_no_error (t : list page_event) (e : exn) :
  forallb inside_try t = true -> ~ In (PShow (OError e)) t.
Proof.
  intros Ht Hin. rewrite forallb_forall in Ht. specialize (Ht _ Hin).
  discriminate.
Qed.

(** The whole handler, in terms of the body of its [try] block. *)
Lemma process_extraction_run (data : list Byte.byte) (fd : pystr)
    (s : state W) :
  process_extraction host true (Some data) fd s =
  match named_temporary_file host (py ".pdf") (world s) with
  | (inl e, w1) => (inl e, set_world s w1, [PTempFile None])
  | (inr path, w1) =>
      match write_close host path data w1 with
      | (Some e, w2) =>
          (inl e, set_world s w2, [PTempFile (Some path); PWrite path data])
      | (None, w2) =>
          match process host path fd (set_world s w2) with
          | (r, s3, t3) =>
              match os_unlink host path (world s3) with
              | (_, w4) =>
                  (match r with
                   | inl e =>
                       if isinstance_Exception host e then inr tt else inl e
                   | inr a => inr a
                   end,
                   set_world s3 w4,
                   [PTempFile (Some path); PWrite path data] ++ t3
                   ++ match r with
                      | inl e =>
                          if isinstance_Exception host e
                          then [PShow (OError e)] else []
                      | inr _ => []
                      end
                   ++ [PUnlink path])
              end
          end
      end
  end.
Proof.
  unfold process_extraction. unfold pbind at 1. unfold NamedTemporaryFile.
  destruct (named_temporary_file host (py ".pdf") (world s))
    as [[e|path] w1]; [reflexivity|].
  unfold pbind at 1. unfold host_call at 1.
  change (world (set_world s w1)) with w1.
  destruct (write_close host path data w1) as [[e|] w2]; [reflexivity|].
  change (set_world (set_world s w1) w2) with (set_world s w2).
  unfold try_finally, try_except_Exception, try_except_pass, host_call, show.
  destruct (process host path fd (set_world s w2)) as [[[e|[]] s3] t3].
  - destruct (isinstance_Exception host e);
      destruct (os_unlink host path (world s3)) as [[e'|] w4];
      cbn [app]; rewrite <- ?List.app_assoc; reflexivity.
  - destruct (os_unlink host path (world s3)) as [[e'|] w4];
      cbn [app]; rewrite <- ?List.app_assoc; reflexivity.
Qed.

(** X16: the temporary file is always removed.  Once the upload is
    written, whatever the processing does (return, raise an exception the
    page shows, or raise one it does not catch), the last thing the handler
    does is to call [os.unlink] on the temporary file, and it calls it
    once. *)
Theorem temp_file_always_removed (data : list Byte.byte)
    (fields_description : pystr) (s : state W) (path : pystr) (w1 w2 : W) :
  named_temporary_file host (py ".pdf") (world s) = (inr path, w1) ->
  write_close host path data w1 = (None, w2) ->
  exists r s' t,
    process_extraction host true (Some data) fields_description s
    = (r, s', [PTempFile (Some path); PWrite path data] ++ t
              ++ [PUnlink path])
    /\ forallb not_unlink t = true.
Proof.
  intros Hcreate Hwrite. rewrite process_extraction_run, Hcreate, Hwrite.
  destruct (process host path fields_description (set_world s w2))
    as [[r s3] t3] eqn:Ep.
  apply process_inside_try, inside_try_not_unlink in Ep.
  destruct (os_unlink host path (world s3)) as [ru w4].
  destruct r as [e|a]; [destruct (isinstance_Exception host e)|].
  - exists (inr tt), (set_world s3 w4), (t3 ++ [PShow (OError e)]).
    split; [now rewrite <- List.app_assoc|].
    now rewrite forallb_app, Ep.
  - exists (inl e), (set_world s3 w4), t3. split; [reflexivity|exact Ep].
  - exists (inr a), (set_world s3 w4), t3. split; [reflexivity|exact Ep].
Qed.

(** X17: what escapes the handler.  A run of the handler raises in three
    cases only: the temporary file could not be created; the upload could
    not be written, and then the file is left behind, [os.unlink] is not
    called; or the processing raised an exception that does not derive
    from [Exception], and then no error is shown and [os.unlink] is
    called on the file before the exception goes on.  Every other failure
    is caught. *)
Theorem what_escapes_the_handler (extract_button : bool)
    (uploaded_file : option (list Byte.byte)) (fields_description : pystr)
    (s s' : state W) (e : exn) (t : list page_event) :
  process_extraction host extract_button uploaded_file fields_description s
    = (inl e, s', t) ->
  (t = [PTempFile None]
   /\ exists w,
        named_temporary_file host (py ".pdf") (world s) = (inl e, w))
  \/ (exists path data w1 w2,
        uploaded_file = Some data
        /\ named_temporary_file host (py ".pdf") (world s) = (inr path, w1)
        /\ write_close host path data w1 = (Some e, w2)
        /\ t = [PTempFile (Some path); PWrite path data])
  \/ (isinstance_Exception host e = false
      /\ exists path t',
           t = t' ++ [PUnlink path]
           /\ forall e', ~ In (PShow (OError e')) t').
Proof.
  destruct extract_button; [|discriminate].
  destruct uploaded_file as [data|]; [|discriminate].
  rewrite process_extraction_run.
  destruct (named_temporary_file host (py ".pdf") (world s))
    as [[e0|path] w1].
  { intros H; inversion H; subst. left. eauto. }
  destruct (write_close host path data w1) as [[e0|] w2] eqn:Hw.
  { intros H; inversion H; subst. right. left.
    exists path, data, w1, w2. repeat split. exact Hw. }
  destruct (process host path fields_description (set_world s w2))
    as [[[e0|[]] s3] t3] eqn:Ep;
    destruct (os_unlink host path (world s3)) as [ru w4];
    [|discriminate].
  destruct (isinstance_Exception host e0) eqn:Ei; [discriminate|].
  intros H; inversion H; subst. right. right. split; [assumption|].
  exists path, ([PTempFile (Some path); PWrite path data] ++ t3).
  split; [now rewrite <- List.app_assoc|].
  intros e' Hin. apply process_inside_try in Ep.
  cbn [app In] in Hin. destruct Hin as [Hin|[Hin|Hin]]; try discriminate.
  now apply inside_try_no_error in Hin.
Qed.

(** X18: when the extraction fails, the validation never starts.  If
    [extract_fields] raises an exception [e] that derives from
    [Exception], the handler returns normally and does exactly this: it
    creates and writes the temporary file, sets up the event loop, runs
    the extraction up to its failure, shows the error and removes the
    file.  No validation template is read, no second model call is made,
    the event loop is not closed, and no success line or result is
    shown. *)
Theorem extraction_failure_is_shown (data : list Byte.byte)
    (fields_description : pystr) (s s4 : state W) (path : pystr)
    (w1 w2 w3 w5 : W) (e : exn) (t4 : list event) (ru : option exn) :
  named_temporary_file host (py ".pdf") (world s) = (inr path, w1) ->
  write_close host path data w1 = (None, w2) ->
  new_event_loop host w2 = (None, w3) ->
  extract_fields (main_world host) path fields_description (set_world s w3)
    = (inl e, s4, t4) ->
  isinstance_Exception host e = true ->
  os_unlink host path (world s4) = (ru, w5) ->
  process_extraction host true (Some data) fields_description s
  = (inr tt, set_world s4 w5,
     [PTempFile (Some path); PWrite path data; PNewLoop] ++ map PMain t4
     ++ [PShow (OError e); PUnlink path]).
Proof.
  intros Hcreate Hwrite Hloop Hextract Hexc Hunlink.
  rewrite process_extraction_run, Hcreate, Hwrite, process_run.
  change (world (set_world s w2)) with w2. rewrite Hloop.
  change (set_world (set_world s w2) w3) with (set_world s w3).
  rewrite Hextract, Hunlink, Hexc. cbn [app].
  rewrite <- ?List.app_assoc. reflexivity.
Qed.

(** X19: a click that succeeds.  When every stage returns and the display
    can be computed, the handler does exactly this, in this order: it
    writes the upload to a temporary file, sets up an event loop, runs the
    extraction on that file, runs the validation on the same field
    description and on what the extraction returned, closes the loop,
    shows the success line, the overall score, the summary if there is
    one, one view for each field as [display] computes them, and the raw
    data, and removes the temporary file. *)
Theorem successful_click (data : list Byte.byte) (fields_description : pystr)
    (s s4 s5 : state W) (path : pystr) (w1 w2 w3 w6 w7 : W) (x : jvalue)
    (vr : list (pystr * jvalue)) (t4 t5 : list event)
    (overall : jvalue * color) (views : list field_view)
    (ru : option exn) :
  named_temporary_file host (py ".pdf") (world s) = (inr path, w1) ->
  write_close host path data w1 = (None, w2) ->
  new_event_loop host w2 = (None, w3) ->
  extract_fields (main_world host) path fields_description (set_world s w3)
    = (inr (PJson x), s4, t4) ->
  validate_extracted_data (main_world host) fields_description x s4
    = (inr (PJson (JDict vr)), s5, t5) ->
  loop_close host (world s5) = (None, w6) ->
  display x (JDict vr) = inr (overall, views) ->
  os_unlink host path w6 = (ru, w7) ->
  process_extraction host true (Some data) fields_description s
  = (inr tt, set_world s5 w7,
     [PTempFile (Some path); PWrite path data; PNewLoop]
     ++ map PMain (t4 ++ t5)
     ++ [PLoopClose]
     ++ map PShow
          ([OSuccess; OOverall (fst overall) (snd overall)]
           ++ summary_line vr ++ map OField views
           ++ [ORaw (PJson x) (PJson (JDict vr))])
     ++ [PUnlink path]).
Proof.
  intros Hcreate Hwrite Hloop Hextract Hvalidate Hclose Hdisplay Hunlink.
  rewrite process_extraction_run, Hcreate, Hwrite, process_run.
  change (world (set_world s w2)) with w2. rewrite Hloop.
  change (set_world (set_world s w2) w3) with (set_world s w3).
  rewrite Hextract. cbn [validate]. rewrite Hvalidate, Hclose.
  rewrite (@display_results_shown x vr overall views (set_world s5 w6) Hdisplay).
  change (world (set_world s5 w6)) with w6. rewrite Hunlink.
  change (set_world (set_world s5 w6) w7) with (set_world s5 w7).
  rewrite ?map_app.
  repeat (progress cbn [app map] || rewrite <- List.app_assoc).
  reflexivity.
Qed.

End PageRun.

(** X16, on the end-to-end scenario. *)
Lemma temp_file_always_removed_witness :
  exists r s' t,
    Page.process_extraction (Page.stub_host Page.pipeline_world) true
      (Some Page.demo_upload) (py "Name, Email, Skills") (init_state false)
    = (r, s',
       [Page.PTempFile (Some Page.upload_path);
        Page.PWrite Page.upload_path Page.demo_upload] ++ t
       ++ [Page.PUnlink Page.upload_path])
    /\ forallb Page.not_unlink t = true.
Proof.
  apply (@temp_file_always_removed bool (Page.stub_host Page.pipeline_world)
           Page.demo_upload (py "Name, Email, Skills") (init_state false)
           Page.upload_path false false);
    reflexivity.
Defined.

(** X17, on an example: the disk is full when the upload is written. *)
Lemma what_escapes_the_handler_witness :
  ([Page.PTempFile (Some Page.upload_path);
    Page.PWrite Page.upload_path Page.demo_upload] = [Page.PTempFile None]
   /\ exists w,
        Page.named_temporary_file
          (Page.full_disk_host Page.pipeline_world) (py ".pdf")
          (world (init_state false))
        = (inl (Raised "OSError" (py "No space left on device")), w))
  \/ (exists path data w1 w2,
        Some Page.demo_upload = Some data
        /\ Page.named_temporary_file
             (Page.full_disk_host Page.pipeline_world) (py ".pdf")
             (world (init_state false)) = (inr path, w1)
        /\ Page.write_close (Page.full_disk_host Page.pipeline_world)
             path data w1
           = (Some (Raised "OSError" (py "No space left on device")), w2)
        /\ [Page.PTempFile (Some Page.upload_path);
            Page.PWrite Page.upload_path Page.demo_upload]
           = [Page.PTempFile (Some path); Page.PWrite path data])
  \/ (Page.isinstance_Exception (Page.full_disk_host Page.pipeline_world)
        (Raised "OSError" (py "No space left on device")) = false
      /\ exists path t',
           [Page.PTempFile (Some Page.upload_path);
            Page.PWrite Page.upload_path Page.demo_upload]
           = t' ++ [Page.PUnlink path]
           /\ forall e', ~ In (Page.PShow (Page.OError e')) t').
Proof.
  exact (@what_escapes_the_handler bool
           (Page.full_disk_host Page.pipeline_world) true
           (Some Page.demo_upload) (py "Name") (init_state false)
           (init_state false)
           (Raised "OSError" (py "No space left on device"))
           [Page.PTempFile (Some Page.upload_path);
            Page.PWrite Page.upload_path Page.demo_upload]
           eq_refl).
Defined.

(** X18, on the failure scenario: the loader cannot find the file. *)
Lemma extraction_failure_is_shown_witness :
  Page.process_extraction (Page.stub_host missing_file_world) true
    (Some Page.demo_upload) (py "Name") (init_state tt)
  = (inr tt, init_state tt,
     [Page.PTempFile (Some Page.upload_path);
      Page.PWrite Page.upload_path Page.demo_upload; Page.PNewLoop]
     ++ map Page.PMain [EvLoad Page.upload_path (py "hi_res")]
     ++ [Page.PShow
           (Page.OError (Raised "FileNotFoundError" Page.upload_path));
         Page.PUnlink Page.upload_path]).
Proof.
  apply (@extraction_failure_is_shown unit (Page.stub_host missing_file_world)
           Page.demo_upload (py "Name") (init_state tt) (init_state tt)
           Page.upload_path tt tt tt tt
           (Raised "FileNotFoundError" Page.upload_path)
           [EvLoad Page.upload_path (py "hi_res")] None);
    reflexivity.
Defined.

(** X19, on the end-to-end scenario: what is on the page after the
    click. *)
Lemma successful_click_witness :
  Page.shown_outputs
    (snd (Page.process_extraction (Page.stub_host Page.pipeline_world) true
            (Some Page.demo_upload) (py "Name, Email, Skills")
            (init_state false)))
  = [Page.OSuccess; Page.OOverall (JInt 9) App.green;
     Page.OSummary (JStr (py "Strong match"));
     Page.OField
       {| App.view_field := py "name"; App.view_score := JInt 10;
          App.view_color := App.green;
          App.view_value := [App.ShownValue (JStr (py "Jane Doe"))];
          App.view_details :=
            [("Coverage"%string, JStr (py "full"));
             ("Correctness"%string, JStr (py "exact"))] |};
     Page.OField
       (App.default_view (py "email") (JStr (py "jane@example.com")));
     Page.OField
       (App.default_view (py "skills") (JList [JStr (py "Python")]));
     Page.ORaw (PJson demo_answer) (PJson demo_validation)].
Proof.
  rewrite (@successful_click bool (Page.stub_host Page.pipeline_world)
             Page.demo_upload (py "Name, Email, Skills") (init_state false)
             _ _ Page.upload_path false false false true true demo_answer
             _ _ _ _ _ None
             eq_refl eq_refl eq_refl eq_refl eq_refl eq_refl eq_refl
             eq_refl).
  reflexivity.
Defined.

(** X15, on an example: the validation gives a bare score for [email];
    [name] is on the page when the exception is raised. *)
Lemma display_results_partial_witness :
  App.display demo_answer (JDict Page.bare_score_validation)
  = inl (AttributeError "object has no attribute 'get'")
  /\ Page.display_results (PJson demo_answer)
       (PJson (JDict Page.bare_score_validation)) (init_state tt)
     = (inl (AttributeError "object has no attribute 'get'"), init_state tt,
        map Page.PShow
          ([Page.OSuccess; Page.OOverall (JInt 9) App.green]
           ++ Page.summary_line Page.bare_score_validation
           ++ map Page.OField
                [App.default_view (py "name") (JStr (py "Jane Doe"))])).
Proof.
  apply (@display_results_partial unit
           [(py "name", JStr (py "Jane Doe"))]
           [(py "skills", JList [JStr (py "Python")])]
           (py "email") (JStr (py "jane@example.com"))
           Page.bare_score_validation (JInt 9, App.green)
           [App.default_view (py "name") (JStr (py "Jane Doe"))]
           (AttributeError "object has no attribute 'get'") (init_state tt));
    reflexivity.
Defined.

(** ** Construction of the model handles *)

Section Construction.

Context {W : Type}.
Variable E : World W.

(** X20: a failed construction is not cached.  When [get_model] raises,
    both globals are as they were and nothing was assigned: the handle of
    the mode is still missing, and the next call in that mode tries again,
    starting with a new call of [init_chat_model]. *)
Theorem failed_construction_is_retried (json_mode : bool) (s s1 : state W)
    (e : exn) (t1 : list event) :
  get_model E json_mode s = (inl e, s1, t1) ->
  _model s1 = _model s
  /\ _json_model s1 = _json_model s
  /\ (if json_mode then _json_model s1 else _model s1) = None
  /\ writes_model t1 = 0
  /\ writes_json_model t1 = 0
  /\ count is_init_chat_model (trace_of (get_model E json_mode) s1) = 1.
Proof.
  unfold trace_of. destruct json_mode.
  - rewrite (get_model_json_run E s1), get_model_json_run.
    destruct (_json_model s) as [h|] eqn:Ej; [discriminate|].
    destruct (chat_model_init E (py "gpt-4o-mini") (py "openai") (world s))
      as [[e0|] w].
    + intros H; inversion H; subst. cbn [_model _json_model set_world].
      rewrite Ej. repeat split.
      destruct (chat_model_init E (py "gpt-4o-mini") (py "openai")
                  (world (set_world s w))) as [[e1|] w'];
        [reflexivity|]. cbv zeta.
      match goal with
      | |- context [structured_init E ?b ?m ?w] =>
          destruct (structured_init E b m w) as [[e1|] w'']
      end; reflexivity.
    + cbv zeta.
      destruct (structured_init E (next_ref s) (py "json_mode") w)
        as [[e0|] w']; [|discriminate].
      intros H; inversion H; subst.
      cbn [_model _json_model set_world alloc]. rewrite Ej. repeat split.
      match goal with
      | |- context [chat_model_init E ?a ?b ?w] =>
          destruct (chat_model_init E a b w) as [[e1|] w'']
      end; [reflexivity|]. cbv zeta.
      match goal with
      | |- context [structured_init E ?b ?m ?w] =>
          destruct (structured_init E b m w) as [[e1|] w3]
      end; reflexivity.
  - rewrite (get_model_text_run E s1), get_model_text_run.
    destruct (_model s) as [h|] eqn:Em; [discriminate|].
    destruct (chat_model_init E (py "gpt-4o-mini") (py "openai") (world s))
      as [[e0|] w]; [|discriminate].
    intros H; inversion H; subst. cbn [_model _json_model set_world].
    rewrite Em. repeat split.
    destruct (chat_model_init E (py "gpt-4o-mini") (py "openai")
                (world (set_world s w))) as [[e1|] w']; reflexivity.
Qed.

(** X21: the structured handle is built on a chat model of its own.  In
    a process that has made any calls so far, whenever [get_model] wraps a
    model for structured output, the method is ["json_mode"], and the
    model it wraps is the ["gpt-4o-mini"] chat model this very call has
    just created: it is never the cached free-text model. *)
Theorem structured_handle_wraps_new_model (w : W) (history : list call)
    (s0 s1 : state W) (t0 t1 : list event) (json_mode : bool)
    (r : exn + option ref) (base : ref) (method : pystr)
    (obj : option ref) :
  run_history E history (init_state w) = (s0, t0) ->
  get_model E json_mode s0 = (r, s1, t1) ->
  In (EvStructured base method obj) t1 ->
  json_mode = true
  /\ method = py "json_mode"
  /\ In (EvInitChatModel (py "gpt-4o-mini") (py "openai") (Some base)) t1
  /\ _model s0 <> Some base
  /\ _model s1 <> Some base.
Proof.
  intros H0 H1 Hin. apply reachable_ok in H0.
  destruct H0 as (Hm & _ & _).
  destruct json_mode.
  - rewrite get_model_json_run in H1.
    destruct (_json_model s0) as [h|].
    { inversion H1; subst. destruct Hin. }
    destruct (chat_model_init E (py "gpt-4o-mini") (py "openai") (world s0))
      as [[e0|] w0].
    { inversion H1; subst. destruct Hin as [Hin|[]]. discriminate. }
    cbv zeta in H1.
    assert (Hfresh : _model s0 <> Some (next_ref s0)).
    { intros Heq. specialize (Hm _ Heq). lia. }
    destruct (structured_init E (next_ref s0) (py "json_mode") w0)
      as [[e0|] w1]; inversion H1; subst; clear H1; cbn [In] in Hin.
    + destruct Hin as [Hin|[Hin|[]]]; [discriminate|].
      inversion Hin; subst. cbn [_model set_world alloc In].
      repeat split; auto.
    + destruct Hin as [Hin|[Hin|[Hin|[]]]]; try discriminate.
      inversion Hin; subst. cbn [_model In]. repeat split; auto.
  - rewrite get_model_text_run in H1.
    destruct (_model s0) as [h|].
    { inversion H1; subst. destruct Hin. }
    destruct (chat_model_init E (py "gpt-4o-mini") (py "openai") (world s0))
      as [[e0|] w0]; inversion H1; subst; cbn [In] in Hin.
    + destruct Hin as [Hin|[]]. discriminate.
    + destruct Hin as [Hin|[Hin|[]]]; discriminate.
Qed.

End Construction.

(** X20, on an example: the provider cannot be reached. *)
Lemma failed_construction_is_retried_witness :
  _model (set_world (init_state tt) tt) = _model (init_state tt)
  /\ _json_model (set_world (init_state tt) tt) = _json_model (init_state tt)
  /\ _json_model (set_world (init_state tt) tt) = None
  /\ writes_model
       [EvInitChatModel (py "gpt-4o-mini") (py "openai") None] = 0
  /\ writes_json_model
       [EvInitChatModel (py "gpt-4o-mini") (py "openai") None] = 0
  /\ count is_init_chat_model
       (trace_of (get_model offline_world true)
          (set_world (init_state tt) tt)) = 1.
Proof.
  exact (@failed_construction_is_retried unit offline_world true
           (init_state tt) (set_world (init_state tt) tt)
           (Raised "ConnectionError" (py "openai"))
           [EvInitChatModel (py "gpt-4o-mini") (py "openai") None]
           eq_refl).
Defined.

(** X21, on the end-to-end scenario: the free-text model exists when the
    structured one is asked for. *)
Lemma structured_handle_wraps_new_model_witness :
  true = true
  /\ py "json_mode" = py "json_mode"
  /\ In (EvInitChatModel (py "gpt-4o-mini") (py "openai") (Some 1))
       (trace_of (get_model demo_world true)
          (fst (run_history demo_world [CallGetModel false]
                  (init_state tt))))
  /\ _model (fst (run_history demo_world [CallGetModel false]
                    (init_state tt))) <> Some 1
  /\ _model (state_after (get_model demo_world true)
               (fst (run_history demo_world [CallGetModel false]
                       (init_state tt)))) <> Some 1.
Proof.
  apply (@structured_handle_wraps_new_model unit demo_world tt
           [CallGetModel false] _ _ _ _ true _ 1 (py "json_mode") (Some 2)
           eq_refl eq_refl).
  vm_compute. right. left. reflexivity.
Defined.

(** ** The page and the model *)

Section PageAndModel.

Import App Page.

Context {W : Type}.
Variable host : Host W.

Lemma main_events_app (t1 t2 : list page_event) :
  main_events (t1 ++ t2) = main_events t1 ++ main_events t2.
Proof. unfold main_events. apply flat_map_app. Qed.

Lemma main_events_main (t : list event) : main_events (map PMain t) = t.
Proof.
  induction t as [|e t IH]; [reflexivity|].
  cbn [map main_events flat_map app]. fold (main_events (map PMain t)).
  now rewrite IH.
Qed.

Lemma main_events_show (outs : list output) :
  main_events (map PShow outs) = [].
Proof. induction outs; [reflexivity|assumption]. Qed.

(** What the body of the [try] block makes [main.py] do: the extraction,
    and the validation if the extraction returned. *)
Lemma process_main_events (path fd : pystr) (s : state W) :
  main_events (snd (process host path fd s)) =
  match new_event_loop host (world s) with
  | (Some _, _) => []
  | (None, w1) =>
      match extract_fields (main_world host) path fd (set_world s w1) with
      | (inl _, _, t2) => t2
      | (inr x, s2, t2) => t2 ++ snd (validate host fd x s2)
      end
  end.
Proof.
  rewrite process_run.
  destruct (new_event_loop host (world s)) as [[e|] w1]; [reflexivity|].
  destruct (extract_fields (main_world host) path fd (set_world s w1))
    as [[[e|x] s2] t2].
  { cbn [snd app main_events flat_map]. apply main_events_main. }
  destruct (validate host fd x s2) as [[[e|v] s3] t3].
  { cbn [snd app main_events flat_map].
    fold (main_events (map PMain t2 ++ map PMain t3)).
    now rewrite main_events_app, !main_events_main. }
  destruct (loop_close host (world s3)) as [[e|] w4].
  { cbn [snd app main_events flat_map].
    fold (main_events (map PMain t2 ++ map PMain t3 ++ [PLoopClose])).
    rewrite !main_events_app, !main_events_main.
    cbn [main_events flat_map]. now rewrite List.app_nil_r. }
  destruct (display_results_pure x v (set_world s3 w4))
    as (r5 & outs & -> & _).
  cbn [snd app main_events flat_map].
  fold (main_events
          (map PMain t2 ++ map PMain t3 ++ PLoopClose :: map PShow outs)).
  rewrite !main_events_app, !main_events_main.
  cbn [main_events flat_map app]. fold (main_events (map PShow outs)).
  now rewrite main_events_show, List.app_nil_r.
Qed.

Lemma process_extraction_main_events (data : list Byte.byte) (fd : pystr)
    (s : state W) :
  main_events (snd (process_extraction host true (Some data) fd s)) =
  match named_temporary_file host (py ".pdf") (world s) with
  | (inl _, _) => []
  | (inr path, w1) =>
      match write_close host path data w1 with
      | (Some _, _) => []
      | (None, w2) =>
          main_events (snd (process host path fd (set_world s w2)))
      end
  end.
Proof.
  rewrite process_extraction_run.
  destruct (named_temporary_file host (py ".pdf") (world s))
    as [[e|path] w1]; [reflexivity|].
  destruct (write_close host path data w1) as [[e|] w2]; [reflexivity|].
  destruct (process host path fd (set_world s w2)) as [[r s3] t3].
  destruct (os_unlink host path (world s3)) as [ru w4].
  cbn [snd app main_events flat_map].
  match goal with
  | |- context [t3 ++ ?rest] => fold (main_events (t3 ++ rest))
  end.
  rewrite !main_events_app.
  destruct r as [e|a]; [destruct (isinstance_Exception host e)|];
    cbn [main_events flat_map app]; now rewrite List.app_nil_r.
Qed.

(** An extraction that returned has left the structured handle cached. *)
Lemma extract_fields_returned (path fd : pystr) (s s1 : state W)
    (x : pyvalue) (t1 : list event) :
  extract_fields (main_world host) path fd s = (inr x, s1, t1) ->
  exists h, _json_model s1 = Some h.
Proof.
  rewrite extract_fields_run. cbv zeta.
  destruct (lazy_load (main_world host) path (py "hi_res") (world s))
    as [[e|chunks] w1]; [discriminate|].
  destruct (open_read (main_world host) (py "prompt.md") w1)
    as [[e|template] w2]; [discriminate|].
  destruct (format (main_world host) template
              (extraction_kwargs fd (document_text chunks)))
    as [e|prompt]; [discriminate|].
  destruct (call_llm (main_world host) prompt true (set_world s w2))
    as [[r3 s3] t3] eqn:Ec.
  intros H; inversion H; subst.
  apply call_llm_json_returns in Ec. destruct Ec as (h & tg & Hj & _).
  eauto.
Qed.

(** With the structured handle cached, a structured call constructs
    nothing and invokes that handle. *)
Lemma call_llm_cached_events (input : pystr) (s : state W) (h : ref) :
  _json_model s = Some h ->
  let t := trace_of (call_llm (main_world host) input true) s in
  filter is_construction_event t = []
  /\ (forall h' i, In (EvInvoke h' i) t -> h' = h)
  /\ count is_load t = 0 /\ count is_read t = 0 /\ count is_format t = 0
  /\ count is_init_chat_model t = 0 /\ count is_structured t = 0
  /\ count is_invoke t <= 1.
Proof.
  intros Hj. cbv zeta. unfold trace_of.
  rewrite (call_llm_json_cached (main_world host) input s Hj).
  destruct (model_ainvoke (main_world host) h input (world s)) as [r w].
  cbn [snd]. split; [reflexivity|]. split.
  - intros h' i [Hin|[]]. now inversion Hin.
  - cbn. repeat split; lia.
Qed.

Lemma extract_fields_cached (path fd : pystr) (s : state W) (h : ref) :
  _json_model s = Some h ->
  let t := trace_of (extract_fields (main_world host) path fd) s in
  filter is_construction_event t = []
  /\ (forall h' i, In (EvInvoke h' i) t -> h' = h).
Proof.
  intros Hj. cbv zeta. unfold trace_of. rewrite extract_fields_run. cbv zeta.
  destruct (lazy_load (main_world host) path (py "hi_res") (world s))
    as [[e|chunks] w1].
  { split; [reflexivity|]. intros h' i [Hin|[]]. discriminate. }
  destruct (open_read (main_world host) (py "prompt.md") w1)
    as [[e|template] w2].
  { split; [reflexivity|]. intros h' i [Hin|[Hin|[]]]; discriminate. }
  destruct (format (main_world host) template
              (extraction_kwargs fd (document_text chunks)))
    as [e|prompt].
  { split; [reflexivity|].
    intros h' i [Hin|[Hin|[Hin|[]]]]; discriminate. }
  pose proof (@call_llm_cached_events prompt (set_world s w2) h Hj)
    as (Hc & Hi & _).
  unfold trace_of in Hc, Hi.
  destruct (call_llm (main_world host) prompt true (set_world s w2))
    as [[r s3] t3].
  cbn [snd] in *. split.
  - rewrite filter_app, Hc. reflexivity.
  - intros h' i Hin. cbn [app In] in Hin.
    destruct Hin as [Hin|[Hin|[Hin|Hin]]]; try discriminate. eauto.
Qed.

Lemma validate_cached (fd : pystr) (x : pyvalue) (s : state W) (h : ref) :
  _json_model s = Some h ->
  let t := snd (validate host fd x s) in
  filter is_construction_event t = []
  /\ (forall h' i, In (EvInvoke h' i) t -> h' = h)
  /\ count is_load t = 0 /\ count is_read t <= 1 /\ count is_format t <= 1
  /\ count is_init_chat_model t = 0 /\ count is_structured t = 0
  /\ count is_invoke t <= 1.
Proof.
  intros Hj. cbv zeta. destruct x as [data|c]; cbn [validate].
  - rewrite validate_extracted_data_run. cbv zeta.
    destruct (open_read (main_world host) (py "validation_prompt.md")
                (world s)) as [[e|template] w1].
    { cbn [snd]. split; [reflexivity|]. split.
      - intros h' i [Hin|[]]. discriminate.
      - cbn. repeat split; lia. }
    destruct (format (main_world host) template (validation_kwargs fd data))
      as [e|prompt].
    { cbn [snd]. split; [reflexivity|]. split.
      - intros h' i [Hin|[Hin|[]]]; discriminate.
      - cbn. repeat split; lia. }
    pose proof (@call_llm_cached_events prompt (set_world s w1) h Hj)
      as (Hc & Hi & H1 & H2 & H3 & H4 & H5 & H6).
    unfold trace_of in *.
    destruct (call_llm (main_world host) prompt true (set_world s w1))
      as [[r s2] t2].
    cbn [snd] in *. split; [|split].
    + rewrite filter_app, Hc. reflexivity.
    + intros h' i Hin. cbn [app In] in Hin.
      destruct Hin as [Hin|[Hin|Hin]]; try discriminate. eauto.
    + rewrite !count_app.
      cbn [count filter is_load is_read is_format is_init_chat_model
           is_structured is_invoke List.length].
      repeat split; lia.
  - unfold bind, read_markdown_file, raise.
    destruct (open_read (main_world host) (py "validation_prompt.md")
                (world s)) as [[e|template] w1];
      cbn [snd app]; (split; [reflexivity|]); (split;
        [intros h' i [Hin|[]]; discriminate|cbn; repeat split; lia]).
Qed.

(** The steps the page runs respect the discipline of the globals. *)
Lemma M_ok_validate (fd : pystr) (x : pyvalue) : M_ok (validate host fd x).
Proof.
  destruct x as [data|c]; cbn [validate].
  - apply M_ok_validate_extracted_data.
  - apply M_ok_bind; [apply M_ok_read|].
    intros _ s r s' t H. inversion H; subst. apply step_ok_refl.
Qed.

Lemma process_keeps_handle (path fd : pystr) (s s' : state W)
    (r : exn + unit) (t : list page_event) (h : ref) :
  _json_model s = Some h ->
  process host path fd s = (r, s', t) ->
  _json_model s' = Some h.
Proof.
  intros Hj. rewrite process_run.
  destruct (new_event_loop host (world s)) as [[e|] w1].
  { intros H; inversion H; subst. exact Hj. }
  destruct (extract_fields (main_world host) path fd (set_world s w1))
    as [[rx s2] t2] eqn:Ex.
  apply M_ok_extract_fields in Ex.
  destruct Ex as (_ & _ & _ & _ & Hkeep & _).
  destruct (Hkeep h Hj) as [Hj2 _].
  destruct rx as [e|x]; [intros H; inversion H; subst; exact Hj2|].
  destruct (validate host fd x s2) as [[rv s3] t3] eqn:Ev.
  apply M_ok_validate in Ev.
  destruct Ev as (_ & _ & _ & _ & Hkeep3 & _).
  destruct (Hkeep3 h Hj2) as [Hj3 _].
  destruct rv as [e|v]; [intros H; inversion H; subst; exact Hj3|].
  destruct (loop_close host (world s3)) as [[e|] w4].
  { intros H; inversion H; subst. exact Hj3. }
  destruct (display_results_pure x v (set_world s3 w4))
    as (r5 & outs & -> & _).
  intros H; inversion H; subst. exact Hj3.
Qed.

(** X22: once the structured handle exists, a click constructs no model.
    From a state in which [_json_model] holds a handle, a run of the
    handler, whatever its outcome, creates no chat model, wraps nothing
    and assigns no global; every model call it makes goes to that handle,
    and the handle is still cached afterwards. *)
Theorem cached_model_is_reused (extract_button : bool)
    (uploaded_file : option (list Byte.byte)) (fields_description : pystr)
    (s s' : state W) (r : exn + unit) (t : list page_event) (h : ref) :
  _json_model s = Some h ->
  process_extraction host extract_button uploaded_file fields_description s
    = (r, s', t) ->
  _json_model s' = Some h
  /\ filter is_construction_event (main_events t) = []
  /\ (forall h' i, In (EvInvoke h' i) (main_events t) -> h' = h).
Proof.
  intros Hj Hrun.
  destruct extract_button;
    [|inversion Hrun; subst; repeat split; auto; intros h' i []].
  destruct uploaded_file as [data|];
    [|inversion Hrun; subst; repeat split; auto; intros h' i []].
  pose proof (process_extraction_main_events data fields_description s)
    as Hm.
  rewrite Hrun in Hm. cbn [snd] in Hm. rewrite Hm. clear Hm.
  rewrite process_extraction_run in Hrun.
  destruct (named_temporary_file host (py ".pdf") (world s))
    as [[e|path] w1].
  { inversion Hrun; subst. repeat split; auto. intros h' i []. }
  destruct (write_close host path data w1) as [[e|] w2].
  { inversion Hrun; subst. repeat split; auto. intros h' i []. }
  rewrite process_main_events.
  destruct (process host path fields_description (set_world s w2))
    as [[rp s3] t3] eqn:Ep.
  apply (@process_keeps_handle path fields_description (set_world s w2)
           s3 rp t3 h Hj) in Ep.
  destruct (os_unlink host path (world s3)) as [ru w4].
  inversion Hrun; subst. clear Hrun. split; [exact Ep|].
  change (world (set_world s w2)) with w2.
  destruct (new_event_loop host w2) as [[e|] w5].
  { split; [reflexivity|intros h' i []]. }
  change (set_world (set_world s w2) w5) with (set_world s w5).
  pose proof (@extract_fields_cached path fields_description
                (set_world s w5) h Hj) as (Hc & Hi).
  unfold trace_of in Hc, Hi.
  destruct (extract_fields (main_world host) path fields_description
              (set_world s w5)) as [[rx s6] t6] eqn:Ex.
  cbn [snd] in Hc, Hi.
  destruct rx as [e|x]; [split; assumption|].
  apply M_ok_extract_fields in Ex.
  destruct Ex as (_ & _ & _ & _ & Hkeep & _).
  destruct (Hkeep h Hj) as [Hj6 _].
  pose proof (@validate_cached fields_description x s6 h Hj6)
    as (Hc' & Hi' & _).
  split.
  - now rewrite filter_app, Hc, Hc'.
  - intros h' i Hin. apply in_app_or in Hin. destruct Hin; eauto.
Qed.

(** X23: what a click costs at most.  Whatever happens, a run of the
    handler loads at most one document, makes at most one attempt to
    create the chat model and one to wrap it, reads at most two templates,
    formats at most two prompts and invokes the model at most twice: the
    validation starts only when the extraction has returned, and by then
    the handle is cached. *)
Theorem click_is_bounded (extract_button : bool)
    (uploaded_file : option (list Byte.byte)) (fields_description : pystr)
    (s : state W) :
  let t :=
    main_events
      (snd (process_extraction host extract_button uploaded_file
              fields_description s)) in
  count is_load t <= 1 /\ count is_read t <= 2 /\ count is_format t <= 2
  /\ count is_init_chat_model t <= 1 /\ count is_structured t <= 1
  /\ count is_invoke t <= 2.
Proof.
  cbv zeta.
  destruct extract_button; [|cbn; repeat split; lia].
  destruct uploaded_file as [data|]; [|cbn; repeat split; lia].
  rewrite process_extraction_main_events.
  destruct (named_temporary_file host (py ".pdf") (world s))
    as [[e|path] w1]; [cbn; repeat split; lia|].
  destruct (write_close host path data w1) as [[e|] w2];
    [cbn; repeat split; lia|].
  rewrite process_main_events. change (world (set_world s w2)) with w2.
  destruct (new_event_loop host w2) as [[e|] w5]; [cbn; repeat split; lia|].
  change (set_world (set_world s w2) w5) with (set_world s w5).
  pose proof (extract_fields_counts (main_world host) path
                fields_description (set_world s w5)) as Hx.
  cbv zeta in Hx. unfold trace_of in Hx.
  destruct (extract_fields (main_world host) path fields_description
              (set_world s w5)) as [[rx s6] t6] eqn:Ex.
  cbn [snd] in Hx. destruct Hx as (H1 & H2 & H3 & H4 & H5 & H6).
  destruct rx as [e|x]; [repeat split; lia|].
  apply extract_fields_returned in Ex. destruct Ex as [h Hj6].
  pose proof (@validate_cached fields_description x s6 h Hj6)
    as (_ & _ & V1 & V2 & V3 & V4 & V5 & V6).
  rewrite !count_app. repeat split; lia.
Qed.

End PageAndModel.

(** X22, on the end-to-end scenario: a second click. *)
Lemma cached_model_is_reused_witness :
  _json_model (snd (fst Page.second_click)) = Some 1
  /\ filter is_construction_event
       (Page.main_events (snd Page.second_click)) = []
  /\ (forall h' i,
        In (EvInvoke h' i) (Page.main_events (snd Page.second_click)) ->
        h' = 1).
Proof.
  apply (@cached_model_is_reused bool (Page.stub_host Page.pipeline_world)
           true (Some Page.demo_upload) (py "Name")
           (snd (fst Page.first_click))
           (snd (fst Page.second_click)) (fst (fst Page.second_click))
           (snd Page.second_click) 1);
    vm_compute; reflexivity.
Defined.
